(** * Device supervisor of the SI12 mass-flow bench: model and properties

    A shallow embedding of [backend/devices.py] (class [MassiqueManager]),
    [backend/settings.py] (tag persistence) and [backend/app.py] (class
    [Api]) and the properties of the supervisor proved over it.

    Conventions of the embedding:
    - a Python [float] is an IEEE-754 binary64 value, carried by
      [spec_float] with precision 53 and maximal exponent 1024;
    - a Python exception is a [Raise] result; the state reached when the
      exception was raised is kept, as in Python;
    - the Brooks driver ([sprotocol.device.mfc]) and the serial port are
      outside the repository: every call to them is appended to a trace
      and answered by an oracle that sees the calls made so far;
    - [with self.serial_lock:] is the combinator [with_serial_lock], which
      has no effect in a sequential run; the poller is interleaved with
      the commands at the granularity of one poll cycle. *)

From Stdlib Require Import ZArith String Ascii List Bool Lia.
From Stdlib Require Import Floats.SpecFloat.
From stdpp Require Import gmap strings list pretty.

Local Open Scope Z_scope.

(** ** Python runtime values *)

Module Py.

(** [float]: binary64. *)
Definition float : Type := spec_float.
Definition prec : Z := 53.
Definition emax : Z := 1024.

(** The float nearest to an integer (round to nearest, ties to even). *)
Definition float_of_Z (z : Z) : float := binary_normalize prec emax z 0 false.

Definition f0 : float := S754_zero false.      (* 0.0 *)
Definition f1 : float := float_of_Z 1.         (* 1.0 *)
Definition f100 : float := float_of_Z 100.     (* 100.0 *)

Definition flt (x y : float) : bool := SFltb x y.             (* x < y *)
Definition fle (x y : float) : bool := SFleb x y.             (* x <= y *)
Definition fdiv (x y : float) : float := SFdiv prec emax x y. (* x / y *)
Definition fmul (x y : float) : float := SFmul prec emax x y. (* x * y *)

Definition is_nan (x : float) : bool :=
  match x with S754_nan => true | _ => false end.

(** [bool(x)] for a float: every value but the two zeros. *)
Definition float_truthy (x : float) : bool :=
  match x with S754_zero _ => false | _ => true end.

Inductive exn :=
| IndexError (msg : string)
| RuntimeError (msg : string)
| KeyError (key : string)
| TypeError
| OverflowError
| OSError
| DriverError.   (* whatever the driver or pyserial raised *)

Inductive Res (A : Type) :=
| Ok (a : A)
| Raise (e : exn).
Arguments Ok {A} a.
Arguments Raise {A} e.

(** The objects that reach the supervisor as numbers: [None], [bool],
    [int] and [float]. *)
Inductive pyval :=
| VNone
| VBool (b : bool)
| VInt (z : Z)
| VFloat (f : float).

(** [bool(v)]. *)
Definition truthy (v : pyval) : bool :=
  match v with
  | VNone => false
  | VBool b => b
  | VInt z => negb (z =? 0)
  | VFloat f => float_truthy f
  end.

(** [float(v)]: [None] is a [TypeError], an [int] beyond the range of
    binary64 an [OverflowError]. *)
Definition py_float (v : pyval) : Res float :=
  match v with
  | VNone => Raise TypeError
  | VBool b => Ok (if b then f1 else f0)
  | VInt z =>
      match float_of_Z z with
      | S754_infinity _ => Raise OverflowError
      | f => Ok f
      end
  | VFloat f => Ok f
  end.

(** [a or b]. *)
Definition val_or (a b : pyval) : pyval := if truthy a then a else b.

(** [l[-n:]] for [n > 0]. *)
Definition slice_last {A} (n : nat) (l : list A) : list A :=
  drop (length l - n)%nat l.

(** [s[:n]]. *)
Definition str_take (n : nat) (s : string) : string := substring 0 n s.

(** [s.ljust(n, c)]. *)
Fixpoint str_repeat (c : ascii) (n : nat) : string :=
  match n with
  | O => EmptyString
  | S k => String c (str_repeat c k)
  end.

Definition ljust (n : nat) (c : ascii) (s : string) : string :=
  (s +:+ str_repeat c (n - String.length s)%nat)%string.

(** [s.rjust(n, c)], used by the format [{:05d}]. *)
Definition rjust (n : nat) (c : ascii) (s : string) : string :=
  (str_repeat c (n - String.length s)%nat +:+ s)%string.

End Py.
Import Py.

(** ** [devices.py]: data *)

(** [pack_tag_name]: the 8-character tag packed 6 bits per character into
    6 bytes. The tag is first cut and padded with underscores to 8
    characters. A character of a [string] stands for one character of the
    Python string: the embedding covers the tags whose characters have a
    code point below 256. *)
Definition pad8 (tag : string) : string := ljust 8 "_" (str_take 8 tag).

Definition ord6 (ch : ascii) : Z := Z.land (Z.of_N (N_of_ascii ch)) 0x3F.

Definition pack4 (c0 c1 c2 c3 : Z) : list Z :=
  [ Z.lor (Z.shiftl c0 2) (Z.shiftr c1 4);
    Z.lor (Z.shiftl (Z.land c1 0x0F) 4) (Z.shiftr c2 2);
    Z.lor (Z.shiftl (Z.land c2 0x03) 6) c3 ].

Definition pack_groups (cs : list Z) : list Z :=
  match cs with
  | [c0; c1; c2; c3; c4; c5; c6; c7] => pack4 c0 c1 c2 c3 ++ pack4 c4 c5 c6 c7
  | _ => []
  end.

Definition pack_tag_name (tag : string) : list Z :=
  pack_groups (ord6 <$> list_ascii_of_string (pad8 tag)).

(** A telemetry sample: [(value, unit)]. *)
Definition sample : Type := pyval * string.
Definition unknown : sample := (VInt 0, "N/A"%string).

Record DeviceState := mkDeviceState {
  index : Z;
  tag : string;
  active : bool;
  selected_gas : option Z;
  available_gases : list string;
  gas_map : gmap string Z;
  consigne : float;
  full_scale_value : float;
  mesure : sample;
  temperature : sample;
  full_scale : sample;
  totalization_value : sample;
  valve_command : string;
  ramp_active : bool;
  ramp_time_s : float;
  measurements : list (float * Z);
  consigne_points : list (float * Z)
}.

(** A fresh [DeviceState(index=i, tag=t)]: the dataclass defaults. *)
Definition new_DeviceState (i : Z) (t : string) : DeviceState :=
  {| index := i; tag := t; active := false; selected_gas := None;
     available_gases := []; gas_map := ∅;
     consigne := f0; full_scale_value := f0;
     mesure := unknown; temperature := unknown; full_scale := unknown;
     totalization_value := unknown; valve_command := "N/A";
     ramp_active := false; ramp_time_s := f1;
     measurements := []; consigne_points := [] |}.

(** Attribute assignments [d.field = v]. *)
Definition set_tag_field (v : string) (d : DeviceState) : DeviceState :=
  mkDeviceState (index d) v (active d) (selected_gas d) (available_gases d)
    (gas_map d) (consigne d) (full_scale_value d) (mesure d) (temperature d)
    (full_scale d) (totalization_value d) (valve_command d) (ramp_active d)
    (ramp_time_s d) (measurements d) (consigne_points d).
Definition set_active (v : bool) (d : DeviceState) : DeviceState :=
  mkDeviceState (index d) (tag d) v (selected_gas d) (available_gases d)
    (gas_map d) (consigne d) (full_scale_value d) (mesure d) (temperature d)
    (full_scale d) (totalization_value d) (valve_command d) (ramp_active d)
    (ramp_time_s d) (measurements d) (consigne_points d).
Definition set_selected_gas (v : option Z) (d : DeviceState) : DeviceState :=
  mkDeviceState (index d) (tag d) (active d) v (available_gases d)
    (gas_map d) (consigne d) (full_scale_value d) (mesure d) (temperature d)
    (full_scale d) (totalization_value d) (valve_command d) (ramp_active d)
    (ramp_time_s d) (measurements d) (consigne_points d).
Definition set_available_gases (v : list string) (d : DeviceState) : DeviceState :=
  mkDeviceState (index d) (tag d) (active d) (selected_gas d) v
    (gas_map d) (consigne d) (full_scale_value d) (mesure d) (temperature d)
    (full_scale d) (totalization_value d) (valve_command d) (ramp_active d)
    (ramp_time_s d) (measurements d) (consigne_points d).
Definition set_gas_map (v : gmap string Z) (d : DeviceState) : DeviceState :=
  mkDeviceState (index d) (tag d) (active d) (selected_gas d) (available_gases d)
    v (consigne d) (full_scale_value d) (mesure d) (temperature d)
    (full_scale d) (totalization_value d) (valve_command d) (ramp_active d)
    (ramp_time_s d) (measurements d) (consigne_points d).
Definition set_consigne (v : float) (d : DeviceState) : DeviceState :=
  mkDeviceState (index d) (tag d) (active d) (selected_gas d) (available_gases d)
    (gas_map d) v (full_scale_value d) (mesure d) (temperature d)
    (full_scale d) (totalization_value d) (valve_command d) (ramp_active d)
    (ramp_time_s d) (measurements d) (consigne_points d).
Definition set_full_scale_value (v : float) (d : DeviceState) : DeviceState :=
  mkDeviceState (index d) (tag d) (active d) (selected_gas d) (available_gases d)
    (gas_map d) (consigne d) v (mesure d) (temperature d)
    (full_scale d) (totalization_value d) (valve_command d) (ramp_active d)
    (ramp_time_s d) (measurements d) (consigne_points d).
Definition set_mesure (v : sample) (d : DeviceState) : DeviceState :=
  mkDeviceState (index d) (tag d) (active d) (selected_gas d) (available_gases d)
    (gas_map d) (consigne d) (full_scale_value d) v (temperature d)
    (full_scale d) (totalization_value d) (valve_command d) (ramp_active d)
    (ramp_time_s d) (measurements d) (consigne_points d).
Definition set_temperature (v : sample) (d : DeviceState) : DeviceState :=
  mkDeviceState (index d) (tag d) (active d) (selected_gas d) (available_gases d)
    (gas_map d) (consigne d) (full_scale_value d) (mesure d) v
    (full_scale d) (totalization_value d) (valve_command d) (ramp_active d)
    (ramp_time_s d) (measurements d) (consigne_points d).
Definition set_full_scale (v : sample) (d : DeviceState) : DeviceState :=
  mkDeviceState (index d) (tag d) (active d) (selected_gas d) (available_gases d)
    (gas_map d) (consigne d) (full_scale_value d) (mesure d) (temperature d)
    v (totalization_value d) (valve_command d) (ramp_active d)
    (ramp_time_s d) (measurements d) (consigne_points d).
Definition set_totalization_value (v : sample) (d : DeviceState) : DeviceState :=
  mkDeviceState (index d) (tag d) (active d) (selected_gas d) (available_gases d)
    (gas_map d) (consigne d) (full_scale_value d) (mesure d) (temperature d)
    (full_scale d) v (valve_command d) (ramp_active d)
    (ramp_time_s d) (measurements d) (consigne_points d).
Definition set_valve_command (v : string) (d : DeviceState) : DeviceState :=
  mkDeviceState (index d) (tag d) (active d) (selected_gas d) (available_gases d)
    (gas_map d) (consigne d) (full_scale_value d) (mesure d) (temperature d)
    (full_scale d) (totalization_value d) v (ramp_active d)
    (ramp_time_s d) (measurements d) (consigne_points d).
Definition set_ramp_active (v : bool) (d : DeviceState) : DeviceState :=
  mkDeviceState (index d) (tag d) (active d) (selected_gas d) (available_gases d)
    (gas_map d) (consigne d) (full_scale_value d) (mesure d) (temperature d)
    (full_scale d) (totalization_value d) (valve_command d) v
    (ramp_time_s d) (measurements d) (consigne_points d).
Definition set_ramp_time_s (v : float) (d : DeviceState) : DeviceState :=
  mkDeviceState (index d) (tag d) (active d) (selected_gas d) (available_gases d)
    (gas_map d) (consigne d) (full_scale_value d) (mesure d) (temperature d)
    (full_scale d) (totalization_value d) (valve_command d) (ramp_active d)
    v (measurements d) (consigne_points d).
Definition set_measurements (v : list (float * Z)) (d : DeviceState) : DeviceState :=
  mkDeviceState (index d) (tag d) (active d) (selected_gas d) (available_gases d)
    (gas_map d) (consigne d) (full_scale_value d) (mesure d) (temperature d)
    (full_scale d) (totalization_value d) (valve_command d) (ramp_active d)
    (ramp_time_s d) v (consigne_points d).
Definition set_consigne_points (v : list (float * Z)) (d : DeviceState) : DeviceState :=
  mkDeviceState (index d) (tag d) (active d) (selected_gas d) (available_gases d)
    (gas_map d) (consigne d) (full_scale_value d) (mesure d) (temperature d)
    (full_scale d) (totalization_value d) (valve_command d) (ramp_active d)
    (ramp_time_s d) (measurements d) v.

(** The open [serial.Serial] object and the driver object bound to it. *)
Record Serial := mkSerial { port : string; is_open : bool }.
Record Mfc := mkMfc { mfc_serial : Serial; tag_name : list Z }.

(** What the supervisor asks of pyserial and of the driver. *)
Inductive call :=
| serial_Serial (port : string)
| serial_close (s : Serial)
| device_mfc (s : Serial)
| get_address (m : Mfc)
| Select_gaz (m : Mfc) (gaz_id : Z)
| Select_nom (m : Mfc) (gaz_id : Z)
| write_totalizer_control (m : Mfc) (mode : Z)
| write_setpoint (m : Mfc) (perc : float) (units : Z)
| mfc_set_vanne (m : Mfc) (cmd : Z)
| red_vanne (m : Mfc)
| write_ramp_control (m : Mfc) (mode : Z)
| write_linear_ramp_value (m : Mfc) (t : float)
| read_flow_rate (m : Mfc) (g : Z)
| read_dynamic (m : Mfc)
| read_full_scale_flow_rate (m : Mfc) (g : Z)
| read_totalizer_value (m : Mfc).

(** The answer to a call: it raises, or it returns; each call reads the
    component of the answer that has its return type. *)
Record reply := mkReply {
  raises : bool;
  r_bytes : string;               (* [Select_nom]: the raw name *)
  r_sample : option sample;       (* the [read_*] calls: a pair or [None] *)
  r_label : option string         (* [red_vanne]: a label or [None] *)
}.

Record MassiqueManager := mkManager {
  serial_port : option Serial;
  max_devices : nat;
  devices : list DeviceState;
  mfc_objs : list (option Mfc);            (* [_mfc_objs] *)
  poll_stop : bool;                        (* [_poll_stop] is set *)
  poll_thread : option bool                (* [_poll_thread], and whether it is alive *)
}.

(** The supervisor and what surrounds it: the calls made so far, the bus
    that answers them, the wall clock read by [datetime.now()], and the
    tag file of [settings.py]. *)
Record World := mkWorld {
  mgr : MassiqueManager;
  trace : list call;
  bus : list call -> call -> reply;
  clock : nat -> Z;
  ticks : nat;
  config_dir_ok : bool;                    (* [os.makedirs(CONFIG_DIR)] succeeds *)
  tags_writable : bool;                    (* the tag file can be written *)
  tags_file : option (list string)         (* the list under "tags", if readable *)
}.

Definition set_mgr (m : MassiqueManager) (w : World) : World :=
  mkWorld m (trace w) (bus w) (clock w) (ticks w) (config_dir_ok w)
    (tags_writable w) (tags_file w).
Definition set_trace (t : list call) (w : World) : World :=
  mkWorld (mgr w) t (bus w) (clock w) (ticks w) (config_dir_ok w)
    (tags_writable w) (tags_file w).
Definition set_ticks (n : nat) (w : World) : World :=
  mkWorld (mgr w) (trace w) (bus w) (clock w) n (config_dir_ok w)
    (tags_writable w) (tags_file w).
Definition set_tags_file (f : option (list string)) (w : World) : World :=
  mkWorld (mgr w) (trace w) (bus w) (clock w) (ticks w) (config_dir_ok w)
    (tags_writable w) f.

Definition set_serial_port (v : option Serial) (m : MassiqueManager) : MassiqueManager :=
  mkManager v (max_devices m) (devices m) (mfc_objs m) (poll_stop m) (poll_thread m).
Definition set_devices (v : list DeviceState) (m : MassiqueManager) : MassiqueManager :=
  mkManager (serial_port m) (max_devices m) v (mfc_objs m) (poll_stop m) (poll_thread m).
Definition set_mfc_objs (v : list (option Mfc)) (m : MassiqueManager) : MassiqueManager :=
  mkManager (serial_port m) (max_devices m) (devices m) v (poll_stop m) (poll_thread m).
Definition set_poll_stop (v : bool) (m : MassiqueManager) : MassiqueManager :=
  mkManager (serial_port m) (max_devices m) (devices m) (mfc_objs m) v (poll_thread m).
Definition set_poll_thread (v : option bool) (m : MassiqueManager) : MassiqueManager :=
  mkManager (serial_port m) (max_devices m) (devices m) (mfc_objs m) (poll_stop m) v.

(** ** The monad of the embedding: state and exceptions *)

Definition M (A : Type) : Type := World -> Res A * World.

Definition ret {A} (a : A) : M A := fun w => (Ok a, w).
Definition raise {A} (e : exn) : M A := fun w => (Raise e, w).
Definition bind {A B} (m : M A) (k : A -> M B) : M B :=
  fun w => match m w with
           | (Ok a, w') => k a w'
           | (Raise e, w') => (Raise e, w')
           end.

(** [try: m except Exception as e: h e]. *)
Definition try_except {A} (m : M A) (h : exn -> M A) : M A :=
  fun w => match m w with
           | (Ok a, w') => (Ok a, w')
           | (Raise e, w') => h e w'
           end.

Declare Scope py_scope.
Delimit Scope py_scope with py.
Notation "'let!' x ':=' m 'in' k" := (bind m (fun x => k))
  (at level 10, x name, m at level 100, k at level 200) : py_scope.
Notation "m '>>' k" := (bind m (fun _ => k))
  (at level 100, k at level 200, right associativity) : py_scope.
Local Open Scope py_scope.

Definition gets {A} (f : MassiqueManager -> A) : M A := fun w => (Ok (f (mgr w)), w).
Definition modify (f : MassiqueManager -> MassiqueManager) : M unit :=
  fun w => (Ok tt, set_mgr (f (mgr w)) w).
Definition lift {A} (r : Res A) : M A := fun w => (r, w).

(** [for x in l: body x]. *)
Fixpoint for_each {A} (l : list A) (body : A -> M unit) : M unit :=
  match l with
  | [] => ret tt
  | x :: l' => body x >> for_each l' body
  end.

(** A call to pyserial or to the driver: recorded, then answered. *)
Definition ask (c : call) : M reply :=
  fun w =>
    let r := bus w (trace w) c in
    let w' := set_trace (trace w ++ [c]) w in
    if raises r then (Raise DriverError, w') else (Ok r, w').

Definition with_serial_lock {A} (m : M A) : M A := m.

(** [time.sleep]: no effect on the state. *)
Definition sleep (seconds : float) : M unit := ret tt.

(** [datetime.datetime.now()]. *)
Definition datetime_now : M Z :=
  fun w => (Ok (clock w (ticks w)), set_ticks (S (ticks w)) w).

(** ** [devices.py]: class [MassiqueManager] *)

(** [self.devices[i]], read through the list or through the alias [d]. *)
Definition deref (i : nat) : M DeviceState :=
  let! ds := gets devices in
  match ds !! i with
  | Some d => ret d
  | None => raise (IndexError "list index out of range")
  end.

(** An assignment to attributes of the object [self.devices[i]]. *)
Definition upd_dev (i : nat) (f : DeviceState -> DeviceState) : M unit :=
  modify (fun m => set_devices (alter f i (devices m)) m).

(** [self._mfc_objs[i]] and [self._mfc_objs[i] = v]. *)
Definition get_mfc (i : nat) : M (option Mfc) :=
  let! ms := gets mfc_objs in
  match ms !! i with
  | Some o => ret o
  | None => raise (IndexError "list index out of range")
  end.

Definition set_mfc (i : nat) (v : option Mfc) : M unit :=
  let! ms := gets mfc_objs in
  if (i <? length ms)%nat
  then modify (set_mfc_objs (<[i := v]> ms))
  else raise (IndexError "list assignment index out of range").

(** [__init__]. *)
Definition default_tag (i : nat) : string :=
  pad8 ("MFC" +:+ rjust 5 "0" (pretty (i + 1)%nat)).

Definition init_manager (tags : list string) (max_devices : nat) : MassiqueManager :=
  {| serial_port := None;
     max_devices := max_devices;
     devices := (fun i => new_DeviceState (Z.of_nat i)
                            (if (i <? length tags)%nat
                             then default (default_tag i) (tags !! i)
                             else default_tag i)) <$> seq 0 max_devices;
     mfc_objs := replicate max_devices None;
     poll_stop := false;
     poll_thread := None |}.

(** [bool(self.serial_port and self.serial_port.is_open)]. *)
Definition connected (m : MassiqueManager) : bool :=
  match serial_port m with
  | Some s => is_open s
  | None => false
  end.

(** [open_serial_port]: a [SerialException] becomes a [RuntimeError]. *)
Definition open_serial_port (p : string) : M Serial :=
  try_except
    (ask (serial_Serial p) >> ret (mkSerial p true))
    (fun _ => raise (RuntimeError ("Impossible d'ouvrir le port série " +:+ p))).

Definition _get (idx : Z) : M DeviceState :=
  let! n := gets max_devices in
  if (0 <=? idx) && (idx <? Z.of_nat n)
  then deref (Z.to_nat idx)
  else raise (IndexError "device index out of range").

Definition _need_mfc (idx : Z) : M Mfc :=
  let! d := _get idx in
  let! mfc := get_mfc (Z.to_nat idx) in
  match mfc with
  | Some m => if negb (active d) then raise (RuntimeError "Device OFF") else ret m
  | None => raise (RuntimeError "Device OFF")
  end.

Definition _reset_data (d : DeviceState) : DeviceState :=
  set_totalization_value unknown
    (set_consigne_points []
      (set_measurements []
        (set_valve_command "N/A"
          (set_full_scale unknown
            (set_temperature unknown
              (set_mesure unknown d)))))).

(** The polling thread: started by [connect], stopped by [disconnect]. The
    join of [_stop_polling] is taken to succeed within its timeout. *)
Definition thread_alive (m : MassiqueManager) : bool :=
  match poll_thread m with
  | Some alive => alive
  | None => false
  end.

Definition _start_polling : M unit :=
  let! alive := gets thread_alive in
  if alive then ret tt
  else modify (set_poll_stop false) >> modify (set_poll_thread (Some true)).

Definition _stop_polling : M unit :=
  modify (set_poll_stop true) >>
  let! alive := gets thread_alive in
  if alive then modify (set_poll_thread (Some false)) else ret tt.

Definition disconnect : M unit :=
  _stop_polling >>
  let! sp := gets serial_port in
  match sp with
  | Some s =>
      if is_open s
      then try_except (ask (serial_close s) >> ret tt) (fun _ => ret tt)
      else ret tt
  | None => ret tt
  end >>
  modify (set_serial_port None) >>
  let! n := gets max_devices in
  for_each (seq 0 n) (fun i =>
    set_mfc i None >>
    deref i >>
    upd_dev i (set_active false)).

Definition connect (p : string) : M unit :=
  disconnect >>
  let! s := open_serial_port p in
  modify (set_serial_port (Some s)) >>
  _start_polling.

(** *** Commands *)

Definition set_tag (idx : Z) (t : string) : M unit :=
  _get idx >>
  upd_dev (Z.to_nat idx) (set_tag_field (pad8 t)).

(** The clamp of [send_consigne]:
    [if c < 0: c = 0.0] then
    [if d.full_scale_value and c > d.full_scale_value: c = d.full_scale_value]. *)
Definition clamp (fsv c : float) : float :=
  let c := if flt c f0 then f0 else c in
  if float_truthy fsv && flt fsv c then fsv else c.

(** [(d.consigne / d.full_scale_value) * 100.0]. *)
Definition percent (c fsv : float) : float := fmul (fdiv c fsv) f100.

Definition send_consigne (idx : Z) (v : pyval) : M unit :=
  let! d := _get idx in
  let! mfc := _need_mfc idx in
  match py_float v with
  | Raise _ => ret tt
  | Ok c =>
      let c := clamp (full_scale_value d) c in
      upd_dev (Z.to_nat idx) (set_consigne c) >>
      if negb (float_truthy (full_scale_value d)) then ret tt
      else
        let perc := percent c (full_scale_value d) in
        with_serial_lock (ask (write_setpoint mfc perc 57)) >>
        let! now := datetime_now in
        upd_dev (Z.to_nat idx) (fun d =>
          set_consigne_points
            (slice_last 3600 (consigne_points d ++ [(consigne d, now)])) d)
  end.

(** [{"Ouverture": 1, "Fermeture": 2, "Régulation": 0}.get(action)]. *)
Definition valve_cmd (action : string) : option Z :=
  if String.eqb action "Ouverture" then Some 1
  else if String.eqb action "Fermeture" then Some 2
  else if String.eqb action "Régulation" then Some 0
  else None.

(** [x or "N/A"] for what [red_vanne] returns. *)
Definition label_or_na (l : option string) : string :=
  match l with
  | Some (String c s) => String c s
  | _ => "N/A"
  end.

Definition set_vanne (idx : Z) (action : string) : M unit :=
  _get idx >>
  let! mfc := _need_mfc idx in
  match valve_cmd action with
  | None => ret tt
  | Some cmd =>
      with_serial_lock
        (ask (mfc_set_vanne mfc cmd) >>
         let! r := ask (red_vanne mfc) in
         upd_dev (Z.to_nat idx) (set_valve_command (label_or_na (r_label r))))
  end.

Definition reset_totalization (idx : Z) : M unit :=
  _get idx >>
  let! mfc := _need_mfc idx in
  with_serial_lock (ask (write_totalizer_control mfc 2)) >>
  upd_dev (Z.to_nat idx) (fun d =>
    set_totalization_value (VInt 0, snd (totalization_value d)) d).

Definition apply_ramp_settings (idx : Z) (ramp_active ramp_time_s : pyval) : M unit :=
  _get idx >>
  let! mfc := _need_mfc idx in
  let on := truthy ramp_active in
  let t := match py_float ramp_time_s with Ok t => t | Raise _ => f1 end in
  let t := if fle t f0 then f1 else t in
  upd_dev (Z.to_nat idx) (set_ramp_active on) >>
  upd_dev (Z.to_nat idx) (set_ramp_time_s t) >>
  with_serial_lock
    (if negb on then ask (write_ramp_control mfc 0) >> ret tt
     else ask (write_ramp_control mfc 4) >>
          ask (write_linear_ramp_value mfc t) >> ret tt).

Definition select_gas (idx : Z) (gas_name : string) : M unit :=
  let! d := _get idx in
  let! mfc := _need_mfc idx in
  match gas_map d !! gas_name with
  | None => ret tt
  | Some gaz_id =>
      with_serial_lock (ask (Select_gaz mfc gaz_id)) >>
      upd_dev (Z.to_nat idx) (set_selected_gas (Some gaz_id))
  end.

(** *** Device lifecycle *)

(** [raw.split(b"\x00")[0].decode("ascii", errors="ignore")]. *)
Fixpoint before_nul (raw : string) : string :=
  match raw with
  | EmptyString => EmptyString
  | String c r =>
      if (N_of_ascii c =? 0)%N then EmptyString else String c (before_nul r)
  end.

Fixpoint decode_ascii_ignore (raw : string) : string :=
  match raw with
  | EmptyString => EmptyString
  | String c r =>
      if (N_of_ascii c <? 128)%N
      then String c (decode_ascii_ignore r)
      else decode_ascii_ignore r
  end.

(** One round of the gas discovery loop of [activate]. *)
Definition probe_gas (idx : Z) (mfc : Mfc) (gaz_id : Z) : M unit :=
  try_except
    (let! raw := with_serial_lock
                   (ask (Select_gaz mfc gaz_id) >>
                    let! r := ask (Select_nom mfc gaz_id) in ret (r_bytes r)) in
     let name := decode_ascii_ignore (before_nul raw) in
     match name with
     | EmptyString => ret tt
     | _ =>
         upd_dev (Z.to_nat idx) (fun d =>
           set_gas_map (<[name := gaz_id]> (gas_map d))
             (set_available_gases (available_gases d ++ [name]) d))
     end)
    (fun _ => ret tt).

(** The [try] block of [activate], for the channel record [d] read at
    entry and the open port [s]. *)
Definition activation (idx : Z) (d : DeviceState) (s : Serial) : M unit :=
  ask (device_mfc s) >>
  let mfc := mkMfc s (pack_tag_name (tag d)) in
  with_serial_lock (ask (get_address mfc)) >>
  upd_dev (Z.to_nat idx) (set_active true) >>
  set_mfc (Z.to_nat idx) (Some mfc) >>
  upd_dev (Z.to_nat idx) (set_available_gases []) >>
  upd_dev (Z.to_nat idx) (set_gas_map ∅) >>
  for_each [1; 2; 3; 4] (probe_gas idx mfc) >>
  let! d := deref (Z.to_nat idx) in
  match available_gases d with
  | first :: _ =>
      match gas_map d !! first with
      | Some g =>
          with_serial_lock (ask (Select_gaz mfc g)) >>
          upd_dev (Z.to_nat idx) (set_selected_gas (Some g))
      | None => raise (KeyError first)
      end
  | [] => ret tt
  end >>
  with_serial_lock (ask (write_totalizer_control mfc 1)) >>
  apply_ramp_settings idx (VBool (ramp_active d)) (VFloat (ramp_time_s d)) >>
  set_vanne idx "Régulation" >>
  send_consigne idx (VFloat f0).

(** The [except] block of [activate]. *)
Definition rollback (idx : Z) (e : exn) : M unit :=
  upd_dev (Z.to_nat idx) (set_active false) >>
  set_mfc (Z.to_nat idx) None >>
  raise e.

Definition activate (idx : Z) : M unit :=
  let! d := _get idx in
  let! sp := gets serial_port in
  match sp with
  | Some s =>
      if is_open s
      then try_except (activation idx d s) (rollback idx)
      else raise (RuntimeError "Port série non connecté")
  | None => raise (RuntimeError "Port série non connecté")
  end.

(** The best-effort shutdown of [deactivate]: the [if d.active and mfc:]
    block with its [try]. *)
Definition shutdown (idx : Z) (d : DeviceState) (mfc : option Mfc) : M unit :=
  match mfc with
  | Some m =>
      if active d then
        try_except
          (send_consigne idx (VFloat f0) >>
           sleep (fdiv (float_of_Z 2) (float_of_Z 10)) >>
           with_serial_lock (ask (write_ramp_control m 0)) >> ret tt)
          (fun _ => ret tt)
      else ret tt
  | None => ret tt
  end.

Definition deactivate (idx : Z) : M unit :=
  let! d := _get idx in
  let! mfc := get_mfc (Z.to_nat idx) in
  shutdown idx d mfc >>
  upd_dev (Z.to_nat idx) (set_active false) >>
  set_mfc (Z.to_nat idx) None >>
  upd_dev (Z.to_nat idx) _reset_data.

(** *** Polling *)

(** [reading or (0, "N/A")]. *)
Definition sample_or_unknown (r : option sample) : sample :=
  match r with
  | Some s => s
  | None => unknown
  end.

Definition _poll_one (idx : Z) : M unit :=
  let! d := _get idx in
  let! mfc := _need_mfc idx in
  match selected_gas d with
  | Some _ => ret tt
  | None =>
      match available_gases d with
      | first :: _ => upd_dev (Z.to_nat idx) (set_selected_gas (gas_map d !! first))
      | [] => ret tt
      end
  end >>
  let! d := deref (Z.to_nat idx) in
  match selected_gas d with
  | None => ret tt
  | Some g =>
      let! rs := with_serial_lock
        (let! fr := ask (read_flow_rate mfc g) in
         let! tmp := ask (read_dynamic mfc) in
         let! fs := ask (read_full_scale_flow_rate mfc g) in
         let! tot := ask (read_totalizer_value mfc) in
         let! valve := ask (red_vanne mfc) in
         ret (sample_or_unknown (r_sample fr), sample_or_unknown (r_sample tmp),
              sample_or_unknown (r_sample fs), sample_or_unknown (r_sample tot),
              label_or_na (r_label valve))) in
      let '(fr, tmp, fs, tot, valve) := rs in
      upd_dev (Z.to_nat idx) (set_mesure fr) >>
      upd_dev (Z.to_nat idx) (set_temperature tmp) >>
      let! fsv := lift (py_float (val_or (fst fs) (VInt 0))) in
      upd_dev (Z.to_nat idx) (set_full_scale_value fsv) >>
      upd_dev (Z.to_nat idx) (set_full_scale fs) >>
      upd_dev (Z.to_nat idx) (set_totalization_value tot) >>
      upd_dev (Z.to_nat idx) (set_valve_command valve) >>
      let! now := datetime_now in
      let mv := match py_float (fst fr) with Ok x => x | Raise _ => f0 end in
      upd_dev (Z.to_nat idx) (fun d =>
        set_measurements (slice_last 3600 (measurements d ++ [(mv, now)])) d) >>
      upd_dev (Z.to_nat idx) (fun d =>
        set_consigne_points
          (slice_last 3600 (consigne_points d ++ [(consigne d, now)])) d) >>
      let! d := deref (Z.to_nat idx) in
      if float_truthy (full_scale_value d) && float_truthy (consigne d)
      then try_except (send_consigne idx (VFloat (consigne d))) (fun _ => ret tt)
      else ret tt
  end.

(** The body of the [for] loop of [_poll_loop], one cycle of it, and the
    loop itself, cut after [cycles] rounds. *)
Definition poll_step (i : nat) : M unit :=
  let! d := deref i in
  if negb (active d) then ret tt
  else try_except (_poll_one (Z.of_nat i)) (fun _ => upd_dev i _reset_data).

Definition poll_cycle : M unit :=
  let! n := gets max_devices in
  for_each (seq 0 n) poll_step.

Fixpoint _poll_loop (cycles : nat) : M unit :=
  match cycles with
  | O => ret tt
  | S k =>
      let! stop := gets poll_stop in
      if stop then ret tt
      else poll_cycle >> sleep f1 >> _poll_loop k
  end.

(** *** Snapshot *)

Record DeviceView := mkDeviceView {
  v_index : Z;
  v_tag : string;
  v_active : bool;
  v_consigne : float;
  v_full_scale_value : float;
  v_mesure : sample;
  v_total : sample;
  v_valve : string;
  v_ramp : bool * float;
  v_gases : list string;
  v_selected_gas : option Z
}.

Record Snapshot := mkSnapshot {
  s_connected : bool;
  s_devices : list DeviceView
}.

Definition view (d : DeviceState) : DeviceView :=
  {| v_index := index d; v_tag := tag d; v_active := active d;
     v_consigne := consigne d; v_full_scale_value := full_scale_value d;
     v_mesure := mesure d; v_total := totalization_value d;
     v_valve := valve_command d;
     v_ramp := (ramp_active d, ramp_time_s d);
     v_gases := available_gases d; v_selected_gas := selected_gas d |}.

Definition snapshot (m : MassiqueManager) : Snapshot :=
  {| s_connected := connected m; s_devices := view <$> devices m |}.

(** ** [settings.py]: the persisted tags *)

Definition MAX_MASSIQUES : nat := 12.

Definition ensure_dir : M unit :=
  fun w => if config_dir_ok w then (Ok tt, w) else (Raise OSError, w).

Definition default_tags : list string := default_tag <$> seq 0 MAX_MASSIQUES.

Definition load_tags : M (list string) :=
  ensure_dir >>
  fun w =>
    (Ok match tags_file w with
        | Some tags =>
            if (length tags =? MAX_MASSIQUES)%nat then pad8 <$> tags
            else default_tags
        | None => default_tags
        end, w).

Definition save_tags (tags : list string) : M unit :=
  ensure_dir >>
  fun w =>
    (Ok tt, if tags_writable w then set_tags_file (Some (pad8 <$> tags)) w else w).

(** [l[idx] = v] on a Python list: negative indices count from the end. *)
Definition list_assign {A} (l : list A) (idx : Z) (v : A) : Res (list A) :=
  let n := Z.of_nat (length l) in
  if (0 <=? idx) && (idx <? n) then Ok (<[Z.to_nat idx := v]> l)
  else if (- n <=? idx) && (idx <? 0) then Ok (<[Z.to_nat (idx + n) := v]> l)
  else Raise (IndexError "list assignment index out of range").

(** ** [app.py]: class [Api], the control surface *)

Module Api.

(** What a method hands back to the JavaScript caller. *)
Inductive js_value :=
| JsSnapshot (s : Snapshot)
| JsBool (b : bool).

Definition snapshot : M js_value :=
  let! s := gets snapshot in ret (JsSnapshot s).

Definition connect (p : string) : M js_value := connect p >> snapshot.

Definition disconnect : M js_value := disconnect >> snapshot.

Definition set_tag (idx : Z) (t : string) : M js_value :=
  let! tags := load_tags in
  let tag8 := pad8 t in
  let! tags := lift (list_assign tags idx tag8) in
  save_tags tags >>
  set_tag idx tag8 >>
  ret (JsBool true).

Definition toggle_device (idx : Z) (on : pyval) : M js_value :=
  (if truthy on then activate idx else deactivate idx) >> snapshot.

Definition set_consigne (idx : Z) (v : pyval) : M js_value :=
  send_consigne idx v >> snapshot.

Definition set_vanne (idx : Z) (action : string) : M js_value :=
  set_vanne idx action >> snapshot.

Definition reset_total (idx : Z) : M js_value :=
  reset_totalization idx >> snapshot.

Definition set_ramp (idx : Z) (on time_s : pyval) : M js_value :=
  apply_ramp_settings idx on time_s >> snapshot.

Definition select_gas (idx : Z) (gas_name : string) : M js_value :=
  select_gas idx gas_name >> snapshot.

(** The mutating calls of the control surface, and the manager method
    each one wraps. *)
Inductive request :=
| Connect (p : string)
| Disconnect
| ToggleDevice (idx : Z) (on : pyval)
| SetTag (idx : Z) (t : string)
| SetConsigne (idx : Z) (v : pyval)
| SetVanne (idx : Z) (action : string)
| ResetTotal (idx : Z)
| SetRamp (idx : Z) (on time_s : pyval)
| SelectGas (idx : Z) (gas_name : string).

Definition serve (r : request) : M js_value :=
  match r with
  | Connect p => connect p
  | Disconnect => disconnect
  | ToggleDevice idx on => toggle_device idx on
  | SetTag idx t => set_tag idx t
  | SetConsigne idx v => set_consigne idx v
  | SetVanne idx a => set_vanne idx a
  | ResetTotal idx => reset_total idx
  | SetRamp idx on t => set_ramp idx on t
  | SelectGas idx g => select_gas idx g
  end.

End Api.

(** The manager method behind a request other than [SetTag]. *)
Definition manager_call (r : Api.request) : M unit :=
  match r with
  | Api.Connect p => connect p
  | Api.Disconnect => disconnect
  | Api.ToggleDevice idx on => if truthy on then activate idx else deactivate idx
  | Api.SetTag idx t => set_tag idx (pad8 t)
  | Api.SetConsigne idx v => send_consigne idx v
  | Api.SetVanne idx a => set_vanne idx a
  | Api.ResetTotal idx => reset_totalization idx
  | Api.SetRamp idx on t => apply_ramp_settings idx on t
  | Api.SelectGas idx g => select_gas idx g
  end.

(** ** Runs of the supervisor

    A run starts from a freshly built manager and interleaves requests of
    the control surface with rounds of the polling thread. A request that
    raises leaves the state it reached and the run goes on. *)

Inductive step :=
| Request (r : Api.request)
| Poll (cycles : nat).

Definition exec (s : step) : M unit :=
  match s with
  | Request r => Api.serve r >> ret tt
  | Poll cycles =>
      let! alive := gets thread_alive in
      if alive then _poll_loop cycles else ret tt
  end.

Fixpoint run (steps : list step) (w : World) : World :=
  match steps with
  | [] => w
  | s :: rest => run rest (snd (exec s w))
  end.

Definition init_world (tags : list string) (n : nat)
    (bus : list call -> call -> reply) (clock : nat -> Z)
    (dir_ok writable : bool) (file : option (list string)) : World :=
  {| mgr := init_manager tags n; trace := []; bus := bus; clock := clock;
     ticks := O; config_dir_ok := dir_ok; tags_writable := writable;
     tags_file := file |}.

(** ** Predicates used by the statements *)

(** The lists of the manager have [max_devices] entries. *)
Definition wf_mgr (m : MassiqueManager) : Prop :=
  length (devices m) = max_devices m /\ length (mfc_objs m) = max_devices m.

Definition wf (w : World) : Prop :=
  length (devices (mgr w)) = max_devices (mgr w) /\
  length (mfc_objs (mgr w)) = max_devices (mgr w).

(** The channel record and the binding of channel [idx]. *)
Definition chan (w : World) (idx : Z) : option DeviceState :=
  devices (mgr w) !! Z.to_nat idx.
Definition binding (w : World) (idx : Z) : option Mfc :=
  mjoin (mfc_objs (mgr w) !! Z.to_nat idx).

Definition in_range (w : World) (idx : Z) : Prop :=
  0 <= idx < Z.of_nat (max_devices (mgr w)).

(** Telemetry and histories carry the unknown sentinel: the fields that
    [_reset_data] assigns. *)
Definition telemetry_unknown (d : DeviceState) : Prop :=
  mesure d = unknown /\ temperature d = unknown /\ full_scale d = unknown /\
  totalization_value d = unknown /\ valve_command d = "N/A"%string /\
  measurements d = [] /\ consigne_points d = [].

(** The inactive state as the specification words it: no binding, no
    selected gas, empty gas menus, telemetry and histories unknown. *)
Definition inactive_state (w : World) (idx : Z) : Prop :=
  binding w idx = None /\
  exists d, chan w idx = Some d /\ active d = false /\
            selected_gas d = None /\ available_gases d = [] /\
            gas_map d = ∅ /\ telemetry_unknown d.

(** Without an open session no channel is active or bound. *)
Definition session_mgr (m : MassiqueManager) : Prop :=
  connected m = false ->
  Forall (fun d => active d = false) (devices m) /\
  Forall (fun o => o = None) (mfc_objs m).

Definition session_inv (w : World) : Prop :=
  connected (mgr w) = false ->
  Forall (fun d => active d = false) (devices (mgr w)) /\
  Forall (fun o => o = None) (mfc_objs (mgr w)).

Definition history_cap : nat := 3600.

Definition hist_bounded (d : DeviceState) : Prop :=
  (length (measurements d) <= history_cap)%nat /\
  (length (consigne_points d) <= history_cap)%nat.

Definition hist_mgr (m : MassiqueManager) : Prop :=
  Forall hist_bounded (devices m).

(** The five reads of one poll exchange, and the answers of a bus to a
    sequence of calls made after the calls [t]. *)
Definition poll_reads (m : Mfc) (g : Z) : list call :=
  [read_flow_rate m g; read_dynamic m; read_full_scale_flow_rate m g;
   read_totalizer_value m; red_vanne m].

Fixpoint answers (bus : list call -> call -> reply) (t : list call)
    (cs : list call) : list reply :=
  match cs with
  | [] => []
  | c :: rest => bus t c :: answers bus (t ++ [c]) rest
  end.

(** What [disconnect] leaves of a manager whose lists are complete: the
    stop flag set, the thread joined, the port closed if it was open and
    forgotten, every channel unbound and inactive. *)
Definition all_off (m : MassiqueManager) : MassiqueManager :=
  set_devices (set_active false <$> devices m)
    (set_mfc_objs ((fun _ => None) <$> mfc_objs m) m).

Definition disconnected (w : World) : World :=
  set_mgr
    (all_off
       (set_serial_port None
          (set_poll_thread
             (if thread_alive (mgr w) then Some false else poll_thread (mgr w))
             (set_poll_stop true (mgr w)))))
    (set_trace
       (match serial_port (mgr w) with
        | Some s => if is_open s then trace w ++ [serial_close s] else trace w
        | None => trace w
        end) w).

(** ** Invariants of the manager *)

(** [J] is an invariant of the manager along [m], whatever [m] returns. *)
Definition preserves {A} (J : MassiqueManager -> Prop) (m : M A) : Prop :=
  forall w, J (mgr w) -> J (mgr (snd (m w))).

(** The assignments to a channel record made by the commands and by the
    poller; none of them touches [active]. *)
Inductive cmd_update : (DeviceState -> DeviceState) -> Prop :=
| cu_tag t : cmd_update (set_tag_field t)
| cu_consigne c : cmd_update (set_consigne c)
| cu_consigne_point now :
    cmd_update (fun d => set_consigne_points
                 (slice_last 3600 (consigne_points d ++ [(consigne d, now)])) d)
| cu_measurement x :
    cmd_update (fun d => set_measurements
                 (slice_last 3600 (measurements d ++ [x])) d)
| cu_valve_command v : cmd_update (set_valve_command v)
| cu_totalizer_zero :
    cmd_update (fun d => set_totalization_value
                 (VInt 0, snd (totalization_value d)) d)
| cu_ramp_active b : cmd_update (set_ramp_active b)
| cu_ramp_time_s t : cmd_update (set_ramp_time_s t)
| cu_selected_gas g : cmd_update (set_selected_gas g)
| cu_available_gases l : cmd_update (set_available_gases l)
| cu_gas_map gm : cmd_update (set_gas_map gm)
| cu_gas_found name g :
    cmd_update (fun d => set_gas_map (<[name := g]> (gas_map d))
                 (set_available_gases (available_gases d ++ [name]) d))
| cu_mesure x : cmd_update (set_mesure x)
| cu_temperature x : cmd_update (set_temperature x)
| cu_full_scale_value x : cmd_update (set_full_scale_value x)
| cu_full_scale x : cmd_update (set_full_scale x)
| cu_totalization_value x : cmd_update (set_totalization_value x)
| cu_reset : cmd_update _reset_data.

(** The lists of the manager have [n] entries, for the [n] it was built
    with. *)
Definition sized (n : nat) (m : MassiqueManager) : Prop :=
  max_devices m = n /\ length (devices m) = n /\ length (mfc_objs m) = n.

(** Channel [i] exists and is active. *)
Definition active_at (i : nat) (m : MassiqueManager) : Prop :=
  exists d, devices m !! i = Some d /\ active d = true.

(** The record and the binding slot of channel [j] are as given. *)
Definition chan_is (j : nat) (dj : option DeviceState) (oj : option (option Mfc))
    (m : MassiqueManager) : Prop :=
  devices m !! j = dj /\ mfc_objs m !! j = oj.

(** The gas menu and the selected gas of [d'] are those of [d]. *)
Definition same_gas (d d' : DeviceState) : Prop :=
  selected_gas d' = selected_gas d /\
  available_gases d' = available_gases d /\
  gas_map d' = gas_map d.

Definition gas_kept (i : nat) (d : DeviceState) (m : MassiqueManager) : Prop :=
  exists d1, devices m !! i = Some d1 /\ same_gas d d1.

(** Complete lists, and every channel inactive and unbound. *)
Definition all_idle (m : MassiqueManager) : Prop :=
  wf_mgr m /\
  Forall (fun d => active d = false) (devices m) /\
  Forall (fun o => o = None) (mfc_objs m).

Definition safe (m : MassiqueManager) : Prop := wf_mgr m /\ session_mgr m.

(** ** A bench for concrete runs *)

Definition quiet_reply : reply :=
  {| raises := false; r_bytes := ""; r_sample := None; r_label := None |}.
Definition failing_reply : reply :=
  {| raises := true; r_bytes := ""; r_sample := None; r_label := None |}.

(** A bus on which every call returns and nothing is read. *)
Definition quiet_bus : list call -> call -> reply := fun _ _ => quiet_reply.

(** A bench with two gases on every address, a full scale of 100 and a
    valve that reports regulation; gas identifiers 3 and 4 do not answer. *)
Definition bench_bus : list call -> call -> reply := fun _ c =>
  match c with
  | Select_gaz _ g => mkReply (2 <? g) "" None None
  | Select_nom _ 1 => mkReply false "N2" None None
  | Select_nom _ 2 => mkReply false "Ar" None None
  | read_full_scale_flow_rate _ _ =>
      mkReply false "" (Some (VFloat f100, "l/min"%string)) None
  | red_vanne _ => mkReply false "" None (Some "Régulation"%string)
  | _ => quiet_reply
  end.

(** The same bench, on which every setpoint write fails. *)
Definition stuck_bus : list call -> call -> reply := fun t c =>
  match c with
  | write_setpoint _ _ _ => failing_reply
  | _ => bench_bus t c
  end.

(** A bench whose devices do not answer the address probe. *)
Definition mute_bus : list call -> call -> reply := fun _ c =>
  match c with
  | get_address _ => failing_reply
  | _ => quiet_reply
  end.

(** The bench, on which the temperature read fails from the second poll
    on. *)
Definition is_read_dynamic (c : call) : bool :=
  match c with read_dynamic _ => true | _ => false end.

Definition fading_bus : list call -> call -> reply := fun t c =>
  match c with
  | read_dynamic _ => if existsb is_read_dynamic t then failing_reply else bench_bus t c
  | _ => bench_bus t c
  end.

(** A fresh manager with the default tags; then a session on "COM3";
    then channel 0 switched on; then one poll cycle; and channel 0 active
    with a setpoint of 50 sent before any poll. *)
Definition world0 (bus : list call -> call -> reply) : World :=
  init_world [] MAX_MASSIQUES bus (fun n => Z.of_nat n) true true None.
Definition w_connected (bus : list call -> call -> reply) : World :=
  run [Request (Api.Connect "COM3")] (world0 bus).
Definition w_active (bus : list call -> call -> reply) : World :=
  run [Request (Api.ToggleDevice 0 (VBool true))] (w_connected bus).
Definition w_polled (bus : list call -> call -> reply) : World :=
  run [Poll 1] (w_active bus).
Definition w_pending (bus : list call -> call -> reply) : World :=
  run [Request (Api.SetConsigne 0 (VInt 50))] (w_active bus).

(** The record and the binding of channel 0 in a world where it exists. *)
Definition chan0 (w : World) : DeviceState :=
  default (new_DeviceState 0 "") (chan w 0).
Definition binding0 (w : World) : Mfc :=
  default (mkMfc (mkSerial "" false) []) (binding w 0).

Arguments send_consigne : simpl never.
Arguments slice_last : simpl never.
Arguments clamp : simpl never.
Arguments percent : simpl never.

(** ** Further definitions used by the properties of the code *)

(** The codes of the characters of a padded tag, as [pack_tag_name]
    computes them before packing. *)
Definition tag_codes (t : string) : list Z :=
  ord6 <$> list_ascii_of_string (pad8 t).

(** The three bytes of [pack4], one by one. *)
Definition byte0 (c0 c1 : Z) : Z := Z.lor (Z.shiftl c0 2) (Z.shiftr c1 4).
Definition byte1 (c1 c2 : Z) : Z := Z.lor (Z.shiftl (Z.land c1 0x0F) 4) (Z.shiftr c2 2).
Definition byte2 (c2 c3 : Z) : Z := Z.lor (Z.shiftl (Z.land c2 0x03) 6) c3.

(** The four codes held by three packed bytes. *)
Definition unpack3 (b0 b1 b2 : Z) : list Z :=
  [ Z.shiftr b0 2;
    Z.lor (Z.shiftl (Z.land b0 0x03) 4) (Z.shiftr b1 4);
    Z.lor (Z.shiftl (Z.land b1 0x0F) 2) (Z.shiftr b2 6);
    Z.land b2 0x3F ].

Definition unpack_groups (bs : list Z) : list Z :=
  match bs with
  | [b0; b1; b2; b3; b4; b5] => unpack3 b0 b1 b2 ++ unpack3 b3 b4 b5
  | _ => []
  end.

(** A check run on every six-bit code. *)
Definition for_codes (P : Z -> bool) : bool :=
  forallb P (Z.of_nat <$> seq 0 64).

Definition is_byte (b : Z) : bool := (0 <=? b) && (b <? 256).

(** What is checked of three consecutive codes: the bytes they give are
    bytes, and the codes can be read back from them. *)
Definition pack4_ok (a b c : Z) : bool :=
  is_byte (byte0 a b) && is_byte (byte1 a b) && is_byte (byte2 a b) &&
  (Z.shiftr (byte0 a b) 2 =? a) &&
  (Z.lor (Z.shiftl (Z.land (byte0 a b) 0x03) 4) (Z.shiftr (byte1 b c) 4) =? b) &&
  (Z.lor (Z.shiftl (Z.land (byte1 a b) 0x0F) 2) (Z.shiftr (byte2 b c) 6) =? b) &&
  (Z.land (byte2 a b) 0x3F =? b).

(** The characters that packing tells apart: the 64 characters from the
    space to the underscore (capitals, digits, punctuation). *)
Definition packable (ch : ascii) : bool :=
  (32 <=? N_of_ascii ch)%N && (N_of_ascii ch <? 96)%N.

Definition unord6 (c : Z) : ascii :=
  ascii_of_N (Z.to_N (if c <? 32 then c + 64 else c)).

Fixpoint all_packable (s : string) : bool :=
  match s with
  | EmptyString => true
  | String c r => packable c && all_packable r
  end.


(** The ramp duration [apply_ramp_settings] stores for an argument. *)
Definition ramp_time (ramp_time_s : pyval) : float :=
  let t := match py_float ramp_time_s with Ok t => t | Raise _ => f1 end in
  if fle t f0 then f1 else t.

(** The gas [_poll_one] reads with: the selected one, or else the one the
    menu gives for its first name. *)
Definition poll_gas (d : DeviceState) : option Z :=
  match selected_gas d with
  | Some g => Some g
  | None =>
      match available_gases d with
      | first :: _ => gas_map d !! first
      | [] => None
      end
  end.

(** Channel [i] exists and the observation [proj] of its record is [a];
    an assignment [f] that cannot change the observation. *)
Definition has {A} (i : nat) (proj : DeviceState -> A) (a : A)
    (m : MassiqueManager) : Prop :=
  proj <$> devices m !! i = Some a.

Definition keeps {A} (proj : DeviceState -> A)
    (f : DeviceState -> DeviceState) : Prop :=
  forall d, proj (f d) = proj d.

(** The binding slot of channel [i] is [o]. *)
Definition bound (i : nat) (o : option Mfc) (m : MassiqueManager) : Prop :=
  mfc_objs m !! i = Some o.

(** What a poll exchange stores of the device's answers. *)
Definition telemetry (d : DeviceState) :
    sample * sample * sample * float * sample * string * option Z :=
  (mesure d, temperature d, full_scale d, full_scale_value d,
   totalization_value d, valve_command d, selected_gas d).

(** Every name of the menu of [d] is non-empty and has an identifier
    among the four that [activate] probes. *)
Definition menu_ok (d : DeviceState) : Prop :=
  Forall (fun name => name <> ""%string /\
                      exists g, gas_map d !! name = Some g /\ 1 <= g <= 4)
         (available_gases d).

Definition menu_at (i : nat) (m : MassiqueManager) : Prop :=
  exists d, devices m !! i = Some d /\ menu_ok d.

(** What [activate] sets up and the commands it ends with leave alone. *)
Definition setup (d : DeviceState) :
    bool * string * list string * gmap string Z * option Z :=
  (active d, tag d, available_gases d, gas_map d, selected_gas d).

(** The assignments to a channel record as the methods make them, with
    the values they compute: a tag is stored padded, a ramp duration
    through [ramp_time], the menu and the gas map are only ever emptied
    or extended by a name the device gave. *)
Inductive field_update : (DeviceState -> DeviceState) -> Prop :=
| fu_tag t : field_update (set_tag_field (pad8 t))
| fu_active b : field_update (set_active b)
| fu_consigne c : field_update (set_consigne c)
| fu_consigne_point now :
    field_update (fun d => set_consigne_points
                   (slice_last 3600 (consigne_points d ++ [(consigne d, now)])) d)
| fu_measurement x :
    field_update (fun d => set_measurements
                   (slice_last 3600 (measurements d ++ [x])) d)
| fu_valve_command v : field_update (set_valve_command v)
| fu_totalizer_zero :
    field_update (fun d => set_totalization_value
                   (VInt 0, snd (totalization_value d)) d)
| fu_ramp_active b : field_update (set_ramp_active b)
| fu_ramp_time t : field_update (set_ramp_time_s (ramp_time t))
| fu_selected_gas g : field_update (set_selected_gas g)
| fu_menu_clear : field_update (set_available_gases [])
| fu_map_clear : field_update (set_gas_map ∅)
| fu_gas_found name g :
    field_update (fun d => set_gas_map (<[name := g]> (gas_map d))
                   (set_available_gases (available_gases d ++ [name]) d))
| fu_mesure x : field_update (set_mesure x)
| fu_temperature x : field_update (set_temperature x)
| fu_full_scale_value x : field_update (set_full_scale_value x)
| fu_full_scale x : field_update (set_full_scale x)
| fu_totalization_value x : field_update (set_totalization_value x)
| fu_reset : field_update _reset_data.

(** Every channel record of the manager satisfies [P]. *)
Definition every (P : DeviceState -> Prop) (m : MassiqueManager) : Prop :=
  Forall P (devices m).

(** The tag has eight characters; the ramp duration is not zero or
    negative. *)
Definition tag_eight (d : DeviceState) : Prop := String.length (tag d) = 8%nat.
Definition ramp_ok (d : DeviceState) : Prop := fle (ramp_time_s d) f0 = false.

(** The start of [main] in [app.py]: the tags are loaded and the manager
    is built with them for [MAX_MASSIQUES] channels. *)
Definition main (bus : list call -> call -> reply) (clock : nat -> Z)
    (dir_ok writable : bool) (file : option (list string)) : Res World :=
  match fst (load_tags (init_world [] 0 bus clock dir_ok writable file)) with
  | Ok tags => Ok (init_world tags MAX_MASSIQUES bus clock dir_ok writable file)
  | Raise e => Raise e
  end.

(** The record at position [i] carries the index [i]. *)
Definition indexed (m : MassiqueManager) : Prop :=
  forall i d, devices m !! i = Some d -> index d = Z.of_nat i.

(** Channel [i] is active exactly when it has a driver object; every
    channel is; every channel but [i] is. *)
Definition paired_at (i : nat) (m : MassiqueManager) : Prop :=
  forall d o, devices m !! i = Some d -> mfc_objs m !! i = Some o ->
              (active d = true <-> o <> None).

Definition paired (m : MassiqueManager) : Prop := forall i, paired_at i m.

Definition paired_but (i : nat) (m : MassiqueManager) : Prop :=
  forall j, j <> i -> paired_at j m.

(** Complete lists, no active or bound channel outside a session, and
    every channel active exactly when it is bound. *)
Definition consistent (m : MassiqueManager) : Prop := safe m /\ paired m.

(** ** The [try] block of [activate], statement by statement

    The statements of the [try] block in the order of the source, for the
    open port [s] and the tag [t] that the channel had at entry; each one
    reads what it needs from the state, as the source reads it from the
    object [d]. [run_steps] runs statements in sequence: the first one
    that raises ends the sequence. *)
Definition try_steps (idx : Z) (s : Serial) (t : string) : list (M unit) :=
  let i := Z.to_nat idx in
  let mfc := mkMfc s (pack_tag_name t) in
  [ ask (device_mfc s) >> ret tt;
    with_serial_lock (ask (get_address mfc)) >> ret tt;
    upd_dev i (set_active true);
    set_mfc i (Some mfc);
    upd_dev i (set_available_gases []);
    upd_dev i (set_gas_map ∅);
    for_each [1; 2; 3; 4] (probe_gas idx mfc);
    (let! d := deref i in
     match available_gases d with
     | first :: _ =>
         match gas_map d !! first with
         | Some g =>
             with_serial_lock (ask (Select_gaz mfc g)) >>
             upd_dev i (set_selected_gas (Some g))
         | None => raise (KeyError first)
         end
     | [] => ret tt
     end);
    with_serial_lock (ask (write_totalizer_control mfc 1)) >> ret tt;
    (let! d := deref i in
     apply_ramp_settings idx (VBool (ramp_active d)) (VFloat (ramp_time_s d)));
    set_vanne idx "Régulation";
    send_consigne idx (VFloat f0) ].

Fixpoint run_steps (steps : list (M unit)) : M unit :=
  match steps with
  | [] => ret tt
  | m :: rest => m >> run_steps rest
  end.

(** ** The capped history in the words of the specification

    An append to a history capped at [cap] entries: when the history is
    full, the oldest entry is the one evicted and the others keep their
    order. *)
Definition spec_fifo_append {A} (cap : nat) (h : list A) (x : A) : list A :=
  if (length h <? cap)%nat then h ++ [x] else drop 1 h ++ [x].

(** ** More benches *)

(** The bench with a full scale of 200, on which every setpoint write
    fails. *)
Definition wide_bus : list call -> call -> reply := fun t c =>
  match c with
  | read_full_scale_flow_rate _ _ =>
      mkReply false "" (Some (VFloat (float_of_Z 200), "l/min"%string)) None
  | write_setpoint _ _ _ => failing_reply
  | _ => bench_bus t c
  end.

(** The bench, on which the totalizer does not take its start command. *)
Definition jammed_bus : list call -> call -> reply := fun t c =>
  match c with
  | write_totalizer_control _ _ => failing_reply
  | _ => bench_bus t c
  end.

(** The bench, on which the device tagged as channel 0 does not answer
    the temperature read. *)
Definition half_bus : list call -> call -> reply := fun t c =>
  match c with
  | read_dynamic m =>
      if bool_decide (tag_name m = pack_tag_name "MFC00001")
      then failing_reply else bench_bus t c
  | _ => bench_bus t c
  end.

(** Channels 0 and 1 switched on. *)
Definition w_two (bus : list call -> call -> reply) : World :=
  run [Request (Api.ToggleDevice 1 (VBool true))] (w_active bus).

(** Channel 0 with both histories full. *)
Definition full_history : list (float * Z) := replicate 3600 (f0, 0).

Definition w_full (bus : list call -> call -> reply) : World :=
  let w := w_polled bus in
  set_mgr (set_devices
             (alter (fun d => set_consigne_points full_history
                                (set_measurements full_history d))
                    0%nat (devices (mgr w)))
             (mgr w)) w.

(** * Properties *)

(** ** Order of binary64 values *)

Section FloatOrder.

Lemma SFcompare_swap (x y : float) :
  SFcompare y x = CompOpp <$> SFcompare x y.
Proof.
  destruct x as [sx|sx| |sx mx ex], y as [sy|sy| |sy my ey]; simpl;
    try reflexivity;
    try (destruct sx; reflexivity); try (destruct sy; reflexivity);
    try (destruct sx, sy; reflexivity).
  destruct sx, sy; simpl; try reflexivity.
  - rewrite (Z.compare_antisym ex ey).
    destruct (ex ?= ey) eqn:E; simpl; try reflexivity.
    rewrite CompOpp_involutive. f_equal.
    exact (Pos.compare_cont_antisym my mx Eq).
  - rewrite (Z.compare_antisym ex ey).
    destruct (ex ?= ey) eqn:E; simpl; try reflexivity.
    symmetry. f_equal. exact (Pos.compare_cont_antisym mx my Eq).
Qed.

Lemma SFcompare_refl (x : float) :
  is_nan x = false -> SFcompare x x = Some Eq.
Proof.
  destruct x as [s|s| |s m e]; simpl; intros H; try discriminate;
    try (destruct s; reflexivity).
  destruct s; rewrite Z.compare_refl; f_equal;
    [change (CompOpp (m ?= m)%positive = Eq) | change ((m ?= m)%positive = Eq)];
    rewrite Pos.compare_refl; reflexivity.
Qed.

Lemma SFcompare_nan (x y : float) :
  is_nan x = false -> is_nan y = false -> is_Some (SFcompare x y).
Proof.
  destruct x, y; simpl; intros; try discriminate; eauto.
Qed.

Lemma flt_not_nan (x y : float) :
  flt x y = true -> is_nan x = false /\ is_nan y = false.
Proof. destruct x, y; simpl; intros; try discriminate; auto. Qed.

Lemma flt_fle (x y : float) : flt x y = true -> fle x y = true.
Proof.
  unfold flt, fle, SFltb, SFleb.
  destruct (SFcompare x y) as [[]|]; intros; congruence.
Qed.

Lemma fle_refl (x : float) : is_nan x = false -> fle x x = true.
Proof. intros H. unfold fle, SFleb. rewrite (SFcompare_refl x H). reflexivity. Qed.

(** [not (x < y)] is [y <= x] away from NaN. *)
Lemma not_flt_fle (x y : float) :
  is_nan x = false -> is_nan y = false -> flt x y = false -> fle y x = true.
Proof.
  intros Hx Hy. unfold flt, fle, SFltb, SFleb.
  rewrite (SFcompare_swap x y).
  destruct (SFcompare_nan x y Hx Hy) as [c ->].
  destruct c; simpl; intros; congruence.
Qed.

Lemma flt_positive_truthy (x : float) : flt f0 x = true -> float_truthy x = true.
Proof. destruct x; simpl; intros; try discriminate; reflexivity. Qed.

End FloatOrder.

(** ** Running the primitive steps *)

Section Primitives.

Lemma binding_lookup (w : World) (idx : Z) (m : Mfc) :
  binding w idx = Some m <-> mfc_objs (mgr w) !! Z.to_nat idx = Some (Some m).
Proof.
  unfold binding. destruct (mfc_objs (mgr w) !! Z.to_nat idx) as [[?|]|]; simpl;
    split; intros H; congruence.
Qed.

Lemma run_deref (w : World) (i : nat) (d : DeviceState) :
  devices (mgr w) !! i = Some d -> deref i w = (Ok d, w).
Proof. intros H. unfold deref, bind, gets. rewrite H. reflexivity. Qed.

Lemma run_get (w : World) (idx : Z) (d : DeviceState) :
  in_range w idx -> chan w idx = Some d -> _get idx w = (Ok d, w).
Proof.
  intros [H0 H1] Hd. unfold _get, bind, gets.
  assert ((0 <=? idx) && (idx <? Z.of_nat (max_devices (mgr w))) = true) as ->.
  { apply andb_true_iff. split; [apply Z.leb_le | apply Z.ltb_lt]; assumption. }
  apply run_deref, Hd.
Qed.

Lemma run_get_mfc (w : World) (i : nat) (o : option Mfc) :
  mfc_objs (mgr w) !! i = Some o -> get_mfc i w = (Ok o, w).
Proof. intros H. unfold get_mfc, bind, gets. rewrite H. reflexivity. Qed.

Lemma run_need_mfc (w : World) (idx : Z) (d : DeviceState) (m : Mfc) :
  in_range w idx -> chan w idx = Some d -> active d = true ->
  binding w idx = Some m -> _need_mfc idx w = (Ok m, w).
Proof.
  intros Hr Hd Ha Hm. apply binding_lookup in Hm.
  unfold _need_mfc, bind. rewrite (run_get w idx d Hr Hd).
  rewrite (run_get_mfc w _ _ Hm). rewrite Ha. reflexivity.
Qed.

Lemma wf_lookup_mfc (w : World) (idx : Z) :
  wf w -> in_range w idx -> exists o, mfc_objs (mgr w) !! Z.to_nat idx = Some o.
Proof.
  intros [_ Hl] [H0 H1].
  destruct (lookup_lt_is_Some_2 (mfc_objs (mgr w)) (Z.to_nat idx)) as [o Ho]; [lia|].
  eauto.
Qed.

Lemma wf_lookup_dev (w : World) (idx : Z) :
  wf w -> in_range w idx -> exists d, chan w idx = Some d.
Proof.
  intros [Hl _] [H0 H1]. unfold chan.
  destruct (lookup_lt_is_Some_2 (devices (mgr w)) (Z.to_nat idx)) as [d Hd]; [lia|].
  eauto.
Qed.

Lemma run_need_mfc_off (w : World) (idx : Z) (d : DeviceState) :
  wf w -> in_range w idx -> chan w idx = Some d -> active d = false ->
  _need_mfc idx w = (Raise (RuntimeError "Device OFF"), w).
Proof.
  intros Hwf Hr Hd Ha. destruct (wf_lookup_mfc w idx Hwf Hr) as [o Ho].
  unfold _need_mfc, bind. rewrite (run_get w idx d Hr Hd).
  rewrite (run_get_mfc w _ _ Ho). rewrite Ha. destruct o; reflexivity.
Qed.

Lemma chan_upd_dev (w : World) (idx : Z) (f : DeviceState -> DeviceState) :
  chan (snd (upd_dev (Z.to_nat idx) f w)) idx = f <$> chan w idx.
Proof. unfold chan, upd_dev, modify. simpl. apply list_lookup_alter_eq. Qed.

End Primitives.

(** ** Setpoints *)

Section Setpoint.

Lemma clamp_bounds (F c : float) :
  flt f0 F = true -> is_nan c = false ->
  fle f0 (clamp F c) = true /\ fle (clamp F c) F = true.
Proof.
  intros HF Hc. destruct (flt_not_nan _ _ HF) as [_ HFn].
  unfold clamp. rewrite (flt_positive_truthy F HF). simpl.
  destruct (flt c f0) eqn:Hneg.
  - assert (flt F f0 = false) as ->.
    { destruct F as [|[]| |[]]; simpl in *; try discriminate; reflexivity. }
    split; [reflexivity | apply flt_fle, HF].
  - destruct (flt F c) eqn:Hgt.
    + split; [apply flt_fle, HF | apply fle_refl, HFn].
    + split.
      * apply not_flt_fle; [assumption | reflexivity | assumption].
      * apply not_flt_fle; assumption.
Qed.

Lemma clamp_above (F c : float) :
  flt f0 F = true -> flt F c = true -> clamp F c = F.
Proof.
  intros HF Hgt. unfold clamp. rewrite (flt_positive_truthy F HF). simpl.
  destruct (flt c f0) eqn:Hneg.
  - exfalso.
    destruct F as [|[]| |[] ? ?], c as [|[]| |[] ? ?]; simpl in *; discriminate.
  - rewrite Hgt. reflexivity.
Qed.

Lemma clamp_below (F c : float) :
  flt f0 F = true -> flt c f0 = true -> clamp F c = f0.
Proof.
  intros HF Hneg. unfold clamp. rewrite Hneg.
  assert (flt F f0 = false) as ->.
  { destruct F as [|[]| |[]]; simpl in *; try discriminate; reflexivity. }
  rewrite andb_false_r. reflexivity.
Qed.

(** What [send_consigne] leaves in the channel record, on an active and
    bound channel and a convertible input. *)
Lemma send_consigne_stores (w : World) (idx : Z) (v : pyval) (c : float)
    (d : DeviceState) (m : Mfc) :
  in_range w idx -> chan w idx = Some d -> active d = true ->
  binding w idx = Some m -> py_float v = Ok c ->
  exists d', chan (snd (send_consigne idx v w)) idx = Some d' /\
             consigne d' = clamp (full_scale_value d) c /\
             full_scale_value d' = full_scale_value d /\
             active d' = true /\
             trace (snd (send_consigne idx v w))
               = if float_truthy (full_scale_value d)
                 then trace w ++ [write_setpoint m
                        (percent (clamp (full_scale_value d) c) (full_scale_value d)) 57]
                 else trace w.
Proof.
  intros Hr Hd Ha Hm Hv.
  unfold send_consigne, bind.
  rewrite (run_get w idx d Hr Hd), (run_need_mfc w idx d m Hr Hd Ha Hm), Hv.
  unfold upd_dev at 1. unfold modify.
  destruct (float_truthy (full_scale_value d)); simpl.
  - unfold with_serial_lock, ask. simpl.
    destruct (raises _); simpl.
    + unfold chan; simpl. rewrite list_lookup_alter_eq. unfold chan in Hd. rewrite Hd.
      simpl. eexists. repeat split; try reflexivity; exact Ha.
    + unfold chan; simpl. rewrite !list_lookup_alter_eq. unfold chan in Hd. rewrite Hd.
      simpl. eexists. repeat split; try reflexivity; exact Ha.
  - unfold chan; simpl. rewrite list_lookup_alter_eq. unfold chan in Hd. rewrite Hd.
    simpl. eexists. repeat split; try reflexivity; exact Ha.
Qed.


End Setpoint.

Section SetpointChecks.


(** A NaN input is a float that no comparison of the clamp catches: it is
    stored as it is. *)
Remark clamp_nan (F : float) : clamp F S754_nan = S754_nan.
Proof.
  unfold clamp. simpl. destruct (float_truthy F); simpl; [|reflexivity].
  destruct F as [|[]| |]; reflexivity.
Qed.

(** C10. [send_consigne] looks for the live binding before it converts
    its argument: on an inactive channel every argument, numeric or not,
    raises "Device OFF" and changes nothing; on an active and bound
    channel an argument that [float()] rejects returns without any change
    of state and without any call to the device. *)
Theorem send_consigne_checks_binding_first (w : World) (idx : Z) (d : DeviceState) :
  wf w -> in_range w idx -> chan w idx = Some d ->
  (active d = false ->
   forall v, send_consigne idx v w = (Raise (RuntimeError "Device OFF"), w)) /\
  (forall m v e, active d = true -> binding w idx = Some m ->
                 py_float v = Raise e ->
                 send_consigne idx v w = (Ok tt, w)).
Proof.
  intros Hwf Hr Hd. split.
  - intros Ha v. unfold send_consigne, bind.
    rewrite (run_get w idx d Hr Hd), (run_need_mfc_off w idx d Hwf Hr Hd Ha).
    reflexivity.
  - intros m v e Ha Hm Hv. unfold send_consigne, bind.
    rewrite (run_get w idx d Hr Hd), (run_need_mfc w idx d m Hr Hd Ha Hm), Hv.
    reflexivity.
Qed.

Lemma send_consigne_checks_binding_first_witness :
  (active (chan0 (world0 quiet_bus)) = false ->
   forall v, send_consigne 0 v (world0 quiet_bus)
             = (Raise (RuntimeError "Device OFF"), world0 quiet_bus)) /\
  (forall m v e, active (chan0 (world0 quiet_bus)) = true ->
                 binding (world0 quiet_bus) 0 = Some m ->
                 py_float v = Raise e ->
                 send_consigne 0 v (world0 quiet_bus) = (Ok tt, world0 quiet_bus)).
Proof.
  apply (send_consigne_checks_binding_first (world0 quiet_bus) 0
           (chan0 (world0 quiet_bus))).
  - split; reflexivity.
  - vm_compute. split; [discriminate | reflexivity].
  - reflexivity.
Defined.

End SetpointChecks.

(** ** Valve mode *)

Section Valve.

Lemma valve_cmd_unknown (action : string) :
  action <> "Ouverture"%string -> action <> "Fermeture"%string ->
  action <> "Régulation"%string -> valve_cmd action = None.
Proof.
  intros H1 H2 H3. unfold valve_cmd.
  apply String.eqb_neq in H1, H2, H3. rewrite H1, H2, H3. reflexivity.
Qed.

(** C9, as the code has it. The action strings of [set_vanne] are the
    French labels: "Ouverture" is command 1, "Fermeture" command 2 and
    "Régulation" command 0. On an active and bound channel any other
    string returns without a call to the device and without a change of
    state; a recognised one issues the valve write and then reads the
    label back into [valve_command], "N/A" standing for a read-back that
    yields nothing. *)
Theorem set_vanne_french_labels (w : World) (idx : Z) (d : DeviceState)
    (m : Mfc) (action : string) :
  in_range w idx -> chan w idx = Some d -> active d = true ->
  binding w idx = Some m ->
  (valve_cmd "Ouverture" = Some 1 /\ valve_cmd "Fermeture" = Some 2 /\
   valve_cmd "Régulation" = Some 0) /\
  (action <> "Ouverture"%string -> action <> "Fermeture"%string ->
   action <> "Régulation"%string -> set_vanne idx action w = (Ok tt, w)) /\
  (forall cmd, valve_cmd action = Some cmd ->
     let r1 := bus w (trace w) (mfc_set_vanne m cmd) in
     let r2 := bus w (trace w ++ [mfc_set_vanne m cmd]) (red_vanne m) in
     raises r1 = false -> raises r2 = false ->
     fst (set_vanne idx action w) = Ok tt /\
     trace (snd (set_vanne idx action w))
       = trace w ++ [mfc_set_vanne m cmd; red_vanne m] /\
     chan (snd (set_vanne idx action w)) idx
       = Some (set_valve_command (label_or_na (r_label r2)) d)) /\
  (label_or_na None = "N/A"%string /\ label_or_na (Some ""%string) = "N/A"%string).
Proof.
  intros Hr Hd Ha Hm. split; [repeat split | split; [|split; [|split; reflexivity]]].
  - intros H1 H2 H3. unfold set_vanne, bind.
    rewrite (run_get w idx d Hr Hd), (run_need_mfc w idx d m Hr Hd Ha Hm).
    rewrite (valve_cmd_unknown action H1 H2 H3). reflexivity.
  - intros cmd Hcmd r1 r2 Hr1 Hr2. unfold set_vanne, bind.
    rewrite (run_get w idx d Hr Hd), (run_need_mfc w idx d m Hr Hd Ha Hm), Hcmd.
    unfold with_serial_lock, bind, ask. fold r1. rewrite Hr1. simpl.
    fold r2. rewrite Hr2. simpl.
    split; [reflexivity|]. split.
    + rewrite <- app_assoc. reflexivity.
    + unfold chan. simpl. rewrite list_lookup_alter_eq.
      unfold chan in Hd. rewrite Hd. reflexivity.
Qed.

Lemma set_vanne_french_labels_witness :
  fst (set_vanne 0 "Ouverture" (w_active bench_bus)) = Ok tt /\
  trace (snd (set_vanne 0 "Ouverture" (w_active bench_bus)))
    = trace (w_active bench_bus)
      ++ [mfc_set_vanne (binding0 (w_active bench_bus)) 1;
          red_vanne (binding0 (w_active bench_bus))] /\
  (valve_command <$> chan (snd (set_vanne 0 "Ouverture" (w_active bench_bus))) 0)
    = Some "Régulation"%string.
Proof.
  assert (Hr : in_range (w_active bench_bus) 0)
    by (vm_compute; split; [discriminate | reflexivity]).
  assert (Hd : chan (w_active bench_bus) 0 = Some (chan0 (w_active bench_bus)))
    by (vm_compute; reflexivity).
  assert (Ha : active (chan0 (w_active bench_bus)) = true)
    by (vm_compute; reflexivity).
  assert (Hm : binding (w_active bench_bus) 0 = Some (binding0 (w_active bench_bus)))
    by (vm_compute; reflexivity).
  pose proof (set_vanne_french_labels _ _ _ _ "Ouverture" Hr Hd Ha Hm)
    as (_ & _ & H & _).
  assert (Hc : valve_cmd "Ouverture" = Some 1) by (vm_compute; reflexivity).
  specialize (H 1 Hc). cbv zeta in H.
  assert (H1 : raises (bus (w_active bench_bus) (trace (w_active bench_bus))
                         (mfc_set_vanne (binding0 (w_active bench_bus)) 1)) = false)
    by (vm_compute; reflexivity).
  assert (H2 : raises (bus (w_active bench_bus)
                         (trace (w_active bench_bus)
                          ++ [mfc_set_vanne (binding0 (w_active bench_bus)) 1])
                         (red_vanne (binding0 (w_active bench_bus)))) = false)
    by (vm_compute; reflexivity).
  destruct (H H1 H2) as (G1 & G2 & G3).
  split; [exact G1|]. split; [exact G2|]. rewrite G3. vm_compute. reflexivity.
Defined.

(** The English labels of the specification are not keys of the table:
    "Opening" is not command 1, and on the active channel 0 of the bench
    [set_vanne] ignores it. *)
Lemma set_vanne_ignores_english_labels :
  valve_cmd "Opening" <> Some 1 /\ valve_cmd "Closing" <> Some 2 /\
  valve_cmd "Regulating" <> Some 0 /\
  set_vanne 0 "Opening" (w_active bench_bus) = (Ok tt, w_active bench_bus).
Proof.
  split; [vm_compute; discriminate|].
  split; [vm_compute; discriminate|].
  split; [vm_compute; discriminate|].
  vm_compute. reflexivity.
Qed.

End Valve.

(** ** The deferred setpoint *)

Section DeferredSetpoint.

Lemma py_float_positive_truthy (v : pyval) (F : float) :
  py_float v = Ok F -> flt f0 F = true -> truthy v = true.
Proof.
  destruct v as [|b|z|f]; simpl; intros Hv HF.
  - discriminate.
  - destruct b; [reflexivity|]. inversion Hv; subst. discriminate.
  - destruct z; [|reflexivity..]. vm_compute in Hv. inversion Hv; subst. discriminate.
  - inversion Hv; subst. apply flt_positive_truthy, HF.
Qed.

Lemma try_except_swallow (m : M unit) (w : World) :
  try_except m (fun _ => ret tt) w = (Ok tt, snd (m w)).
Proof. unfold try_except, ret. destruct (m w) as [[[]|e] w']; reflexivity. Qed.

(** A poll exchange whose reads all answer, on a channel with a selected
    gas, a positive full scale reading and a nonzero stored setpoint. *)
Lemma poll_one_reissues (w : World) (idx : Z) (d : DeviceState) (m : Mfc) g vF u F :
  in_range w idx -> chan w idx = Some d -> active d = true ->
  binding w idx = Some m ->
     selected_gas d = Some g ->
     Forall (fun r => raises r = false) (answers (bus w) (trace w) (poll_reads m g)) ->
     r_sample <$> (answers (bus w) (trace w) (poll_reads m g) !! 2%nat)
       = Some (Some (vF, u)) ->
     py_float vF = Ok F -> flt f0 F = true ->
     float_truthy (consigne d) = true ->
     fst (_poll_one idx w) = Ok tt /\
     trace (snd (_poll_one idx w))
       = trace w ++ poll_reads m g
         ++ [write_setpoint m (percent (clamp F (consigne d)) F) 57] /\
     exists d', chan (snd (_poll_one idx w)) idx = Some d' /\
                consigne d' = clamp F (consigne d) /\
                full_scale_value d' = F.
Proof.
  intros Hr Hd Ha Hm Hg Hok Hfs HvF HF Hc.
  simpl in Hok, Hfs.
  inversion Hok as [|? ? H1 Hok1]; subst; clear Hok.
  inversion Hok1 as [|? ? H2 Hok2]; subst; clear Hok1.
  inversion Hok2 as [|? ? H3 Hok3]; subst; clear Hok2.
  inversion Hok3 as [|? ? H4 Hok4]; subst; clear Hok3.
  inversion Hok4 as [|? ? H5 _]; subst; clear Hok4.
  injection Hfs as Hfs.
  destruct (_poll_one idx w) as [res w'] eqn:E. cbn [fst snd].
  revert E. unfold _poll_one, bind.
  rewrite (run_get w idx d Hr Hd), (run_need_mfc w idx d m Hr Hd Ha Hm), Hg.
  unfold ret at 1. rewrite (run_deref w _ d Hd), Hg.
  unfold with_serial_lock, bind, ask.
  rewrite H1. simpl. rewrite H2. simpl. rewrite H3. simpl. rewrite H4. simpl.
  rewrite H5. simpl. rewrite Hfs. simpl.
  unfold val_or. rewrite (py_float_positive_truthy vF F HvF HF), HvF. simpl.
  unfold deref, bind, gets. simpl.
  unfold chan in Hd. rewrite !list_lookup_alter_eq, Hd. simpl.
  rewrite (flt_positive_truthy F HF), Hc. simpl.
  rewrite try_except_swallow.
  match goal with |- context [send_consigne _ _ ?W] => set (w8 := W) end.
  assert (Hr8 : in_range w8 idx) by exact Hr.
  assert (Hm8 : binding w8 idx = Some m) by exact Hm.
  assert (exists d8, chan w8 idx = Some d8 /\ active d8 = true /\
                     full_scale_value d8 = F /\ consigne d8 = consigne d)
    as (d8 & Hd8 & Ha8 & HF8 & Hc8).
  { unfold chan, w8. simpl. rewrite !list_lookup_alter_eq, Hd. simpl.
    eexists. repeat split; try reflexivity. exact Ha. }
  destruct (send_consigne_stores w8 idx (VFloat (consigne d)) (consigne d) d8 m
              Hr8 Hd8 Ha8 Hm8 eq_refl) as (d' & Hd' & Hcons & Hfsv & _ & Htr).
  rewrite HF8 in Hcons, Hfsv, Htr. rewrite (flt_positive_truthy F HF) in Htr.
  intros E. injection E as <- <-.
  split; [reflexivity|]. split.
  - rewrite Htr. unfold w8. simpl. rewrite <- !app_assoc. reflexivity.
  - exists d'. auto.
Qed.



End DeferredSetpoint.

(** ** Invariants along the steps of the monad *)

Section Preserves.

Context (J : MassiqueManager -> Prop).

Lemma preserves_ret {A} (a : A) : preserves J (ret a).
Proof. intros w H. exact H. Qed.
Lemma preserves_raise {A} (e : exn) : preserves J (@raise A e).
Proof. intros w H. exact H. Qed.
Lemma preserves_lift {A} (r : Res A) : preserves J (lift r).
Proof. intros w H. exact H. Qed.
Lemma preserves_gets {A} (f : MassiqueManager -> A) : preserves J (gets f).
Proof. intros w H. exact H. Qed.
Lemma preserves_ask (c : call) : preserves J (ask c).
Proof. intros w H. unfold ask. destruct (raises _); exact H. Qed.
Lemma preserves_now : preserves J datetime_now.
Proof. intros w H. exact H. Qed.
Lemma preserves_sleep (s : float) : preserves J (sleep s).
Proof. intros w H. exact H. Qed.
Lemma preserves_ensure_dir : preserves J ensure_dir.
Proof. intros w H. unfold ensure_dir. destruct (config_dir_ok w); exact H. Qed.
Lemma preserves_modify (f : MassiqueManager -> MassiqueManager) :
  (forall m, J m -> J (f m)) -> preserves J (modify f).
Proof. intros Hf w H. apply Hf, H. Qed.
Lemma preserves_upd_dev (i : nat) (f : DeviceState -> DeviceState) :
  (forall m, J m -> J (set_devices (alter f i (devices m)) m)) ->
  preserves J (upd_dev i f).
Proof. intros Hf. apply preserves_modify, Hf. Qed.
Lemma preserves_set_mfc (i : nat) (v : option Mfc) :
  (forall m, J m -> J (set_mfc_objs (<[i := v]> (mfc_objs m)) m)) ->
  preserves J (set_mfc i v).
Proof.
  intros Hf w H. unfold set_mfc, bind, gets, modify, raise.
  destruct (_ <? _)%nat; simpl; auto.
Qed.
Lemma preserves_bind {A B} (m : M A) (k : A -> M B) :
  preserves J m -> (forall a, preserves J (k a)) -> preserves J (bind m k).
Proof.
  intros Hm Hk w H. unfold bind. specialize (Hm w H).
  destruct (m w) as [[a|e] w1]; simpl in *; [apply Hk, Hm | exact Hm].
Qed.
Lemma preserves_try {A} (m : M A) (h : exn -> M A) :
  preserves J m -> (forall e, preserves J (h e)) -> preserves J (try_except m h).
Proof.
  intros Hm Hh w H. unfold try_except. specialize (Hm w H).
  destruct (m w) as [[a|e] w1]; simpl in *; [exact Hm | apply Hh, Hm].
Qed.
Lemma preserves_for {A} (l : list A) (body : A -> M unit) :
  (forall x, preserves J (body x)) -> preserves J (for_each l body).
Proof.
  intros Hb. induction l as [|x l IH]; simpl.
  - apply preserves_ret.
  - apply preserves_bind; [apply Hb | intros _; exact IH].
Qed.
End Preserves.

(** [pres_step] takes a goal [preserves J m] apart along the syntax of
    [m]; a call to a method is closed by a hypothesis about that method. *)
Ltac head_of t := lazymatch t with ?f _ => head_of f | _ => t end.

Ltac pres_step :=
  lazymatch goal with
  | |- preserves _ (ret _) => apply preserves_ret
  | |- preserves _ (raise _) => apply preserves_raise
  | |- preserves _ (lift _) => apply preserves_lift
  | |- preserves _ (gets _) => apply preserves_gets
  | |- preserves _ (ask _) => apply preserves_ask
  | |- preserves _ datetime_now => apply preserves_now
  | |- preserves _ (sleep _) => apply preserves_sleep
  | |- preserves _ ensure_dir => apply preserves_ensure_dir
  | |- preserves _ (bind _ _) => apply preserves_bind; [|intros ?]
  | |- preserves _ (try_except _ _) => apply preserves_try; [|intros ?]
  | |- preserves _ (for_each _ _) => apply preserves_for; intros ?
  | |- preserves _ (upd_dev _ _) => apply preserves_upd_dev
  | |- preserves _ (set_mfc _ _) => apply preserves_set_mfc
  | |- preserves _ (modify _) => apply preserves_modify
  | |- preserves _ (with_serial_lock _) => unfold with_serial_lock
  | |- preserves _ (deref _) => unfold deref
  | |- preserves _ (get_mfc _) => unfold get_mfc
  | |- preserves _ (_get _) => unfold _get
  | |- preserves _ (_need_mfc _) => unfold _need_mfc
  | |- preserves _ _start_polling => unfold _start_polling
  | |- preserves _ _stop_polling => unfold _stop_polling
  | |- preserves _ (open_serial_port _) => unfold open_serial_port
  | |- preserves _ (probe_gas _ _ _) => unfold probe_gas
  | |- preserves _ (shutdown _ _ _) => unfold shutdown
  | |- preserves _ (if ?b then _ else _) => destruct b
  | |- preserves _ (match ?x with _ => _ end) => destruct x
  | |- preserves _ ?m =>
      let h := head_of m in
      match goal with
      | H : _ |- _ => match type of H with context [h] => apply H end
      end
  end.

(** ** Invariants of the manager along its methods

    [J] is kept by a method as soon as it is kept by the assignments the
    method makes, on the channels [S] it may touch. *)

Section Invariants.

Context (J : MassiqueManager -> Prop) (S : nat -> Prop).

Hypothesis Hcmd : forall f i m, S i -> cmd_update f -> J m ->
  J (set_devices (alter f i (devices m)) m).

Ltac side :=
  let m := fresh "m" in let H := fresh "H" in
  intros m H; rewrite ?Nat2Z.id;
  first [ apply Hcmd; [solve [auto] | constructor | assumption]
        | match goal with Hx : _ |- _ => solve [apply Hx; auto] end ].

Lemma keep_set_tag idx t : S (Z.to_nat idx) -> preserves J (set_tag idx t).
Proof. intros HS. unfold set_tag. repeat pres_step; side. Qed.

Lemma keep_send_consigne idx v : S (Z.to_nat idx) -> preserves J (send_consigne idx v).
Proof. intros HS. unfold send_consigne. repeat pres_step; side. Qed.

Lemma keep_set_vanne idx a : S (Z.to_nat idx) -> preserves J (set_vanne idx a).
Proof. intros HS. unfold set_vanne. repeat pres_step; side. Qed.

Lemma keep_reset_totalization idx :
  S (Z.to_nat idx) -> preserves J (reset_totalization idx).
Proof. intros HS. unfold reset_totalization. repeat pres_step; side. Qed.

Lemma keep_apply_ramp_settings idx a t :
  S (Z.to_nat idx) -> preserves J (apply_ramp_settings idx a t).
Proof. intros HS. unfold apply_ramp_settings. repeat pres_step; side. Qed.

Lemma keep_select_gas idx g : S (Z.to_nat idx) -> preserves J (select_gas idx g).
Proof. intros HS. unfold select_gas. repeat pres_step; side. Qed.

Lemma keep_poll_one idx : S (Z.to_nat idx) -> preserves J (_poll_one idx).
Proof.
  intros HS. pose proof (fun v => keep_send_consigne idx v HS) as Hsc.
  unfold _poll_one. repeat pres_step; side.
Qed.

Lemma keep_poll_step i : S i -> preserves J (poll_step i).
Proof.
  intros HS. pose proof (keep_poll_one (Z.of_nat i)) as Hp.
  rewrite Nat2Z.id in Hp. specialize (Hp HS).
  unfold poll_step. repeat pres_step; side.
Qed.

Lemma keep_poll_cycle : (forall i, S i) -> preserves J poll_cycle.
Proof.
  intros HS. pose proof (fun i => keep_poll_step i (HS i)) as Hp.
  unfold poll_cycle. repeat pres_step.
Qed.

Lemma keep_poll_loop n : (forall i, S i) -> preserves J (_poll_loop n).
Proof.
  intros HS. pose proof (keep_poll_cycle HS) as Hc.
  induction n as [|n IH]; simpl; repeat pres_step.
Qed.

Hypothesis Hoff : forall i m, S i -> J m ->
  J (set_devices (alter (set_active false) i (devices m)) m).
Hypothesis Hunbind : forall i m, S i -> J m ->
  J (set_mfc_objs (<[i := None]> (mfc_objs m)) m).

Lemma keep_deactivate idx : S (Z.to_nat idx) -> preserves J (deactivate idx).
Proof.
  intros HS. pose proof (fun v => keep_send_consigne idx v HS) as Hsc.
  unfold deactivate. repeat pres_step; side.
Qed.

Lemma keep_rollback idx e : S (Z.to_nat idx) -> preserves J (rollback idx e).
Proof. intros HS. unfold rollback. repeat pres_step; side. Qed.

Hypothesis Hon : forall i m, S i -> J m ->
  J (set_devices (alter (set_active true) i (devices m)) m).
Hypothesis Hbind : forall i o m, S i -> J m ->
  J (set_mfc_objs (<[i := Some o]> (mfc_objs m)) m).

Lemma keep_activation idx d s : S (Z.to_nat idx) -> preserves J (activation idx d s).
Proof.
  intros HS.
  pose proof (fun v => keep_send_consigne idx v HS) as Hsc.
  pose proof (fun a => keep_set_vanne idx a HS) as Hsv.
  pose proof (fun a t => keep_apply_ramp_settings idx a t HS) as Har.
  unfold activation. repeat pres_step; side.
Qed.

Lemma keep_activate idx : S (Z.to_nat idx) -> preserves J (activate idx).
Proof.
  intros HS.
  pose proof (fun d s => keep_activation idx d s HS) as Hb.
  pose proof (fun e => keep_rollback idx e HS) as Hr.
  unfold activate. repeat pres_step.
Qed.

Hypothesis Hstop : forall b m, J m -> J (set_poll_stop b m).
Hypothesis Hthread : forall t m, J m -> J (set_poll_thread t m).
Hypothesis Hport : forall p m, J m -> J (set_serial_port p m).

Lemma keep_disconnect : (forall i, S i) -> preserves J disconnect.
Proof.
  intros HS. unfold disconnect. repeat pres_step; side.
Qed.

Lemma keep_connect p : (forall i, S i) -> preserves J (connect p).
Proof.
  intros HS. pose proof (keep_disconnect HS) as Hd.
  unfold connect. repeat pres_step; side.
Qed.

Lemma keep_load_tags : preserves J load_tags.
Proof.
  unfold load_tags. apply preserves_bind; [apply preserves_ensure_dir|].
  intros _ w H. exact H.
Qed.

Lemma keep_save_tags tags : preserves J (save_tags tags).
Proof.
  unfold save_tags. apply preserves_bind; [apply preserves_ensure_dir|].
  intros _ w H. simpl. destruct (tags_writable w); exact H.
Qed.

(** The control surface and the runs, from the three methods that change
    the session or the activation. *)
Lemma keep_serve r :
  (forall i, S i) ->
  (forall p, preserves J (connect p)) -> preserves J disconnect ->
  (forall idx, preserves J (activate idx)) ->
  preserves J (Api.serve r).
Proof.
  intros HS Hc Hd Ha.
  pose proof (fun idx t => keep_set_tag idx t (HS _)) as H1.
  pose proof (fun idx v => keep_send_consigne idx v (HS _)) as H2.
  pose proof (fun idx a => keep_set_vanne idx a (HS _)) as H3.
  pose proof (fun idx => keep_reset_totalization idx (HS _)) as H4.
  pose proof (fun idx a t => keep_apply_ramp_settings idx a t (HS _)) as H5.
  pose proof (fun idx g => keep_select_gas idx g (HS _)) as H6.
  pose proof (fun idx => keep_deactivate idx (HS _)) as H7.
  pose proof keep_load_tags as H8. pose proof keep_save_tags as H9.
  destruct r; simpl;
    unfold Api.connect, Api.disconnect, Api.toggle_device, Api.set_tag,
      Api.set_consigne, Api.set_vanne, Api.reset_total, Api.set_ramp,
      Api.select_gas, Api.snapshot;
    repeat pres_step.
Qed.

Lemma keep_exec s :
  (forall i, S i) ->
  (forall p, preserves J (connect p)) -> preserves J disconnect ->
  (forall idx, preserves J (activate idx)) ->
  preserves J (exec s).
Proof.
  intros HS Hc Hd Ha.
  pose proof (fun r => keep_serve r HS Hc Hd Ha) as Hs.
  pose proof (fun n => keep_poll_loop n HS) as Hp.
  destruct s; simpl; repeat pres_step.
Qed.

Lemma keep_run steps w :
  (forall s, preserves J (exec s)) -> J (mgr w) -> J (mgr (run steps w)).
Proof.
  intros He. revert w. induction steps as [|s steps IH]; simpl; intros w H.
  - exact H.
  - apply IH, He, H.
Qed.

End Invariants.

(** ** The lists of the manager keep their length *)

Section WellFormed.

Lemma sized_closed_devices n f i m :
  sized n m -> sized n (set_devices (alter f i (devices m)) m).
Proof. intros (H0 & H1 & H2). repeat split; simpl; rewrite ?length_alter; assumption. Qed.

Lemma sized_closed_mfc n i v m :
  sized n m -> sized n (set_mfc_objs (<[i := v]> (mfc_objs m)) m).
Proof. intros (H0 & H1 & H2). repeat split; simpl; rewrite ?length_insert; assumption. Qed.

Lemma sized_closed_flags n m :
  sized n m ->
  (forall b, sized n (set_poll_stop b m)) /\
  (forall t, sized n (set_poll_thread t m)) /\
  (forall p, sized n (set_serial_port p m)).
Proof. intros (H0 & H1 & H2). repeat split; assumption. Qed.

Ltac sized_closure :=
  intros;
  first [ exact I
        | apply sized_closed_devices; assumption
        | apply sized_closed_mfc; assumption
        | apply sized_closed_flags; assumption ].

Lemma sized_connect n p : preserves (sized n) (connect p).
Proof. apply keep_connect with (S := fun _ => True); sized_closure. Qed.

Lemma sized_disconnect n : preserves (sized n) disconnect.
Proof. apply keep_disconnect with (S := fun _ => True); sized_closure. Qed.

Lemma sized_activation n idx d s : preserves (sized n) (activation idx d s).
Proof. apply keep_activation with (S := fun _ => True); sized_closure. Qed.

Lemma sized_activate n idx : preserves (sized n) (activate idx).
Proof. apply keep_activate with (S := fun _ => True); sized_closure. Qed.

Lemma sized_send_consigne n idx v : preserves (sized n) (send_consigne idx v).
Proof. apply keep_send_consigne with (S := fun _ => True); sized_closure. Qed.

Lemma sized_poll_one n idx : preserves (sized n) (_poll_one idx).
Proof. apply keep_poll_one with (S := fun _ => True); sized_closure. Qed.

Lemma sized_poll_step n i : preserves (sized n) (poll_step i).
Proof. apply keep_poll_step with (S := fun _ => True); sized_closure. Qed.

Lemma sized_poll_cycle n : preserves (sized n) poll_cycle.
Proof. apply keep_poll_cycle with (S := fun _ => True); sized_closure. Qed.

Lemma sized_exec n s : preserves (sized n) (exec s).
Proof.
  apply keep_exec with (S := fun _ => True);
    first [ apply sized_connect | apply sized_disconnect | apply sized_activate
          | sized_closure ].
Qed.

Lemma sized_init tags n : sized n (init_manager tags n).
Proof.
  repeat split; simpl.
  - rewrite length_fmap, length_seq. reflexivity.
  - apply length_replicate.
Qed.

Lemma wf_sized (w : World) : wf w <-> sized (max_devices (mgr w)) (mgr w).
Proof. unfold wf, sized. intuition. Qed.

Lemma sized_wf n (w : World) : sized n (mgr w) -> wf w.
Proof. intros (H0 & H1 & H2). split; congruence. Qed.

End WellFormed.

(** ** History buffers *)

Section Histories.

Lemma slice_last_length {A} (n : nat) (l : list A) :
  (length (slice_last n l) <= n)%nat.
Proof. unfold slice_last. rewrite length_drop. lia. Qed.

(** Appending to a history that is not full keeps everything; appending
    to a full one drops its first, oldest, entry. *)
Lemma slice_last_fifo {A} (n : nat) (l : list A) (x : A) :
  (0 < n)%nat ->
  ((length l < n)%nat -> slice_last n (l ++ [x]) = l ++ [x]) /\
  (length l = n -> slice_last n (l ++ [x]) = drop 1 l ++ [x]).
Proof.
  intros Hn. unfold slice_last. rewrite length_app. simpl. split; intros H.
  - replace (length l + 1 - n)%nat with 0%nat by lia. reflexivity.
  - replace (length l + 1 - n)%nat with 1%nat by lia.
    destruct l as [|y l]; simpl in *; [lia|].
    rewrite drop_0. reflexivity.
Qed.

Lemma cmd_update_hist f d : cmd_update f -> hist_bounded d -> hist_bounded (f d).
Proof.
  intros Hf [H1 H2]. destruct Hf; split; simpl; try assumption;
    first [ apply slice_last_length | apply Nat.le_0_l ].
Qed.

Lemma hist_closed_cmd f i m :
  cmd_update f -> hist_mgr m -> hist_mgr (set_devices (alter f i (devices m)) m).
Proof.
  intros Hf H. unfold hist_mgr. simpl. apply Forall_alter; [exact H|].
  intros d _. apply cmd_update_hist, Hf.
Qed.

Lemma hist_closed_active b i m :
  hist_mgr m -> hist_mgr (set_devices (alter (set_active b) i (devices m)) m).
Proof.
  intros H. unfold hist_mgr. simpl. apply Forall_alter; [exact H|].
  intros d _ Hd. exact Hd.
Qed.

Ltac hist_closure :=
  intros;
  first [ exact I
        | apply hist_closed_cmd; assumption
        | apply hist_closed_active; assumption
        | assumption ].

Lemma hist_exec s : preserves hist_mgr (exec s).
Proof.
  apply keep_exec with (S := fun _ => True); try hist_closure.
  - intros p. apply keep_connect with (S := fun _ => True); hist_closure.
  - apply keep_disconnect with (S := fun _ => True); hist_closure.
  - intros idx. apply keep_activate with (S := fun _ => True); hist_closure.
Qed.

Lemma hist_init tags n : hist_mgr (init_manager tags n).
Proof.
  unfold hist_mgr. simpl. apply Forall_fmap, Forall_forall. intros i _.
  split; simpl; apply Nat.le_0_l.
Qed.


End Histories.


(** ** Disconnection *)

Section Disconnect.

(** The final loop of [disconnect], from index [a] on. *)
Lemma unbind_loop (k a : nat) (w : World) :
  (a + k <= length (devices (mgr w)))%nat ->
  (a + k <= length (mfc_objs (mgr w)))%nat ->
  exists D M,
    for_each (seq a k)
      (fun i => set_mfc i None >> deref i >> upd_dev i (set_active false)) w
    = (Ok tt, set_mgr (set_devices D (set_mfc_objs M (mgr w))) w) /\
    (forall j, D !! j = if decide (a <= j < a + k)%nat
                        then set_active false <$> devices (mgr w) !! j
                        else devices (mgr w) !! j) /\
    (forall j, M !! j = if decide (a <= j < a + k)%nat
                        then (fun _ => None) <$> mfc_objs (mgr w) !! j
                        else mfc_objs (mgr w) !! j).
Proof.
  revert a w. induction k as [|k IH]; intros a w Hd Hm.
  - exists (devices (mgr w)), (mfc_objs (mgr w)). split; [|split].
    + destruct w as [[] ? ? ? ? ? ? ?]. reflexivity.
    + intros j. case_decide; [lia | reflexivity].
    + intros j. case_decide; [lia | reflexivity].
  - destruct (lookup_lt_is_Some_2 (devices (mgr w)) a) as [d Hda]; [lia|].
    destruct (lookup_lt_is_Some_2 (mfc_objs (mgr w)) a) as [o Hoa]; [lia|].
    assert (Hlt : (a <? length (mfc_objs (mgr w)))%nat = true)
      by (apply Nat.ltb_lt; lia).
    set (w1 := set_mgr (set_devices (alter (set_active false) a (devices (mgr w)))
                 (set_mfc_objs (<[a := None]> (mfc_objs (mgr w))) (mgr w))) w).
    assert (Hbody : (set_mfc a None >> deref a >> upd_dev a (set_active false)) w
                    = (Ok tt, w1)).
    { unfold set_mfc, deref, upd_dev, bind, gets, modify. simpl.
      rewrite Hlt. simpl. rewrite Hda. reflexivity. }
    destruct (IH (S a) w1) as (D & M & Hrun & HD & HM).
    { unfold w1. simpl. rewrite length_alter. lia. }
    { unfold w1. simpl. rewrite length_insert. lia. }
    exists D, M. split; [|split].
    + change (seq a (S k)) with (a :: seq (S a) k). simpl for_each.
      unfold bind at 1. rewrite Hbody. rewrite Hrun.
      destruct w as [[] ? ? ? ? ? ? ?]. reflexivity.
    + intros j. rewrite HD. unfold w1. simpl.
      destruct (decide (j = a)) as [->|Hne].
      * rewrite list_lookup_alter_eq. repeat case_decide; try lia. reflexivity.
      * rewrite list_lookup_alter_ne by congruence.
        repeat case_decide; try lia; reflexivity.
    + intros j. rewrite HM. unfold w1. simpl.
      destruct (decide (j = a)) as [->|Hne].
      * rewrite list_lookup_insert_eq by lia. rewrite Hoa.
        repeat case_decide; try lia. reflexivity.
      * rewrite list_lookup_insert_ne by congruence.
        repeat case_decide; try lia; reflexivity.
Qed.

Lemma unbind_all (n : nat) (w : World) :
  length (devices (mgr w)) = n -> length (mfc_objs (mgr w)) = n ->
  for_each (seq 0 n)
    (fun i => set_mfc i None >> deref i >> upd_dev i (set_active false)) w
  = (Ok tt, set_mgr (all_off (mgr w)) w).
Proof.
  intros Hd Hm.
  destruct (unbind_loop n 0 w) as (D & M & Hrun & HD & HM); [lia..|].
  rewrite Hrun. f_equal. f_equal. unfold all_off.
  assert (D = set_active false <$> devices (mgr w)) as ->.
  { apply list_eq. intros j. rewrite HD, list_lookup_fmap.
    case_decide; [reflexivity|].
    rewrite (lookup_ge_None_2 (devices (mgr w)) j) by lia. reflexivity. }
  assert (M = (fun _ => None) <$> mfc_objs (mgr w)) as ->.
  { apply list_eq. intros j. rewrite HM, list_lookup_fmap.
    case_decide; [reflexivity|].
    rewrite (lookup_ge_None_2 (mfc_objs (mgr w)) j) by lia. reflexivity. }
  reflexivity.
Qed.

Lemma run_disconnect (w : World) : wf w -> disconnect w = (Ok tt, disconnected w).
Proof.
  intros [Hd Hm].
  unfold disconnect, _stop_polling, disconnected.
  destruct w as [[sp n ds ms ps pt] t b c tk ? ? ?]. simpl in Hd, Hm.
  unfold bind, modify, gets, thread_alive. simpl.
  destruct pt as [[]|]; simpl;
    (destruct sp as [[p []]|]; simpl;
     [ unfold try_except, bind, ask, ret; simpl; destruct (raises _); simpl | | ]);
    rewrite (unbind_all n) by assumption; reflexivity.
Qed.

Lemma all_off_inactive (m : MassiqueManager) :
  Forall (fun d => active d = false) (devices (all_off m)) /\
  Forall (fun o => o = None) (mfc_objs (all_off m)).
Proof.
  unfold all_off. simpl. split; apply Forall_fmap, Forall_forall; intros; reflexivity.
Qed.

Lemma disconnected_wf (w : World) : wf w -> wf (disconnected w).
Proof.
  intros [Hd Hm]. split; simpl; rewrite length_fmap; assumption.
Qed.

Lemma disconnected_twice (w : World) : disconnected (disconnected w) = disconnected w.
Proof.
  destruct w as [[sp n ds ms ps pt] t b c tk ? ? ?].
  unfold disconnected, all_off, thread_alive. simpl.
  rewrite <- !list_fmap_compose.
  destruct pt as [[]|]; reflexivity.
Qed.

(** C7. On a manager whose lists are complete [disconnect] returns, and
    leaves every channel inactive and unbound; without an open session it
    calls neither the driver nor pyserial; run a second time in a row it
    changes nothing. *)
Theorem disconnect_idempotent (w : World) :
  wf w ->
  fst (disconnect w) = Ok tt /\
  (connected (mgr w) = false -> trace (snd (disconnect w)) = trace w) /\
  Forall (fun d => active d = false) (devices (mgr (snd (disconnect w)))) /\
  Forall (fun o => o = None) (mfc_objs (mgr (snd (disconnect w)))) /\
  disconnect (snd (disconnect w)) = (Ok tt, snd (disconnect w)).
Proof.
  intros Hwf. rewrite (run_disconnect w Hwf). cbn [fst snd].
  split; [reflexivity|]. split; [|split; [|split]].
  - unfold connected, disconnected. simpl.
    destruct (serial_port (mgr w)) as [s|]; [|reflexivity].
    intros ->. reflexivity.
  - apply (all_off_inactive _).
  - apply (all_off_inactive _).
  - rewrite (run_disconnect _ (disconnected_wf w Hwf)), disconnected_twice.
    reflexivity.
Qed.

End Disconnect.


(** ** Activation and deactivation *)

Section Lifecycle.

Lemma get_keeps_state (idx : Z) (w : World) : snd (_get idx w) = w.
Proof.
  unfold _get, deref, bind, gets, ret, raise. simpl.
  destruct (_ && _); [|reflexivity].
  destruct (devices (mgr w) !! Z.to_nat idx); reflexivity.
Qed.

Lemma sized_in_range n (w : World) (idx : Z) :
  sized n (mgr w) -> 0 <= idx < Z.of_nat n -> in_range w idx.
Proof. intros (H0 & _) H. unfold in_range. rewrite H0. exact H. Qed.

(** The [except] block, on a manager whose lists are complete. *)
Lemma run_rollback (w : World) (idx : Z) (e : exn) :
  wf w -> in_range w idx ->
  fst (rollback idx e w) = Raise e /\
  (exists d', chan (snd (rollback idx e w)) idx = Some d' /\ active d' = false) /\
  binding (snd (rollback idx e w)) idx = None.
Proof.
  intros Hwf Hr. destruct (wf_lookup_dev w idx Hwf Hr) as [d Hd].
  destruct Hwf as [Hl1 Hl2]. destruct Hr as [Hr0 Hr1].
  unfold rollback, upd_dev, set_mfc, bind, modify, gets, raise. simpl.
  assert ((Z.to_nat idx <? length (mfc_objs (mgr w)))%nat = true) as ->
    by (apply Nat.ltb_lt; lia).
  simpl. split; [reflexivity|]. split.
  - unfold chan. simpl. rewrite list_lookup_alter_eq. unfold chan in Hd. rewrite Hd.
    simpl. eauto.
  - unfold binding. simpl. rewrite list_lookup_insert_eq by lia. reflexivity.
Qed.

(** The address probe is a step of the [try] block: when it raises,
    [activate] raises. *)
Lemma activate_probe_failure (w : World) (idx : Z) (d : DeviceState) (s : Serial) :
  wf w -> in_range w idx -> chan w idx = Some d ->
  serial_port (mgr w) = Some s -> is_open s = true ->
  raises (bus w (trace w) (device_mfc s)) = false ->
  raises (bus w (trace w ++ [device_mfc s])
            (get_address (mkMfc s (pack_tag_name (tag d))))) = true ->
  fst (activate idx w) = Raise DriverError.
Proof.
  intros Hwf Hr Hd Hs Ho H1 H2.
  unfold activate, bind. rewrite (run_get w idx d Hr Hd). unfold gets. simpl.
  rewrite Hs, Ho. unfold try_except, activation, with_serial_lock, bind, ask.
  rewrite H1. simpl. rewrite H2. simpl.
  apply run_rollback; [exact Hwf | exact Hr].
Qed.


End Lifecycle.


(** ** The polling loop *)

Section PollLoop.

Lemma cmd_update_active f d : cmd_update f -> active (f d) = active d.
Proof. intros Hf. destruct Hf; reflexivity. Qed.

Lemma active_at_closed i f k m :
  cmd_update f -> active_at i m ->
  active_at i (set_devices (alter f k (devices m)) m).
Proof.
  intros Hf (d & Hd & Ha). unfold active_at. simpl.
  destruct (decide (k = i)) as [->|Hne].
  - exists (f d). rewrite list_lookup_alter_eq, Hd. split; [reflexivity|].
    rewrite (cmd_update_active f d Hf). exact Ha.
  - exists d. rewrite list_lookup_alter_ne by exact Hne. split; assumption.
Qed.

Lemma chan_is_closed j dj oj f k m :
  k <> j -> chan_is j dj oj m ->
  chan_is j dj oj (set_devices (alter f k (devices m)) m).
Proof.
  intros Hne [Hd Ho]. split; simpl; [|exact Ho].
  rewrite list_lookup_alter_ne by exact Hne. exact Hd.
Qed.

Lemma poll_step_returns (w : World) (i : nat) :
  (i < length (devices (mgr w)))%nat -> fst (poll_step i w) = Ok tt.
Proof.
  intros Hi. destruct (lookup_lt_is_Some_2 _ _ Hi) as [d Hd].
  unfold poll_step, bind. rewrite (run_deref w i d Hd).
  destruct (active d); simpl; [|reflexivity].
  unfold try_except. destruct (_poll_one (Z.of_nat i) w) as [[[]|e] w1]; reflexivity.
Qed.

Lemma poll_steps_return (n k a : nat) (w : World) :
  sized n (mgr w) -> (a + k <= n)%nat ->
  fst (for_each (seq a k) poll_step w) = Ok tt.
Proof.
  revert a w. induction k as [|k IH]; intros a w Hs Hle; [reflexivity|].
  change (seq a (S k)) with (a :: seq (S a) k). simpl for_each. unfold bind at 1.
  pose proof (poll_step_returns w a) as Hok.
  pose proof (sized_poll_step n a w Hs) as Hs1.
  destruct (poll_step a w) as [[[]|e] w1]; simpl in *.
  - apply IH; [exact Hs1 | lia].
  - destruct Hs as (_ & Hl & _). rewrite Hl in Hok.
    specialize (Hok ltac:(lia)). discriminate.
Qed.

Lemma poll_cycle_returns (w : World) : wf w -> fst (poll_cycle w) = Ok tt.
Proof.
  intros Hwf. unfold poll_cycle, bind, gets. simpl.
  apply (poll_steps_return (max_devices (mgr w))); [apply wf_sized, Hwf | lia].
Qed.

Lemma poll_loop_returns (n : nat) (w : World) : wf w -> fst (_poll_loop n w) = Ok tt.
Proof.
  revert w. induction n as [|n IH]; intros w Hwf; [reflexivity|].
  simpl. unfold bind, gets. simpl. destruct (poll_stop (mgr w)); [reflexivity|].
  pose proof (poll_cycle_returns w Hwf) as Hok.
  pose proof (sized_poll_cycle _ w (proj1 (wf_sized w) Hwf)) as Hs.
  destruct (poll_cycle w) as [[[]|e] w1]; simpl in *; [|discriminate].
  apply IH. eapply sized_wf, Hs.
Qed.


End PollLoop.


(** ** Deactivation *)

Section Deactivation.

Lemma gas_kept_closed i d f k m :
  (forall x, same_gas x (f x)) -> gas_kept i d m ->
  gas_kept i d (set_devices (alter f k (devices m)) m).
Proof.
  intros Hf (d1 & Hd1 & H1 & H2 & H3). unfold gas_kept. simpl.
  destruct (decide (k = i)) as [->|Hne].
  - exists (f d1). rewrite list_lookup_alter_eq, Hd1. split; [reflexivity|].
    destruct (Hf d1) as (G1 & G2 & G3). repeat split; congruence.
  - exists d1. rewrite list_lookup_alter_ne by exact Hne.
    split; [assumption | repeat split; assumption].
Qed.

Lemma gas_kept_shutdown i d0 idx d o : preserves (gas_kept i d0) (shutdown idx d o).
Proof.
  unfold shutdown, send_consigne. repeat pres_step;
    intros; (apply gas_kept_closed; [intros x; repeat split | assumption]).
Qed.

Lemma sized_shutdown n idx d o : preserves (sized n) (shutdown idx d o).
Proof.
  pose proof (sized_send_consigne n idx) as H.
  unfold shutdown. repeat pres_step.
Qed.

Lemma shutdown_returns idx d o (w : World) : fst (shutdown idx d o w) = Ok tt.
Proof.
  unfold shutdown. destruct o as [m|]; [|reflexivity].
  destruct (active d); [|reflexivity].
  rewrite try_except_swallow. reflexivity.
Qed.

(** C1, as the code has it. On a manager whose lists are complete,
    [deactivate] of an in-range channel returns, whatever the device
    answers during the shutdown; the channel is then inactive and
    unbound, its five telemetry fields and both histories carry the
    unknown sentinel, and its selected gas and gas menu are what they
    were before the call. *)
Theorem deactivate_resets_telemetry (w : World) (idx : Z) (d : DeviceState) :
  wf w -> in_range w idx -> chan w idx = Some d ->
  fst (deactivate idx w) = Ok tt /\
  binding (snd (deactivate idx w)) idx = None /\
  exists d', chan (snd (deactivate idx w)) idx = Some d' /\
             active d' = false /\ telemetry_unknown d' /\
             selected_gas d' = selected_gas d /\
             available_gases d' = available_gases d /\
             gas_map d' = gas_map d.
Proof.
  intros Hwf Hr Hd. destruct (wf_lookup_mfc w idx Hwf Hr) as [o Ho].
  pose proof (shutdown_returns idx d o w) as Hret.
  pose proof (sized_shutdown _ idx d o w (proj1 (wf_sized w) Hwf)) as Hsz.
  assert (Hgas : gas_kept (Z.to_nat idx) d (mgr (snd (shutdown idx d o w)))).
  { apply gas_kept_shutdown. exists d. split; [exact Hd | repeat split]. }
  destruct (deactivate idx w) as [res w'] eqn:E. cbn [fst snd].
  revert E. unfold deactivate. unfold bind at 1. rewrite (run_get w idx d Hr Hd).
  unfold bind at 1. rewrite (run_get_mfc w _ o Ho).
  unfold bind at 1.
  destruct (shutdown idx d o w) as [[[]|e] w1]; simpl in Hret, Hsz, Hgas;
    [|discriminate].
  destruct Hsz as (Hn & Hl1 & Hl2). destruct Hr as [Hr0 Hr1].
  destruct Hgas as (d1 & Hd1 & G1 & G2 & G3).
  unfold upd_dev, set_mfc, bind, modify, gets. simpl.
  assert ((Z.to_nat idx <? length (mfc_objs (mgr w1)))%nat = true) as ->
    by (apply Nat.ltb_lt; lia).
  simpl. intros E. injection E as <- <-.
  split; [reflexivity|]. split.
  - unfold binding. simpl. rewrite list_lookup_insert_eq by lia. reflexivity.
  - unfold chan. simpl. rewrite !list_lookup_alter_eq, Hd1. simpl.
    eexists. split; [reflexivity|]. simpl.
    split; [reflexivity|]. split; [repeat split|]. auto.
Qed.

End Deactivation.

(** ** Sessions *)

Section Sessions.

Lemma safe_closed_cmd f i m :
  cmd_update f -> safe m -> safe (set_devices (alter f i (devices m)) m).
Proof.
  intros Hf [[Hl1 Hl2] Hs]. split.
  - split; simpl; rewrite ?length_alter; assumption.
  - intros Hc. destruct (Hs Hc) as [Ha Hb]. split; simpl; [|exact Hb].
    apply Forall_alter; [exact Ha|]. intros d _ Hd.
    rewrite (cmd_update_active f d Hf). exact Hd.
Qed.

Lemma safe_closed_off i m :
  safe m -> safe (set_devices (alter (set_active false) i (devices m)) m).
Proof.
  intros [[Hl1 Hl2] Hs]. split.
  - split; simpl; rewrite ?length_alter; assumption.
  - intros Hc. destruct (Hs Hc) as [Ha Hb]. split; simpl; [|exact Hb].
    apply Forall_alter; [exact Ha|]. intros d _ _. reflexivity.
Qed.

Lemma safe_closed_unbind i m :
  safe m -> safe (set_mfc_objs (<[i := None]> (mfc_objs m)) m).
Proof.
  intros [[Hl1 Hl2] Hs]. split.
  - split; simpl; rewrite ?length_insert; assumption.
  - intros Hc. destruct (Hs Hc) as [Ha Hb]. split; simpl; [exact Ha|].
    apply Forall_insert; [exact Hb | reflexivity].
Qed.

Lemma safe_disconnect : preserves safe disconnect.
Proof.
  intros w [Hwf _]. rewrite (run_disconnect w Hwf). cbn [snd].
  split; [apply (disconnected_wf w Hwf)|].
  intros _. apply all_off_inactive.
Qed.

Lemma all_idle_safe m : all_idle m -> safe m.
Proof. intros (Hwf & Ha & Hb). split; [exact Hwf|]. intros _. split; assumption. Qed.

Lemma safe_connect p : preserves safe (connect p).
Proof.
  intros w [Hwf _]. unfold connect. unfold bind at 1.
  rewrite (run_disconnect w Hwf).
  apply all_idle_safe.
  assert (Hidle : all_idle (mgr (disconnected w))).
  { split; [apply (disconnected_wf w Hwf) | apply all_off_inactive]. }
  revert Hidle. generalize (disconnected w). clear w Hwf.
  change (preserves all_idle
            (let! s := open_serial_port p in
             modify (set_serial_port (Some s)) >> _start_polling)).
  repeat pres_step; intros m (Hwf & Ha & Hb); (split; [|split]); assumption.
Qed.

Lemma safe_activate idx : preserves safe (activate idx).
Proof.
  intros w [Hwf Hs]. split.
  - eapply sized_wf. apply sized_activate. apply wf_sized, Hwf.
  - destruct (connected (mgr w)) eqn:Hc.
    + intros Hc'. exfalso.
      assert (Hp : serial_port (mgr (snd (activate idx w))) = serial_port (mgr w)).
      { apply (keep_activate (fun m => serial_port m = serial_port (mgr w))
                 (fun _ => True)); try (intros; simpl; assumption);
          [exact I | reflexivity]. }
      unfold connected in Hc, Hc'. rewrite Hp in Hc'. congruence.
    + assert (Hsame : snd (activate idx w) = w).
      { unfold activate, bind. pose proof (get_keeps_state idx w) as Hg.
        destruct (_get idx w) as [[d|e] w0]; simpl in Hg; subst w0; [|reflexivity].
        unfold gets. simpl. unfold connected in Hc.
        destruct (serial_port (mgr w)) as [s|]; [|reflexivity].
        rewrite Hc. reflexivity. }
      rewrite Hsame. exact Hs.
Qed.

Lemma safe_exec s : preserves safe (exec s).
Proof.
  apply keep_exec with (S := fun _ => True);
    first [ apply safe_connect | apply safe_disconnect | apply safe_activate
          | intros; first [ exact I
                          | apply safe_closed_cmd; assumption
                          | apply safe_closed_off; assumption
                          | apply safe_closed_unbind; assumption ] ].
Qed.

(** Every state of a run is one on which the statements about
    [activate], [deactivate], [disconnect] and the poller apply. *)
Lemma run_safe (tags : list string) (n : nat)
    (bus : list call -> call -> reply) (clock : nat -> Z)
    (dir_ok writable : bool) (file : option (list string)) (steps : list step) :
  wf (run steps (init_world tags n bus clock dir_ok writable file)) /\
  session_inv (run steps (init_world tags n bus clock dir_ok writable file)).
Proof.
  apply (keep_run safe steps); [apply safe_exec|].
  split.
  - eapply sized_wf with (w := init_world tags n bus clock dir_ok writable file).
    apply sized_init.
  - intros _. simpl. split.
    + apply Forall_fmap, Forall_forall. intros; reflexivity.
    + apply Forall_replicate. reflexivity.
Qed.

End Sessions.


(** ** The control surface *)

Section ControlSurface.

Lemma wrap_with_snapshot (m : M unit) (w : World) :
  (m >> Api.snapshot) w
  = match m w with
    | (Ok _, w') => (Ok (Api.JsSnapshot (snapshot (mgr w'))), w')
    | (Raise e, w') => (Raise e, w')
    end.
Proof.
  unfold bind, Api.snapshot, gets, ret.
  destruct (m w) as [[[]|e] w']; reflexivity.
Qed.

(** C8, as the code has it. Every mutating call of the control surface
    but [set_tag] hands back the snapshot of the state its manager method
    leaves when that method returns, and re-raises the exception of the
    method, with no snapshot, when it raises; [set_tag] hands back [True]
    whenever it returns. *)
Theorem serve_returns (r : Api.request) (w : World) :
  match r with
  | Api.SetTag idx t =>
      forall v, fst (Api.serve r w) = Ok v -> v = Api.JsBool true
  | _ =>
      Api.serve r w
      = match manager_call r w with
        | (Ok _, w') => (Ok (Api.JsSnapshot (snapshot (mgr w'))), w')
        | (Raise e, w') => (Raise e, w')
        end
  end.
Proof.
  destruct r; simpl; try apply wrap_with_snapshot.
  intros v. unfold Api.set_tag, bind, lift, ret.
  destruct (load_tags w) as [[tags|e] w1]; simpl; [|discriminate].
  destruct (list_assign tags idx (pad8 t)) as [tags'|e]; simpl; [|discriminate].
  destruct (save_tags tags' w1) as [[[]|e] w2]; simpl; [|discriminate].
  destruct (set_tag idx (pad8 t) w2) as [[[]|e] w3]; simpl; [|discriminate].
  intros H. injection H as <-. reflexivity.
Qed.

(** On a fresh manager [set_tag] answers [True], not a snapshot, and
    switching a channel on without a session raises instead of answering
    with a snapshot. *)
Lemma serve_without_snapshot :
  ~ (exists s, fst (Api.serve (Api.SetTag 0 "PUMP") (world0 quiet_bus))
               = Ok (Api.JsSnapshot s)) /\
  ~ (exists s, fst (Api.serve (Api.ToggleDevice 0 (VBool true)) (world0 quiet_bus))
               = Ok (Api.JsSnapshot s)).
Proof.
  split; intros [s H]; vm_compute in H; discriminate H.
Qed.

End ControlSurface.

(** ** The statements at work on the bench *)

Section Bench.

(** [_reset_data] leaves the cached full scale, the setpoint and the gas
    fields as they are. *)
Remark reset_data_keeps (d : DeviceState) :
  full_scale_value (_reset_data d) = full_scale_value d /\
  consigne (_reset_data d) = consigne d /\
  selected_gas (_reset_data d) = selected_gas d /\
  available_gases (_reset_data d) = available_gases d /\
  gas_map (_reset_data d) = gas_map d.
Proof. repeat split. Qed.

(** The discovery of the gases swallows the probes that fail: on the
    bench, identifiers 3 and 4 raise and the activation still succeeds. *)
Example activate_with_short_menu :
  fst (activate 0 (w_connected bench_bus)) = Ok tt /\
  (active <$> chan (snd (activate 0 (w_connected bench_bus))) 0) = Some true /\
  (available_gases <$> chan (snd (activate 0 (w_connected bench_bus))) 0)
    = Some ["N2"; "Ar"]%string.
Proof. vm_compute. repeat split. Qed.

Lemma deactivate_resets_telemetry_witness :
  fst (deactivate 0 (w_polled bench_bus)) = Ok tt /\
  binding (snd (deactivate 0 (w_polled bench_bus))) 0 = None /\
  exists d', chan (snd (deactivate 0 (w_polled bench_bus))) 0 = Some d' /\
             active d' = false /\ telemetry_unknown d' /\
             selected_gas d' = selected_gas (chan0 (w_polled bench_bus)) /\
             available_gases d' = available_gases (chan0 (w_polled bench_bus)) /\
             gas_map d' = gas_map (chan0 (w_polled bench_bus)).
Proof.
  assert (Hwf : wf (w_polled bench_bus)) by (split; vm_compute; reflexivity).
  assert (Hr : in_range (w_polled bench_bus) 0)
    by (vm_compute; split; [discriminate | reflexivity]).
  assert (Hd : chan (w_polled bench_bus) 0 = Some (chan0 (w_polled bench_bus)))
    by (vm_compute; reflexivity).
  exact (deactivate_resets_telemetry _ _ _ Hwf Hr Hd).
Defined.

(** After [deactivate] the channel 0 of the bench still has gas 1
    selected and its menu of two gases. *)
Lemma deactivate_keeps_gas_menu :
  ~ inactive_state (snd (deactivate 0 (w_polled bench_bus))) 0.
Proof.
  intros (_ & d & Hd & _ & Hg & _).
  vm_compute in Hd. injection Hd as <-. discriminate Hg.
Qed.



Lemma disconnect_idempotent_witness :
  fst (disconnect (world0 quiet_bus)) = Ok tt /\
  (connected (mgr (world0 quiet_bus)) = false ->
   trace (snd (disconnect (world0 quiet_bus))) = trace (world0 quiet_bus)) /\
  Forall (fun d => active d = false)
    (devices (mgr (snd (disconnect (world0 quiet_bus))))) /\
  Forall (fun o => o = None)
    (mfc_objs (mgr (snd (disconnect (world0 quiet_bus))))) /\
  disconnect (snd (disconnect (world0 quiet_bus)))
  = (Ok tt, snd (disconnect (world0 quiet_bus))).
Proof.
  assert (Hwf : wf (world0 quiet_bus)) by (split; vm_compute; reflexivity).
  exact (disconnect_idempotent _ Hwf).
Defined.

End Bench.

(** ** Steps of the monad *)

Section Basics.

Lemma bind_unit_ret (m : M unit) (w : World) : (m >> ret tt) w = m w.
Proof. unfold bind, ret. destruct (m w) as [[[]|e] w1]; reflexivity. Qed.

Lemma bind_ret_then {A B} (m : M A) (k : M B) (w : World) :
  ((m >> ret tt) >> k) w = (m >> k) w.
Proof. unfold bind, ret. destruct (m w) as [[a|e] w1]; reflexivity. Qed.

Lemma bind_assoc {A B C} (m : M A) (f : A -> M B) (g : B -> M C) (w : World) :
  bind (bind m f) g w = bind m (fun a => bind (f a) g) w.
Proof. unfold bind. destruct (m w) as [[a|e] w1]; reflexivity. Qed.

Lemma bind_ext {A B} (m : M A) (k k' : A -> M B) (w : World) :
  (forall a w1, m w = (Ok a, w1) -> k a w1 = k' a w1) ->
  bind m k w = bind m k' w.
Proof.
  intros H. unfold bind. destruct (m w) as [[a|e] w1]; [|reflexivity].
  apply H. reflexivity.
Qed.

Lemma bind_ok_inv {A B} (m : M A) (k : A -> M B) (w w' : World) (b : B) :
  bind m k w = (Ok b, w') ->
  exists a w1, m w = (Ok a, w1) /\ k a w1 = (Ok b, w').
Proof.
  unfold bind. destruct (m w) as [[a|e] w1]; intros H; [eauto | discriminate].
Qed.

Lemma ask_ok_inv (c : call) (w w' : World) (r : reply) :
  ask c w = (Ok r, w') -> w' = set_trace (trace w ++ [c]) w.
Proof.
  unfold ask. destruct (raises _); intros H; [discriminate|].
  injection H as _ <-. reflexivity.
Qed.

Lemma deref_ok_inv (i : nat) (w w' : World) (d : DeviceState) :
  deref i w = (Ok d, w') -> w' = w /\ devices (mgr w) !! i = Some d.
Proof.
  unfold deref, bind, gets, ret, raise. simpl.
  destruct (devices (mgr w) !! i); [|discriminate].
  intros H. injection H as <- <-. auto.
Qed.

Lemma get_ok_inv (idx : Z) (w w' : World) (d : DeviceState) :
  _get idx w = (Ok d, w') -> w' = w /\ devices (mgr w) !! Z.to_nat idx = Some d.
Proof.
  unfold _get, deref, bind, gets, ret, raise. simpl.
  destruct (_ && _); [|discriminate].
  destruct (devices (mgr w) !! Z.to_nat idx); [|discriminate].
  intros H. injection H as <- <-. auto.
Qed.

Lemma ask_keeps_mgr (c : call) (w : World) : mgr (snd (ask c w)) = mgr w.
Proof. unfold ask. destruct (raises _); reflexivity. Qed.

Lemma need_mfc_keeps_state (idx : Z) (w : World) : snd (_need_mfc idx w) = w.
Proof.
  unfold _need_mfc, bind. pose proof (get_keeps_state idx w) as Hg.
  destruct (_get idx w) as [[d|e] w0]; simpl in Hg; subst w0; [|reflexivity].
  unfold get_mfc, bind, gets, ret, raise. simpl.
  destruct (mfc_objs (mgr w) !! Z.to_nat idx) as [[m|]|]; try reflexivity.
  destruct (negb (active d)); reflexivity.
Qed.

Lemma set_selected_gas_same (d : DeviceState) :
  set_selected_gas (selected_gas d) d = d.
Proof. destruct d; reflexivity. Qed.

Lemma alter_same {A} (f : A -> A) (i : nat) (l : list A) (x : A) :
  l !! i = Some x -> f x = x -> alter f i l = l.
Proof.
  intros Hx Hf. apply list_eq. intros j. destruct (decide (j = i)) as [->|Hne].
  - rewrite list_lookup_alter_eq, Hx. simpl. rewrite Hf. reflexivity.
  - apply list_lookup_alter_ne. congruence.
Qed.

Lemma set_devices_same (m : MassiqueManager) : set_devices (devices m) m = m.
Proof. destruct m; reflexivity. Qed.

Lemma set_mgr_same (w : World) : set_mgr (mgr w) w = w.
Proof. destruct w; reflexivity. Qed.

Lemma for_each_app {A} (l1 l2 : list A) (body : A -> M unit) (w : World) :
  for_each (l1 ++ l2) body w = (for_each l1 body >> for_each l2 body) w.
Proof.
  revert w. induction l1 as [|x l1 IH]; intros w; simpl.
  - reflexivity.
  - rewrite bind_assoc. apply bind_ext. intros _ w1 _. apply IH.
Qed.

End Basics.

(** ** The clamp of a setpoint *)

Section SetpointClamp.

Lemma is_nan_inv (c : float) : is_nan c = true -> c = S754_nan.
Proof. destruct c; simpl; intros H; first [reflexivity | discriminate]. Qed.

(** C2, as the code has it. On an active channel whose full scale [F] is
    known and positive, [send_consigne] with an input that [float()]
    converts to a number [c] other than NaN leaves a stored setpoint in
    [[0, F]]: [F] when [c > F] and [0.0] when [c < 0], whether or not the
    write to the device then succeeds. A NaN is stored as it is, outside
    [[0, F]], and written as a NaN percentage. An input that [float()]
    rejects changes nothing. *)
Theorem send_consigne_clamps (w : World) (idx : Z) (v : pyval)
    (d : DeviceState) (m : Mfc) :
  in_range w idx -> chan w idx = Some d -> active d = true ->
  binding w idx = Some m ->
  flt f0 (full_scale_value d) = true ->
  (forall c, py_float v = Ok c -> is_nan c = false ->
     exists d', chan (snd (send_consigne idx v w)) idx = Some d' /\
       fle f0 (consigne d') = true /\
       fle (consigne d') (full_scale_value d) = true /\
       (flt (full_scale_value d) c = true -> consigne d' = full_scale_value d) /\
       (flt c f0 = true -> consigne d' = f0)) /\
  (forall c, py_float v = Ok c -> is_nan c = true ->
     (exists d', chan (snd (send_consigne idx v w)) idx = Some d' /\
        is_nan (consigne d') = true /\
        fle f0 (consigne d') = false /\
        fle (consigne d') (full_scale_value d) = false) /\
     (exists p, trace (snd (send_consigne idx v w)) = trace w ++ [write_setpoint m p 57] /\
                is_nan p = true)) /\
  (forall e, py_float v = Raise e -> send_consigne idx v w = (Ok tt, w)).
Proof.
  intros Hr Hd Ha Hm HF. split; [|split].
  - intros c Hv Hc.
    destruct (send_consigne_stores w idx v c d m Hr Hd Ha Hm Hv)
      as (d' & Hd' & Hcons & _ & _ & _).
    exists d'. rewrite Hcons.
    destruct (clamp_bounds (full_scale_value d) c HF Hc) as [Hlo Hhi].
    repeat split; try assumption.
    + intros Hgt. apply clamp_above; assumption.
    + intros Hneg. apply clamp_below; assumption.
  - intros c Hv Hc. apply is_nan_inv in Hc. subst c.
    destruct (send_consigne_stores w idx v S754_nan d m Hr Hd Ha Hm Hv)
      as (d' & Hd' & Hcons & _ & _ & Htr).
    split.
    + exists d'. rewrite Hcons, clamp_nan. split; [exact Hd'|].
      split; [reflexivity|]. split; [reflexivity|].
      destruct (full_scale_value d) as [|[]| |[]]; reflexivity.
    + rewrite (flt_positive_truthy _ HF), clamp_nan in Htr.
      eexists. split; [exact Htr|].
      unfold percent. destruct (full_scale_value d) as [|[]| |[]]; reflexivity.
  - intros e Hv. unfold send_consigne, bind.
    rewrite (run_get w idx d Hr Hd), (run_need_mfc w idx d m Hr Hd Ha Hm), Hv.
    reflexivity.
Qed.

Lemma send_consigne_clamps_witness :
  exists d', chan (snd (send_consigne 0 (VInt 150) (w_polled bench_bus))) 0 = Some d' /\
    fle f0 (consigne d') = true /\
    fle (consigne d') (full_scale_value (chan0 (w_polled bench_bus))) = true /\
    (flt (full_scale_value (chan0 (w_polled bench_bus))) (float_of_Z 150) = true ->
     consigne d' = full_scale_value (chan0 (w_polled bench_bus))) /\
    (flt (float_of_Z 150) f0 = true -> consigne d' = f0).
Proof.
  assert (Hr : in_range (w_polled bench_bus) 0)
    by (vm_compute; split; [discriminate | reflexivity]).
  assert (Hd : chan (w_polled bench_bus) 0 = Some (chan0 (w_polled bench_bus)))
    by (vm_compute; reflexivity).
  assert (Ha : active (chan0 (w_polled bench_bus)) = true) by (vm_compute; reflexivity).
  assert (Hm : binding (w_polled bench_bus) 0 = Some (binding0 (w_polled bench_bus)))
    by (vm_compute; reflexivity).
  assert (HF : flt f0 (full_scale_value (chan0 (w_polled bench_bus))) = true)
    by (vm_compute; reflexivity).
  assert (Hv : py_float (VInt 150) = Ok (float_of_Z 150)) by (vm_compute; reflexivity).
  assert (Hc : is_nan (float_of_Z 150) = false) by (vm_compute; reflexivity).
  exact (proj1 (send_consigne_clamps (w_polled bench_bus) 0 (VInt 150) _ _
                  Hr Hd Ha Hm HF) (float_of_Z 150) Hv Hc).
Defined.

(** The claim as the specification words it fails on two numeric inputs.
    On the bench, where channel 0 has the full scale 100.0: the float NaN
    is stored as the setpoint, which is then not in [[0, 100]]; and the
    integer [10 ^ 400], which is above the full scale, is dropped by
    [float()], so that the stored setpoint stays 0.0 instead of becoming
    100.0. *)
Lemma send_consigne_nan_and_overflow :
  (consigne <$> chan (snd (send_consigne 0 (VFloat S754_nan) (w_polled bench_bus))) 0)
  = Some S754_nan /\
  fle f0 S754_nan = false /\
  full_scale_value (chan0 (w_polled bench_bus)) = f100 /\
  send_consigne 0 (VInt (10 ^ 400)) (w_polled bench_bus)
  = (Ok tt, w_polled bench_bus) /\
  consigne (chan0 (w_polled bench_bus)) = f0.
Proof. vm_compute. repeat split. Qed.

End SetpointClamp.

(** ** The setpoint sent before the full scale is known *)

Section DeferredWrite.

Lemma clamp_unknown (fsv c : float) :
  float_truthy fsv = false -> clamp fsv c = if flt c f0 then f0 else c.
Proof. intros H. unfold clamp. rewrite H. reflexivity. Qed.

Lemma clamp_known (F c : float) :
  flt f0 F = true ->
  clamp F c = if flt F (if flt c f0 then f0 else c) then F
              else if flt c f0 then f0 else c.
Proof. intros H. unfold clamp. rewrite (flt_positive_truthy F H). reflexivity. Qed.

(** C4. While the full scale of an active channel is unknown (0.0),
    [send_consigne] with a number [c] stores [c], or 0.0 for a negative
    [c], and returns without any call to the device. A later poll exchange
    that reads a full scale [F > 0] while the stored setpoint [c] is
    nonzero ends with one setpoint write: the stored value, brought to 0.0
    when negative and to [F] when above [F], divided by [F] and multiplied
    by 100, in unit 57; that value is also the stored setpoint from then
    on. The poll returns normally whatever the device answers to that
    write. *)
Theorem deferred_setpoint_applied_by_poll (w : World) (idx : Z)
    (d : DeviceState) (m : Mfc) :
  in_range w idx -> chan w idx = Some d -> active d = true ->
  binding w idx = Some m ->
  (forall v c, float_truthy (full_scale_value d) = false -> py_float v = Ok c ->
     fst (send_consigne idx v w) = Ok tt /\
     trace (snd (send_consigne idx v w)) = trace w /\
     chan (snd (send_consigne idx v w)) idx
       = Some (set_consigne (if flt c f0 then f0 else c) d)) /\
  (forall g vF u F,
     selected_gas d = Some g ->
     Forall (fun r => raises r = false) (answers (bus w) (trace w) (poll_reads m g)) ->
     r_sample <$> (answers (bus w) (trace w) (poll_reads m g) !! 2%nat)
       = Some (Some (vF, u)) ->
     py_float vF = Ok F -> flt f0 F = true ->
     float_truthy (consigne d) = true ->
     let c0 := if flt (consigne d) f0 then f0 else consigne d in
     let c1 := if flt F c0 then F else c0 in
     fst (_poll_one idx w) = Ok tt /\
     trace (snd (_poll_one idx w))
       = trace w ++ poll_reads m g
         ++ [write_setpoint m (fmul (fdiv c1 F) f100) 57] /\
     exists d', chan (snd (_poll_one idx w)) idx = Some d' /\
                consigne d' = c1 /\
                full_scale_value d' = F).
Proof.
  intros Hr Hd Ha Hm. split.
  - intros v c HF Hv. unfold send_consigne, bind.
    rewrite (run_get w idx d Hr Hd), (run_need_mfc w idx d m Hr Hd Ha Hm), Hv, HF.
    simpl. split; [reflexivity|]. split; [reflexivity|].
    unfold chan. simpl. rewrite list_lookup_alter_eq.
    unfold chan in Hd. rewrite Hd. simpl. rewrite (clamp_unknown _ c HF). reflexivity.
  - intros g vF u F Hg Hok Hfs HvF HF Hc. cbv zeta.
    rewrite <- (clamp_known F (consigne d) HF).
    exact (poll_one_reissues w idx d m g vF u F Hr Hd Ha Hm Hg Hok Hfs HvF HF Hc).
Qed.

(** On a bench with the full scale 200: the setpoint 50 sent before any
    poll makes no call; the first poll then writes 25 percent, and returns
    although the device refuses the write. *)
Lemma deferred_setpoint_applied_by_poll_witness :
  trace (w_pending wide_bus) = trace (w_active wide_bus) /\
  fst (_poll_one 0 (w_pending wide_bus)) = Ok tt /\
  trace (snd (_poll_one 0 (w_pending wide_bus)))
    = trace (w_pending wide_bus)
      ++ poll_reads (binding0 (w_pending wide_bus)) 1
      ++ [write_setpoint (binding0 (w_pending wide_bus)) (float_of_Z 25) 57] /\
  raises (wide_bus [] (write_setpoint (binding0 (w_pending wide_bus))
                         (float_of_Z 25) 57)) = true.
Proof.
  assert (Hr : in_range (w_pending wide_bus) 0)
    by (vm_compute; split; [discriminate | reflexivity]).
  assert (Hd : chan (w_pending wide_bus) 0 = Some (chan0 (w_pending wide_bus)))
    by (vm_compute; reflexivity).
  assert (Ha : active (chan0 (w_pending wide_bus)) = true)
    by (vm_compute; reflexivity).
  assert (Hm : binding (w_pending wide_bus) 0 = Some (binding0 (w_pending wide_bus)))
    by (vm_compute; reflexivity).
  pose proof (deferred_setpoint_applied_by_poll _ _ _ _ Hr Hd Ha Hm) as [_ H].
  assert (Hg : selected_gas (chan0 (w_pending wide_bus)) = Some 1)
    by (vm_compute; reflexivity).
  assert (Hok : Forall (fun r => raises r = false)
                  (answers (bus (w_pending wide_bus)) (trace (w_pending wide_bus))
                     (poll_reads (binding0 (w_pending wide_bus)) 1)))
    by (repeat constructor).
  assert (Hfs : r_sample <$> (answers (bus (w_pending wide_bus))
                                (trace (w_pending wide_bus))
                                (poll_reads (binding0 (w_pending wide_bus)) 1) !! 2%nat)
                = Some (Some (VFloat (float_of_Z 200), "l/min"%string)))
    by (vm_compute; reflexivity).
  assert (HvF : py_float (VFloat (float_of_Z 200)) = Ok (float_of_Z 200)) by reflexivity.
  assert (HF : flt f0 (float_of_Z 200) = true) by (vm_compute; reflexivity).
  assert (Hc : float_truthy (consigne (chan0 (w_pending wide_bus))) = true)
    by (vm_compute; reflexivity).
  destruct (H 1 (VFloat (float_of_Z 200)) "l/min"%string (float_of_Z 200)
              Hg Hok Hfs HvF HF Hc) as (G1 & G2 & _).
  split; [vm_compute; reflexivity|]. split; [exact G1|].
  split; [|vm_compute; reflexivity].
  rewrite G2. vm_compute. reflexivity.
Defined.

End DeferredWrite.

(** ** A failing step of the activation *)

Section ActivationSteps.





Lemma run_steps_raise (pre post : list (M unit)) (step : M unit)
    (w wk w' : World) (e : exn) :
  run_steps pre w = (Ok tt, wk) -> step wk = (Raise e, w') ->
  run_steps (pre ++ step :: post) w = (Raise e, w').
Proof.
  revert w. induction pre as [|m pre IH]; intros w Hpre Hstep.
  - injection Hpre as <-. simpl. unfold bind. rewrite Hstep. reflexivity.
  - simpl in *. unfold bind in *.
    destruct (m w) as [[[]|e1] w1]; [|discriminate].
    apply IH; assumption.
Qed.



(** The [try] block of [activate] is the sequence of its statements. *)
Lemma activation_steps (idx : Z) (d : DeviceState) (s : Serial) (w : World) :
  activation idx d s w = run_steps (try_steps idx s (tag d)) w.
Proof.
  unfold activation, try_steps. cbv zeta. simpl run_steps.
  set (i := Z.to_nat idx). set (mfc := mkMfc s (pack_tag_name (tag d))).
  rewrite bind_ret_then. apply bind_ext. intros _ w1 _.
  rewrite bind_ret_then. apply bind_ext. intros _ w2 _.
  apply bind_ext. intros _ w3 _.
  apply bind_ext. intros _ w4 _.
  apply bind_ext. intros _ w5 _.
  apply bind_ext. intros _ w6 _.
  apply bind_ext. intros _ w7 _.
  rewrite bind_assoc. apply bind_ext. intros d7 w7' Ed.
  apply deref_ok_inv in Ed as [-> Hd7].
  apply bind_ext. intros [] w8 E8.
  rewrite bind_ret_then. apply bind_ext. intros r w9 E9.
  assert (exists d9, devices (mgr w9) !! i = Some d9 /\
                     ramp_active d9 = ramp_active d7 /\
                     ramp_time_s d9 = ramp_time_s d7) as (d9 & Hd9 & Hra & Hrt).
  { pose proof (ask_keeps_mgr (write_totalizer_control mfc 1) w8) as Hm.
    unfold with_serial_lock in E9. rewrite E9 in Hm. simpl in Hm. rewrite Hm.
    revert E8. destruct (available_gases d7) as [|first rest].
    - unfold ret. intros E8. injection E8 as <-. exists d7. auto.
    - destruct (gas_map d7 !! first) as [g|]; [|discriminate].
      unfold with_serial_lock, bind.
      pose proof (ask_keeps_mgr (Select_gaz mfc g) w7) as Hm7.
      destruct (ask (Select_gaz mfc g) w7) as [[r7|e7] w7a]; [|discriminate].
      simpl in Hm7. unfold upd_dev, modify. intros E8. injection E8 as <-.
      simpl. rewrite Hm7, list_lookup_alter_eq, Hd7. simpl.
      eexists. split; [reflexivity|]. split; reflexivity. }
  rewrite bind_assoc. unfold bind at 3. rewrite (run_deref w9 i d9 Hd9).
  rewrite Hra, Hrt.
  apply bind_ext. intros _ w10 _.
  apply bind_ext. intros _ w11 _.
  symmetry. apply bind_unit_ret.
Qed.

(** C3. On a manager whose lists are complete and where no channel is
    active or bound outside a session, take an in-range channel and an
    open port. Whichever statement of the [try] block raises, in the state
    the statements before it have left, [activate] raises that exception;
    in particular it raises when the address probe does. Whenever
    [activate] raises, the channel is inactive and without binding
    afterwards. The discovery loop catches the failures of its probes, so
    that this statement of the block never raises. *)
Theorem activate_failure_rolls_back (w : World) (idx : Z) :
  wf w -> session_inv w -> in_range w idx ->
  (forall d s pre step post wk e,
     chan w idx = Some d -> serial_port (mgr w) = Some s -> is_open s = true ->
     try_steps idx s (tag d) = pre ++ step :: post ->
     run_steps pre w = (Ok tt, wk) -> fst (step wk) = Raise e ->
     fst (activate idx w) = Raise e) /\
  (forall d s,
     chan w idx = Some d -> serial_port (mgr w) = Some s -> is_open s = true ->
     raises (bus w (trace w) (device_mfc s)) = false ->
     raises (bus w (trace w ++ [device_mfc s])
               (get_address (mkMfc s (pack_tag_name (tag d))))) = true ->
     fst (activate idx w) = Raise DriverError) /\
  (forall e, fst (activate idx w) = Raise e ->
     (exists d', chan (snd (activate idx w)) idx = Some d' /\ active d' = false) /\
     binding (snd (activate idx w)) idx = None).
Proof.
  intros Hwf Hs Hr. split; [|split].
  { intros d s pre step post wk e Hd Hp Ho Hsteps Hpre Hstep.
    unfold activate, bind. rewrite (run_get w idx d Hr Hd). unfold gets. simpl.
    rewrite Hp, Ho. unfold try_except.
    pose proof (sized_activation _ idx d s w (proj1 (wf_sized w) Hwf)) as Hsz.
    rewrite activation_steps in *. rewrite Hsteps in *.
    destruct (step wk) as [r w'] eqn:Es. simpl in Hstep. subst r.
    rewrite (run_steps_raise pre post step w wk w' e Hpre Es) in *.
    simpl in Hsz. apply run_rollback.
    - eapply sized_wf, Hsz.
    - eapply sized_in_range; [exact Hsz | exact Hr]. }
  { intros d s. apply activate_probe_failure; assumption. }
  intros e. destruct (wf_lookup_dev w idx Hwf Hr) as [d Hd].
  unfold activate, bind. rewrite (run_get w idx d Hr Hd). unfold gets. simpl.
  assert (Hoff : connected (mgr w) = false ->
                 (exists d', chan w idx = Some d' /\ active d' = false) /\
                 binding w idx = None).
  { intros Hc. destruct (Hs Hc) as [Ha Hb]. split.
    - exists d. split; [exact Hd|]. exact (Forall_lookup_1 _ _ _ _ Ha Hd).
    - destruct (wf_lookup_mfc w idx Hwf Hr) as [o Ho].
      unfold binding. rewrite Ho. rewrite (Forall_lookup_1 _ _ _ _ Hb Ho). reflexivity. }
  unfold connected in Hoff.
  destruct (serial_port (mgr w)) as [s|]; [|intros _; apply Hoff; reflexivity].
  destruct (is_open s); [|intros _; apply Hoff; reflexivity].
  unfold try_except.
  pose proof (sized_activation _ idx d s w (proj1 (wf_sized w) Hwf)) as Hsz.
  destruct (activation idx d s w) as [[[]|e1] w1]; simpl in *; [discriminate|].
  intros _.
  destruct (run_rollback w1 idx e1) as (_ & H1 & H2).
  - eapply sized_wf, Hsz.
  - eapply sized_in_range; [exact Hsz | exact Hr].
  - split; assumption.
Qed.

(** On the bench whose totalizer refuses its start command: the first
    eight statements of the block pass, the ninth raises, and [activate]
    raises and leaves channel 0 inactive and unbound. *)
Lemma activate_failure_rolls_back_witness :
  fst (activate 0 (w_connected jammed_bus)) = Raise DriverError /\
  (exists d', chan (snd (activate 0 (w_connected jammed_bus))) 0 = Some d' /\
              active d' = false) /\
  binding (snd (activate 0 (w_connected jammed_bus))) 0 = None.
Proof.
  assert (Hwf : wf (w_connected jammed_bus)) by (split; vm_compute; reflexivity).
  assert (Hs : session_inv (w_connected jammed_bus))
    by (intros Hc; vm_compute in Hc; discriminate Hc).
  assert (Hr : in_range (w_connected jammed_bus) 0)
    by (vm_compute; split; [discriminate | reflexivity]).
  destruct (activate_failure_rolls_back _ _ Hwf Hs Hr) as (Hstep & _ & Hroll).
  assert (Hd : chan (w_connected jammed_bus) 0 = Some (new_DeviceState 0 "MFC00001"))
    by (vm_compute; reflexivity).
  assert (Hp : serial_port (mgr (w_connected jammed_bus)) = Some (mkSerial "COM3" true))
    by (vm_compute; reflexivity).
  assert (Hpre : run_steps (take 8 (try_steps 0 (mkSerial "COM3" true) "MFC00001"))
                   (w_connected jammed_bus)
                 = (Ok tt,
                    snd (run_steps (take 8 (try_steps 0 (mkSerial "COM3" true) "MFC00001"))
                           (w_connected jammed_bus))))
    by (vm_compute; reflexivity).
  assert (He : fst ((with_serial_lock
                       (ask (write_totalizer_control
                               (mkMfc (mkSerial "COM3" true) (pack_tag_name "MFC00001")) 1))
                     >> ret tt)
                      (snd (run_steps
                              (take 8 (try_steps 0 (mkSerial "COM3" true) "MFC00001"))
                              (w_connected jammed_bus))))
                = Raise DriverError) by (vm_compute; reflexivity).
  assert (Hact : fst (activate 0 (w_connected jammed_bus)) = Raise DriverError).
  { exact (Hstep (new_DeviceState 0 "MFC00001") (mkSerial "COM3" true)
             (take 8 (try_steps 0 (mkSerial "COM3" true) "MFC00001"))
             _ (drop 9 (try_steps 0 (mkSerial "COM3" true) "MFC00001"))
             _ DriverError Hd Hp eq_refl eq_refl Hpre He). }
  split; [exact Hact|]. exact (Hroll _ Hact).
Defined.

End ActivationSteps.

(** ** What a method leaves alone *)

Section Frame.

Context {A : Type} (proj : DeviceState -> A) (i : nat) (a : A).

Lemma has_alter (f : DeviceState -> DeviceState) (k : nat) (m : MassiqueManager) :
  keeps proj f -> has i proj a m ->
  has i proj a (set_devices (alter f k (devices m)) m).
Proof.
  intros Hf H. unfold has in *. simpl.
  destruct (decide (k = i)) as [->|Hne].
  - rewrite list_lookup_alter_eq.
    destruct (devices m !! i) as [d|]; simpl in *; [|discriminate].
    rewrite Hf. exact H.
  - rewrite list_lookup_alter_ne by exact Hne. exact H.
Qed.

Lemma has_alter_other (f : DeviceState -> DeviceState) (k : nat) (m : MassiqueManager) :
  k <> i -> has i proj a m ->
  has i proj a (set_devices (alter f k (devices m)) m).
Proof.
  intros Hne H. unfold has in *. simpl.
  rewrite list_lookup_alter_ne by exact Hne. exact H.
Qed.

Hypothesis Hconsigne : forall c, keeps proj (set_consigne c).
Hypothesis Hpoints : forall p, keeps proj (set_consigne_points p).

Lemma frame_send_consigne idx v : preserves (has i proj a) (send_consigne idx v).
Proof.
  unfold send_consigne. repeat pres_step; intros m H; apply has_alter;
    first [assumption | apply Hconsigne | intros d; apply Hpoints].
Qed.

End Frame.

Section FrameOthers.

Context {A : Type} (proj : DeviceState -> A) (i : nat) (a : A).

Lemma frame_set_vanne idx action :
  (forall v, keeps proj (set_valve_command v)) ->
  preserves (has i proj a) (set_vanne idx action).
Proof.
  intros Hv. unfold set_vanne. repeat pres_step; intros m H; apply has_alter;
    first [assumption | apply Hv].
Qed.

Lemma frame_apply_ramp_settings idx on t :
  (forall b, keeps proj (set_ramp_active b)) ->
  (forall x, keeps proj (set_ramp_time_s x)) ->
  preserves (has i proj a) (apply_ramp_settings idx on t).
Proof.
  intros H1 H2. unfold apply_ramp_settings. repeat pres_step; intros m H;
    apply has_alter; first [assumption | apply H1 | apply H2].
Qed.

Lemma frame_probe_gas idx mfc g :
  (forall l, keeps proj (set_available_gases l)) ->
  (forall gm, keeps proj (set_gas_map gm)) ->
  preserves (has i proj a) (probe_gas idx mfc g).
Proof.
  intros H1 H2. unfold probe_gas. repeat pres_step; intros m H;
    apply has_alter; [|assumption].
  intros d. rewrite H2. apply H1.
Qed.

End FrameOthers.

Section HasElim.

Lemma has_elim {A} (proj : DeviceState -> A) (i : nat) (a : A) (m : MassiqueManager) :
  has i proj a m -> exists d, devices m !! i = Some d /\ proj d = a.
Proof.
  unfold has. destruct (devices m !! i) as [d|]; simpl; intros H; [|discriminate].
  exists d. split; [reflexivity | congruence].
Qed.

End HasElim.

Section BoundFrame.

Context (i : nat) (o : option Mfc).

Lemma bound_devices (ds : list DeviceState) (m : MassiqueManager) :
  bound i o m -> bound i o (set_devices ds m).
Proof. intros H. exact H. Qed.

Lemma bound_send_consigne idx v : preserves (bound i o) (send_consigne idx v).
Proof. unfold send_consigne. repeat pres_step; intros m H; exact H. Qed.

Lemma bound_set_vanne idx action : preserves (bound i o) (set_vanne idx action).
Proof. unfold set_vanne. repeat pres_step; intros m H; exact H. Qed.

Lemma bound_apply_ramp_settings idx on t :
  preserves (bound i o) (apply_ramp_settings idx on t).
Proof. unfold apply_ramp_settings. repeat pres_step; intros m H; exact H. Qed.

Lemma bound_probe_gas idx mfc g : preserves (bound i o) (probe_gas idx mfc g).
Proof. unfold probe_gas. repeat pres_step; intros m H; exact H. Qed.

End BoundFrame.

(** ** One poll exchange that succeeds *)

Section PollExchange.

(** [send_consigne] on an active and bound channel, for a float. *)
Lemma run_send_consigne (w : World) (idx : Z) (d : DeviceState) (m : Mfc)
    (v : pyval) (c : float) :
  in_range w idx -> chan w idx = Some d -> active d = true ->
  binding w idx = Some m -> py_float v = Ok c ->
  let c' := clamp (full_scale_value d) c in
  let w1 := set_mgr (set_devices (alter (set_consigne c') (Z.to_nat idx)
                                    (devices (mgr w))) (mgr w)) w in
  let call := write_setpoint m (percent c' (full_scale_value d)) 57 in
  let w2 := set_trace (trace w ++ [call]) w1 in
  send_consigne idx v w
  = if negb (float_truthy (full_scale_value d)) then (Ok tt, w1)
    else if raises (bus w (trace w) call) then (Raise DriverError, w2)
    else (Ok tt,
          set_mgr (set_devices
                     (alter (fun x => set_consigne_points
                               (slice_last 3600
                                  (consigne_points x ++ [(consigne x, clock w (ticks w))]))
                               x)
                            (Z.to_nat idx) (devices (mgr w2))) (mgr w2))
            (set_ticks (S (ticks w)) w2)).
Proof.
  intros Hr Hd Ha Hm Hv. simpl. unfold send_consigne, bind.
  rewrite (run_get w idx d Hr Hd), (run_need_mfc w idx d m Hr Hd Ha Hm), Hv. simpl.
  unfold upd_dev at 1. unfold modify.
  destruct (float_truthy (full_scale_value d)); simpl; [|reflexivity].
  unfold with_serial_lock, ask. simpl.
  destruct (raises _); reflexivity.
Qed.

(** The state a poll exchange leaves when its five reads all answer. *)
Lemma poll_one_state (w : World) (idx : Z) (d : DeviceState) (m : Mfc) (g : Z)
    (r1 r2 r3 r4 r5 : reply) (F : float) :
  in_range w idx -> chan w idx = Some d -> active d = true ->
  binding w idx = Some m -> poll_gas d = Some g ->
  answers (bus w) (trace w) (poll_reads m g) = [r1; r2; r3; r4; r5] ->
  Forall (fun r => raises r = false) [r1; r2; r3; r4; r5] ->
  py_float (val_or (fst (sample_or_unknown (r_sample r3))) (VInt 0)) = Ok F ->
  fst (_poll_one idx w) = Ok tt /\
  exists d' rest,
    chan (snd (_poll_one idx w)) idx = Some d' /\
    trace (snd (_poll_one idx w)) = trace w ++ poll_reads m g ++ rest /\
    (rest = [] \/ exists p, rest = [write_setpoint m p 57]) /\
    telemetry d'
    = (sample_or_unknown (r_sample r1), sample_or_unknown (r_sample r2),
       sample_or_unknown (r_sample r3), F, sample_or_unknown (r_sample r4),
       label_or_na (r_label r5), Some g) /\
    measurements d'
    = slice_last 3600
        (measurements d
         ++ [(match py_float (fst (sample_or_unknown (r_sample r1))) with
              | Ok x => x
              | Raise _ => f0
              end, clock w (ticks w))]) /\
    (consigne_points d'
     = slice_last 3600 (consigne_points d ++ [(consigne d, clock w (ticks w))]) \/
     consigne_points d'
     = slice_last 3600
         (slice_last 3600 (consigne_points d ++ [(consigne d, clock w (ticks w))])
          ++ [(consigne d', clock w (S (ticks w)))])).
Proof.
  intros Hr Hd Ha Hm Hg Hans Hok HF.
  simpl in Hans. injection Hans as <- <- <- <- <-.
  inversion Hok as [|? ? H1 Hok1]; subst; clear Hok.
  inversion Hok1 as [|? ? H2 Hok2]; subst; clear Hok1.
  inversion Hok2 as [|? ? H3 Hok3]; subst; clear Hok2.
  inversion Hok3 as [|? ? H4 Hok4]; subst; clear Hok3.
  inversion Hok4 as [|? ? H5 _]; subst; clear Hok4.
  destruct (_poll_one idx w) as [res w'] eqn:E. cbn [fst snd].
  revert E. unfold _poll_one, bind.
  rewrite (run_get w idx d Hr Hd), (run_need_mfc w idx d m Hr Hd Ha Hm).
  match goal with
  | |- context [let (r, w0) := ?pre w in _] => set (sel := pre w)
  end.
  assert (exists d1, sel = (Ok tt, set_mgr (set_devices
                                    (<[Z.to_nat idx := d1]> (devices (mgr w)))
                                    (mgr w)) w) /\
                     selected_gas d1 = Some g /\
                     measurements d1 = measurements d /\ active d1 = true /\
                     consigne_points d1 = consigne_points d /\
                     consigne d1 = consigne d)
    as (d1 & Hsel & Hg1 & Hmeas & Ha1 & Hcp1 & Hc1).
  { unfold sel, poll_gas in *. destruct (selected_gas d) as [g0|] eqn:Hs.
    - injection Hg as ->. exists d. unfold ret.
      rewrite list_insert_id by exact Hd. rewrite set_devices_same, set_mgr_same.
      split; [reflexivity|]. split; [exact Hs|]. split; [reflexivity|].
      split; [exact Ha|]. split; reflexivity.
    - destruct (available_gases d) as [|first rest0]; [discriminate|].
      rewrite Hg. exists (set_selected_gas (Some g) d). unfold upd_dev, modify.
      split; [|split; [reflexivity | split; [reflexivity | split; [exact Ha|]]]];
        [|split; reflexivity].
      do 3 f_equal. apply list_eq. intros j.
      destruct (decide (j = Z.to_nat idx)) as [->|Hne].
      + unfold chan in Hd.
        rewrite list_lookup_alter_eq, list_lookup_insert_eq, Hd; [reflexivity|].
        apply lookup_lt_is_Some_1. rewrite Hd. eauto.
      + rewrite list_lookup_alter_ne, list_lookup_insert_ne by congruence.
        reflexivity. }
  rewrite Hsel. clear Hsel sel.
  match goal with |- context [deref _ ?W] => set (w1 := W) end.
  assert (Hd1 : devices (mgr w1) !! Z.to_nat idx = Some d1).
  { unfold w1. simpl. apply list_lookup_insert_eq.
    apply lookup_lt_is_Some_1. unfold chan in Hd. rewrite Hd. eauto. }
  rewrite (run_deref w1 _ d1 Hd1), Hg1.
  unfold with_serial_lock, bind, ask.
  change (bus w1) with (bus w). change (trace w1) with (trace w).
  rewrite H1. simpl. rewrite H2. simpl. rewrite H3. simpl. rewrite H4. simpl.
  rewrite H5. simpl. unfold lift. rewrite HF. simpl.
  unfold deref, bind, gets. simpl.
  rewrite !list_lookup_alter_eq, list_lookup_insert_eq
    by (apply lookup_lt_is_Some_1; unfold chan in Hd; rewrite Hd; eauto).
  simpl.
  match goal with |- (if ?c then _ else _) ?W = _ -> _ => set (w8 := W); set (again := c) end.
  assert (Hr8 : in_range w8 idx) by exact Hr.
  assert (Hm8 : binding w8 idx = Some m) by exact Hm.
  assert (Ht8 : trace w8 = trace w ++ poll_reads m g).
  { unfold w8. simpl. rewrite <- !app_assoc. reflexivity. }
  assert (Hc8 : clock w8 = clock w) by reflexivity.
  assert (Hk8 : ticks w8 = S (ticks w)) by reflexivity.
  assert (exists d8, chan w8 idx = Some d8 /\ active d8 = true /\
            consigne_points d8
            = slice_last 3600 (consigne_points d ++ [(consigne d, clock w (ticks w))]) /\
            (telemetry d8, measurements d8)
            = ((sample_or_unknown (r_sample (bus w (trace w) (read_flow_rate m g))),
                sample_or_unknown
                  (r_sample (bus w (trace w ++ [read_flow_rate m g]) (read_dynamic m))),
                sample_or_unknown
                  (r_sample (bus w ((trace w ++ [read_flow_rate m g]) ++ [read_dynamic m])
                               (read_full_scale_flow_rate m g))),
                F,
                sample_or_unknown
                  (r_sample (bus w (((trace w ++ [read_flow_rate m g]) ++ [read_dynamic m])
                                    ++ [read_full_scale_flow_rate m g])
                               (read_totalizer_value m))),
                label_or_na
                  (r_label (bus w ((((trace w ++ [read_flow_rate m g]) ++ [read_dynamic m])
                                    ++ [read_full_scale_flow_rate m g])
                                   ++ [read_totalizer_value m])
                              (red_vanne m))),
                Some g),
               slice_last 3600
                 (measurements d
                  ++ [(match py_float
                               (fst (sample_or_unknown
                                       (r_sample (bus w (trace w) (read_flow_rate m g)))))
                       with Ok x => x | Raise _ => f0 end, clock w (ticks w))])))
    as (d8 & Hd8 & Ha8 & Hcp8 & Htel).
  { unfold chan, w8. simpl.
    rewrite !list_lookup_alter_eq, list_lookup_insert_eq
      by (apply lookup_lt_is_Some_1; unfold chan in Hd; rewrite Hd; eauto).
    simpl. eexists. split; [reflexivity|]. split; [exact Ha1|].
    split; [simpl; rewrite Hcp1, Hc1; reflexivity|].
    unfold telemetry. simpl. rewrite Hg1, Hmeas. reflexivity. }
  clearbody w8.
  destruct again.
  - rewrite try_except_swallow.
    pose proof (f_equal fst Htel) as Htel'. pose proof (f_equal snd Htel) as Hmeas'.
    cbn [fst snd] in Htel', Hmeas'.
    pose proof (run_send_consigne w8 idx d8 m (VFloat (consigne d1)) (consigne d1)
                  Hr8 Hd8 Ha8 Hm8 eq_refl) as Hrun.
    cbv zeta in Hrun. rewrite Hrun. clear Hrun. unfold chan in Hd8.
    destruct (negb (float_truthy (full_scale_value d8)));
      [|destruct (raises (bus w8 (trace w8) _))];
      intros E; injection E as <- <-; (split; [reflexivity|]);
      unfold chan; simpl; rewrite ?list_lookup_alter_eq, Hd8; simpl;
      eexists; eexists; (split; [reflexivity|]); simpl.
    + split; [rewrite Ht8; unfold poll_reads; simpl; reflexivity|].
      split; [left; reflexivity|].
      split; [exact Htel'|]. split; [exact Hmeas'|]. left. exact Hcp8.
    + split; [rewrite Ht8, <- app_assoc; unfold poll_reads; simpl; reflexivity|].
      split; [right; eexists; reflexivity|].
      split; [exact Htel'|]. split; [exact Hmeas'|]. left. exact Hcp8.
    + split; [rewrite Ht8, <- app_assoc; unfold poll_reads; simpl; reflexivity|].
      split; [right; eexists; reflexivity|].
      split; [exact Htel'|]. split; [exact Hmeas'|]. right.
      rewrite Hcp8, Hc8, Hk8. reflexivity.
  - unfold ret. intros E. injection E as <- <-.
    split; [reflexivity|].
    pose proof (f_equal fst Htel) as Htel'. pose proof (f_equal snd Htel) as Hmeas'.
    cbn [fst snd] in Htel', Hmeas'.
    exists d8, []. split; [exact Hd8|]. split; [|split; [|split; [|split]]].
    + rewrite Ht8. unfold poll_reads. simpl. reflexivity.
    + left; reflexivity.
    + exact Htel'.
    + exact Hmeas'.
    + left. exact Hcp8.
Qed.

End PollExchange.

(** ** A failing poll exchange *)

Section PollFailure.



(** When the exchange raises, it has not yet stored a full scale: the
    cached value is the one from before the poll. *)
Lemma poll_one_raise_keeps (w : World) (i : nat) (d : DeviceState) (e : exn) :
  wf w -> devices (mgr w) !! i = Some d ->
  fst (_poll_one (Z.of_nat i) w) = Raise e ->
  exists d1, devices (mgr (snd (_poll_one (Z.of_nat i) w))) !! i = Some d1 /\
             full_scale_value d1 = full_scale_value d.
Proof.
  intros Hwf Hd.
  assert (Hr : in_range w (Z.of_nat i)).
  { destruct Hwf as [Hl _]. pose proof (lookup_lt_Some _ _ _ Hd). unfold in_range. lia. }
  assert (Hdc : chan w (Z.of_nat i) = Some d) by (unfold chan; rewrite Nat2Z.id; exact Hd).
  destruct (_poll_one (Z.of_nat i) w) as [res w'] eqn:E. cbn [fst snd].
  intros ->. revert E. unfold _poll_one, bind.
  rewrite (run_get w _ d Hr Hdc).
  pose proof (need_mfc_keeps_state (Z.of_nat i) w) as Hn.
  destruct (_need_mfc (Z.of_nat i) w) as [[m|e1] w0]; simpl in Hn; subst w0.
  2:{ intros E. injection E as _ <-. exists d. auto. }
  rewrite Nat2Z.id.
  match goal with
  | |- context [let (r, w0) := ?pre w in _] => set (sel := pre w)
  end.
  assert (exists d1, sel = (Ok tt, set_mgr (set_devices
                                    (<[i := d1]> (devices (mgr w)))
                                    (mgr w)) w) /\
                     full_scale_value d1 = full_scale_value d)
    as (d1 & Hsel & Hf1).
  { unfold sel. destruct (selected_gas d) as [g0|].
    - exists d. unfold ret.
      rewrite list_insert_id by exact Hd. rewrite set_devices_same, set_mgr_same.
      split; reflexivity.
    - destruct (available_gases d) as [|first rest0].
      + exists d. unfold ret.
        rewrite list_insert_id by exact Hd. rewrite set_devices_same, set_mgr_same.
        split; reflexivity.
      + exists (set_selected_gas (gas_map d !! first) d). unfold upd_dev, modify.
        split; [|reflexivity].
        do 3 f_equal. apply list_eq. intros j.
        destruct (decide (j = i)) as [->|Hne].
        * rewrite list_lookup_alter_eq, list_lookup_insert_eq, Hd; [reflexivity|].
          apply lookup_lt_is_Some_1. rewrite Hd. eauto.
        * rewrite list_lookup_alter_ne, list_lookup_insert_ne by congruence.
          reflexivity. }
  rewrite Hsel. clear Hsel sel.
  match goal with |- context [deref _ ?W] => set (w1 := W) end.
  assert (Hlt : (i < length (devices (mgr w)))%nat)
    by (apply lookup_lt_is_Some_1; rewrite Hd; eauto).
  assert (Hd1 : devices (mgr w1) !! i = Some d1).
  { unfold w1. simpl. apply list_lookup_insert_eq, Hlt. }
  rewrite (run_deref w1 _ d1 Hd1).
  destruct (selected_gas d1) as [g|]; [|discriminate].
  unfold with_serial_lock, bind, ask.
  change (bus w1) with (bus w). change (trace w1) with (trace w).
  repeat match goal with
         | |- context [raises ?r] =>
             lazymatch r with
             | context [raises _] => fail
             | _ => destruct (raises r) eqn:?; simpl
             end
         end;
    try (intros E; injection E as _ <-; simpl;
         rewrite ?list_lookup_alter_eq, ?list_lookup_insert_eq by exact Hlt;
         simpl; eexists; split; [reflexivity | simpl; exact Hf1]).
  unfold lift.
  destruct (py_float _) as [F|e2]; simpl.
  2:{ intros E; injection E as _ <-; simpl.
      rewrite !list_lookup_alter_eq, list_lookup_insert_eq by exact Hlt.
      simpl; eexists; split; [reflexivity | simpl; exact Hf1]. }
  unfold deref, bind, gets. simpl.
  rewrite !list_lookup_alter_eq, list_lookup_insert_eq by exact Hlt. simpl.
  match goal with |- (if ?c then _ else _) ?W = _ -> _ => destruct c end.
  - rewrite try_except_swallow. discriminate.
  - discriminate.
Qed.

Lemma ok_pair (x : Res unit * World) : fst x = Ok tt -> x = (Ok tt, snd x).
Proof. destruct x as [r w]. simpl. intros ->. reflexivity. Qed.

Lemma sized_poll_steps n (l : list nat) : preserves (sized n) (for_each l poll_step).
Proof. apply preserves_for. intros i. apply sized_poll_step. Qed.

(** The cycle as the steps before channel [i], the step of channel [i]
    and the steps after it. *)
Lemma poll_cycle_around (w0 : World) (i : nat) :
  wf w0 -> (i < max_devices (mgr w0))%nat ->
  poll_cycle w0
  = (Ok tt,
     snd (for_each (seq (S i) (max_devices (mgr w0) - S i)) poll_step
            (snd (poll_step i (snd (for_each (seq 0 i) poll_step w0)))))).
Proof.
  intros Hwf Hi. set (n := max_devices (mgr w0)) in *.
  assert (Hs0 : sized n (mgr w0)) by (apply wf_sized, Hwf).
  unfold poll_cycle, bind, gets. simpl. fold n.
  assert (Hseq : seq 0 n = seq 0 i ++ [i] ++ seq (S i) (n - S i)).
  { replace n with (i + (1 + (n - S i)))%nat at 1 by lia.
    rewrite seq_app, seq_app. simpl. replace (i + 1)%nat with (S i) by lia.
    reflexivity. }
  rewrite Hseq, for_each_app. unfold bind at 1.
  pose proof (poll_steps_return n i 0 w0 Hs0 ltac:(lia)) as H1.
  pose proof (sized_poll_steps n (seq 0 i) w0 Hs0) as Hs1.
  destruct (for_each (seq 0 i) poll_step w0) as [r1 w1]. simpl in H1, Hs1. subst r1.
  cbn [snd]. rewrite for_each_app. unfold bind at 1. simpl for_each at 1.
  rewrite bind_unit_ret.
  assert (Hlt : (i < length (devices (mgr w1)))%nat) by (destruct Hs1 as (_ & -> & _); lia).
  pose proof (poll_step_returns w1 i Hlt) as H2.
  pose proof (sized_poll_step n i w1 Hs1) as Hs2.
  destruct (poll_step i w1) as [r2 w2]. simpl in H2, Hs2. subst r2. cbn [snd].
  apply ok_pair. apply (poll_steps_return n); [exact Hs2 | lia].
Qed.

(** C5, as the code has it. When the exchange of [_poll_one] raises on
    an active channel, the step of the poll loop for that channel returns
    normally; it leaves the fields that [_reset_data] assigns ([mesure],
    [temperature], [full_scale], [totalization_value], [valve_command])
    and both histories at the unknown sentinel, the channel active, and
    the cached [full_scale_value] at the value it had before the poll;
    the record and the binding of every other channel are as they were.
    The cycle in which this happens goes on with the channels after it,
    from the state the failing step has left, and returns normally; the
    loop around that cycle goes on with the next one. A cycle and a loop
    started in the state of the failure return normally too. *)
Theorem poll_failure_resets_channel (w : World) (i : nat) (d : DeviceState)
    (e : exn) :
  wf w -> devices (mgr w) !! i = Some d -> active d = true ->
  fst (_poll_one (Z.of_nat i) w) = Raise e ->
  fst (poll_step i w) = Ok tt /\
  (exists d', devices (mgr (snd (poll_step i w))) !! i = Some d' /\
              telemetry_unknown d' /\ active d' = true /\
              full_scale_value d' = full_scale_value d) /\
  (forall j, j <> i ->
     devices (mgr (snd (poll_step i w))) !! j = devices (mgr w) !! j /\
     mfc_objs (mgr (snd (poll_step i w))) !! j = mfc_objs (mgr w) !! j) /\
  (forall w0, wf w0 -> snd (for_each (seq 0 i) poll_step w0) = w ->
     poll_cycle w0
     = (Ok tt,
        snd (for_each (seq (S i) (max_devices (mgr w0) - S i)) poll_step
               (snd (poll_step i w)))) /\
     (poll_stop (mgr w0) = false ->
      forall n, _poll_loop (S n) w0 = _poll_loop n (snd (poll_cycle w0)))) /\
  fst (poll_cycle w) = Ok tt /\
  (forall n, fst (_poll_loop n w) = Ok tt) /\
  (poll_stop (mgr w) = false ->
   forall n, _poll_loop (S n) w = _poll_loop n (snd (poll_cycle w))).
Proof.
  intros Hwf Hd Ha Hraise.
  split; [apply poll_step_returns, (lookup_lt_Some _ _ _ Hd)|].
  assert (Hact : active_at i (mgr (snd (_poll_one (Z.of_nat i) w)))).
  { apply (keep_poll_one (active_at i) (fun _ => True)).
    - intros. apply active_at_closed; assumption.
    - exact I.
    - exists d. split; assumption. }
  assert (Hoth : forall j, j <> i ->
            chan_is j (devices (mgr w) !! j) (mfc_objs (mgr w) !! j)
              (mgr (snd (_poll_one (Z.of_nat i) w)))).
  { intros j Hne. apply (keep_poll_one (chan_is j _ _) (fun k => k <> j)).
    - intros. apply chan_is_closed; assumption.
    - rewrite Nat2Z.id. congruence.
    - split; reflexivity. }
  destruct (poll_one_raise_keeps w i d e Hwf Hd Hraise) as (d1' & Hd1' & Hfsv).
  assert (Hstep : snd (poll_step i w)
                  = snd (upd_dev i _reset_data (snd (_poll_one (Z.of_nat i) w)))).
  { unfold poll_step, bind. rewrite (run_deref w i d Hd), Ha. simpl.
    unfold try_except.
    destruct (_poll_one (Z.of_nat i) w) as [[[]|e1] w1]; simpl in *;
      [discriminate | reflexivity]. }
  rewrite Hstep. split; [|split; [|split; [|split; [|split]]]].
  - destruct Hact as (d1 & Hd1 & Ha1). exists (_reset_data d1).
    simpl. rewrite list_lookup_alter_eq, Hd1. simpl.
    split; [reflexivity|]. split; [repeat split|]. split; [exact Ha1|].
    rewrite Hd1 in Hd1'. injection Hd1' as <-. exact Hfsv.
  - intros j Hne. destruct (Hoth j Hne) as [H1 H2]. simpl.
    rewrite list_lookup_alter_ne by congruence. split; assumption.
  - intros w0 Hwf0 Hw0. split.
    + rewrite <- Hstep, <- Hw0. apply poll_cycle_around; [exact Hwf0|].
      assert (Hs : sized (max_devices (mgr w0)) (mgr w)).
      { rewrite <- Hw0. apply sized_poll_steps, wf_sized, Hwf0. }
      destruct Hs as (_ & Hl & _). rewrite <- Hl. exact (lookup_lt_Some _ _ _ Hd).
    + intros Hstop n. simpl. unfold bind at 1. unfold gets. simpl. rewrite Hstop.
      unfold bind. pose proof (poll_cycle_returns w0 Hwf0) as Hok.
      destruct (poll_cycle w0) as [[[]|e1] w1]; simpl in *; [reflexivity|discriminate].
  - apply poll_cycle_returns, Hwf.
  - intros n. apply poll_loop_returns, Hwf.
  - intros Hstop n. simpl. unfold bind at 1. unfold gets. simpl. rewrite Hstop.
    unfold bind. pose proof (poll_cycle_returns w Hwf) as Hok.
    destruct (poll_cycle w) as [[[]|e1] w1]; simpl in *; [reflexivity|discriminate].
Qed.

(** With channels 0 and 1 switched on, on the bench where the device of
    channel 0 does not answer the temperature read: the exchange of
    channel 0 raises, its step returns, and the same cycle polls channel
    1, whose history gets its first measurement while the history of
    channel 0 is empty. *)
Lemma poll_failure_resets_channel_witness :
  fst (poll_step 0 (w_two half_bus)) = Ok tt /\
  poll_cycle (w_two half_bus)
  = (Ok tt, snd (for_each (seq 1 11) poll_step (snd (poll_step 0 (w_two half_bus))))) /\
  (length <$> (measurements <$> chan (snd (poll_cycle (w_two half_bus))) 0)) = Some 0%nat /\
  (length <$> (measurements <$> chan (snd (poll_cycle (w_two half_bus))) 1)) = Some 1%nat.
Proof.
  assert (Hwf : wf (w_two half_bus)) by (split; vm_compute; reflexivity).
  assert (Hd : devices (mgr (w_two half_bus)) !! 0%nat = Some (chan0 (w_two half_bus)))
    by (vm_compute; reflexivity).
  assert (Ha : active (chan0 (w_two half_bus)) = true) by (vm_compute; reflexivity).
  assert (He : fst (_poll_one (Z.of_nat 0) (w_two half_bus)) = Raise DriverError)
    by (vm_compute; reflexivity).
  assert (Hn : max_devices (mgr (w_two half_bus)) = 12%nat) by (vm_compute; reflexivity).
  assert (H0 : snd (for_each (seq 0 0) poll_step (w_two half_bus)) = w_two half_bus)
    by (unfold seq, for_each, ret; reflexivity).
  pose proof (poll_failure_resets_channel _ _ _ _ Hwf Hd Ha He)
    as (H1 & _ & _ & H2 & _).
  specialize (H2 (w_two half_bus) Hwf H0). destruct H2 as [H2 _]. rewrite Hn in H2.
  change (12 - 1)%nat with 11%nat in H2.
  split; [exact H1|]. split; [exact H2|].
  split; vm_compute; reflexivity.
Defined.

(** The full scale that the specification lists among the fields reset
    on a failed poll is still there: on the bench whose temperature read
    fails from the second poll on, after the failing step channel 0 has
    the tuple [full_scale] at the sentinel, but the value
    [full_scale_value], which the clamp of the setpoints reads and the
    snapshot publishes, is still 100.0. *)
Lemma poll_failure_keeps_full_scale_value :
  fst (_poll_one 0 (w_polled fading_bus)) = Raise DriverError /\
  (full_scale <$> chan (snd (poll_step 0 (w_polled fading_bus))) 0) = Some unknown /\
  (full_scale_value <$> chan (snd (poll_step 0 (w_polled fading_bus))) 0) = Some f100 /\
  (v_full_scale_value <$>
     s_devices (snapshot (mgr (snd (poll_step 0 (w_polled fading_bus))))) !! 0%nat)
  = Some f100.
Proof. vm_compute. repeat split. Qed.

End PollFailure.

(** ** The histories: bound and eviction *)

Section HistoryEviction.

Lemma slice_last_spec {A} (h : list A) (x : A) :
  (length h <= 3600)%nat ->
  slice_last 3600 (h ++ [x]) = spec_fifo_append 3600 h x.
Proof.
  intros Hle. unfold spec_fifo_append.
  destruct (slice_last_fifo 3600 h x ltac:(lia)) as [H1 H2].
  destruct (length h <? 3600)%nat eqn:E.
  - apply H1, Nat.ltb_lt, E.
  - apply H2. apply Nat.ltb_ge in E. lia.
Qed.

Lemma spec_fifo_append_length {A} (h : list A) (x : A) :
  (length h <= 3600)%nat -> (length (spec_fifo_append 3600 h x) <= 3600)%nat.
Proof.
  intros Hle. rewrite <- slice_last_spec by exact Hle. apply slice_last_length.
Qed.

(** C6. Along every run of the supervisor, from any initial tags, bus and
    clock, both histories of every channel hold at most 3600 entries.
    Every append the code makes to a history that respects the bound is
    the capped append of the specification, which evicts the oldest entry
    of a full history and keeps the order of the others: a poll exchange
    that succeeds appends the measurement to the measurement history and
    the stored setpoint to the setpoint history, and then the setpoint it
    has re-sent, if it has; a setpoint write that succeeds appends the
    setpoint written. *)
Theorem histories_bounded_fifo (tags : list string) (n : nat)
    (bus0 : list call -> call -> reply) (clock0 : nat -> Z)
    (dir_ok writable : bool) (file : option (list string)) (steps : list step) :
  Forall (fun d => (length (measurements d) <= 3600)%nat /\
                   (length (consigne_points d) <= 3600)%nat)
    (devices (mgr (run steps (init_world tags n bus0 clock0 dir_ok writable file)))) /\
  (forall (w : World) (idx : Z) (d : DeviceState) (m : Mfc) (g : Z)
          (r1 r2 r3 r4 r5 : reply) (F : float),
     in_range w idx -> chan w idx = Some d -> active d = true ->
     binding w idx = Some m -> poll_gas d = Some g ->
     answers (bus w) (trace w) (poll_reads m g) = [r1; r2; r3; r4; r5] ->
     Forall (fun r => raises r = false) [r1; r2; r3; r4; r5] ->
     py_float (val_or (fst (sample_or_unknown (r_sample r3))) (VInt 0)) = Ok F ->
     (length (measurements d) <= 3600)%nat ->
     (length (consigne_points d) <= 3600)%nat ->
     exists d', chan (snd (_poll_one idx w)) idx = Some d' /\
       measurements d'
       = spec_fifo_append 3600 (measurements d)
           (match py_float (fst (sample_or_unknown (r_sample r1))) with
            | Ok x => x
            | Raise _ => f0
            end, clock w (ticks w)) /\
       (consigne_points d'
        = spec_fifo_append 3600 (consigne_points d) (consigne d, clock w (ticks w)) \/
        consigne_points d'
        = spec_fifo_append 3600
            (spec_fifo_append 3600 (consigne_points d)
               (consigne d, clock w (ticks w)))
            (consigne d', clock w (S (ticks w))))) /\
  (forall (w : World) (idx : Z) (d : DeviceState) (m : Mfc) (v : pyval) (c : float),
     in_range w idx -> chan w idx = Some d -> active d = true ->
     binding w idx = Some m -> py_float v = Ok c ->
     float_truthy (full_scale_value d) = true ->
     fst (send_consigne idx v w) = Ok tt ->
     (length (consigne_points d) <= 3600)%nat ->
     exists d', chan (snd (send_consigne idx v w)) idx = Some d' /\
       consigne_points d'
       = spec_fifo_append 3600 (consigne_points d)
           (consigne d', clock w (ticks w))).
Proof.
  split; [|split].
  - apply (keep_run hist_mgr steps); [apply hist_exec | apply hist_init].
  - intros w idx d m g r1 r2 r3 r4 r5 F Hr Hd Ha Hm Hg Hans Hok HF Hl1 Hl2.
    destruct (poll_one_state w idx d m g r1 r2 r3 r4 r5 F Hr Hd Ha Hm Hg Hans Hok HF)
      as (_ & d' & rest & Hd' & _ & _ & _ & Hmeas & Hcp).
    exists d'. split; [exact Hd'|]. split.
    + rewrite Hmeas. apply slice_last_spec, Hl1.
    + rewrite !slice_last_spec in Hcp
        by (first [exact Hl2 | apply spec_fifo_append_length, Hl2]).
      exact Hcp.
  - intros w idx d m v c Hr Hd Ha Hm Hv HF Hok Hl.
    revert Hok. rewrite (run_send_consigne w idx d m v c Hr Hd Ha Hm Hv). cbv zeta.
    rewrite HF. simpl negb. cbv iota.
    destruct (raises _); simpl; [discriminate|]. intros _.
    unfold chan in *. simpl. rewrite !list_lookup_alter_eq, Hd. simpl.
    eexists. split; [reflexivity|]. simpl. apply slice_last_spec, Hl.
Qed.

(** On the bench, with both histories of channel 0 full: a poll evicts
    the oldest measurement and appends the new one, read at time 1. *)
Lemma histories_bounded_fifo_witness :
  length full_history = 3600%nat /\
  exists d', chan (snd (_poll_one 0 (w_full bench_bus))) 0 = Some d' /\
             measurements d' = drop 1 full_history ++ [(f0, 1)].
Proof.
  split; [vm_compute; reflexivity|].
  assert (Hr : in_range (w_full bench_bus) 0)
    by (vm_compute; split; [discriminate | reflexivity]).
  assert (Hd : chan (w_full bench_bus) 0 = Some (chan0 (w_full bench_bus)))
    by (vm_compute; reflexivity).
  assert (Ha : active (chan0 (w_full bench_bus)) = true) by (vm_compute; reflexivity).
  assert (Hm : binding (w_full bench_bus) 0 = Some (binding0 (w_full bench_bus)))
    by (vm_compute; reflexivity).
  assert (Hg : poll_gas (chan0 (w_full bench_bus)) = Some 1) by (vm_compute; reflexivity).
  assert (Hans : answers (bus (w_full bench_bus)) (trace (w_full bench_bus))
                   (poll_reads (binding0 (w_full bench_bus)) 1)
                 = [quiet_reply; quiet_reply;
                    mkReply false "" (Some (VFloat f100, "l/min"%string)) None;
                    quiet_reply;
                    mkReply false "" None (Some "Régulation"%string)])
    by (vm_compute; reflexivity).
  assert (Hok : Forall (fun r => raises r = false)
                  [quiet_reply; quiet_reply;
                   mkReply false "" (Some (VFloat f100, "l/min"%string)) None;
                   quiet_reply;
                   mkReply false "" None (Some "Régulation"%string)])
    by (repeat constructor).
  assert (HF : py_float (val_or (fst (sample_or_unknown
                 (r_sample (mkReply false "" (Some (VFloat f100, "l/min"%string)) None))))
                 (VInt 0)) = Ok f100) by (vm_compute; reflexivity).
  assert (Hl1 : (length (measurements (chan0 (w_full bench_bus))) <= 3600)%nat)
    by (apply Nat.leb_le; vm_compute; reflexivity).
  assert (Hl2 : (length (consigne_points (chan0 (w_full bench_bus))) <= 3600)%nat)
    by (apply Nat.leb_le; vm_compute; reflexivity).
  pose proof (histories_bounded_fifo [] 0 quiet_bus (fun _ => 0) true true None [])
    as (_ & H & _).
  destruct (H (w_full bench_bus) 0 _ _ 1 _ _ _ _ _ f100 Hr Hd Ha Hm Hg Hans Hok HF Hl1 Hl2)
    as (d' & Hd' & Hmeas & _).
  exists d'. split; [exact Hd'|]. rewrite Hmeas. vm_compute. reflexivity.
Defined.

End HistoryEviction.

(** * Further properties of the code *)
(** ** Tags *)

Section Tags.

Lemma str_repeat_length c n : String.length (str_repeat c n) = n.
Proof. induction n as [|n IH]; simpl; [reflexivity | f_equal; exact IH]. Qed.

Lemma str_append_length (s1 s2 : string) :
  String.length (s1 +:+ s2) = (String.length s1 + String.length s2)%nat.
Proof. induction s1 as [|c s1 IH]; simpl; [reflexivity | f_equal; exact IH]. Qed.

Lemma str_take_length n (s : string) :
  String.length (str_take n s) = Nat.min n (String.length s).
Proof.
  unfold str_take. revert s. induction n as [|n IH]; intros [|c s]; simpl; try reflexivity.
  rewrite IH. reflexivity.
Qed.

Lemma str_take_short n (s : string) :
  (String.length s <= n)%nat -> str_take n s = s.
Proof.
  unfold str_take. revert s. induction n as [|n IH]; intros [|c s]; simpl; intros H;
    try reflexivity; try lia.
  rewrite IH by lia. reflexivity.
Qed.

Lemma str_append_empty (s : string) : (s +:+ "")%string = s.
Proof.
  induction s as [|c s IH]; [reflexivity|].
  change (String c (s +:+ "") = String c s). rewrite IH. reflexivity.
Qed.

Lemma pad8_length (t : string) : String.length (pad8 t) = 8%nat.
Proof.
  unfold pad8, ljust. rewrite str_append_length, str_repeat_length, str_take_length. lia.
Qed.

Lemma pad8_fixed (t : string) : String.length t = 8%nat -> pad8 t = t.
Proof.
  intros H. unfold pad8, ljust. rewrite (str_take_short 8 t) by lia.
  rewrite H. simpl. apply str_append_empty.
Qed.

(** The tag kept for a channel is always 8 characters long: a longer
    text is cut after its first 8 characters, a shorter one is filled
    with underscores, and a text of 8 characters is kept as it is, so
    that padding twice is padding once. *)
Theorem pad8_shape (t : string) :
  String.length (pad8 t) = 8%nat /\
  pad8 (pad8 t) = pad8 t /\
  ((8 <= String.length t)%nat -> pad8 t = substring 0 8 t) /\
  ((String.length t <= 8)%nat ->
   pad8 t = (t +:+ str_repeat "_" (8 - String.length t))%string).
Proof.
  split; [apply pad8_length|]. split; [apply pad8_fixed, pad8_length|]. split.
  - intros H. unfold pad8, ljust. rewrite str_take_length.
    replace (8 - Nat.min 8 (String.length t))%nat with 0%nat by lia.
    apply str_append_empty.
  - intros H. unfold pad8, ljust. rewrite (str_take_short 8 t H). reflexivity.
Qed.

End Tags.

Section Packing.

Lemma for_codes_spec (P : Z -> bool) (c : Z) :
  for_codes P = true -> 0 <= c < 64 -> P c = true.
Proof.
  unfold for_codes. rewrite forallb_forall. intros H Hc. apply H.
  apply in_map_iff. exists (Z.to_nat c). split; [lia|].
  apply in_seq. lia.
Qed.

Lemma pack4_checked :
  for_codes (fun a => for_codes (fun b => for_codes (fun c => pack4_ok a b c))) = true.
Proof. vm_compute. reflexivity. Qed.

Lemma pack4_facts (a b c : Z) :
  0 <= a < 64 -> 0 <= b < 64 -> 0 <= c < 64 ->
  (0 <= byte0 a b < 256 /\ 0 <= byte1 a b < 256 /\ 0 <= byte2 a b < 256) /\
  Z.shiftr (byte0 a b) 2 = a /\
  Z.lor (Z.shiftl (Z.land (byte0 a b) 0x03) 4) (Z.shiftr (byte1 b c) 4) = b /\
  Z.lor (Z.shiftl (Z.land (byte1 a b) 0x0F) 2) (Z.shiftr (byte2 b c) 6) = b /\
  Z.land (byte2 a b) 0x3F = b.
Proof.
  intros Ha Hb Hc.
  pose proof (for_codes_spec
                (fun a => for_codes (fun b => for_codes (fun c => pack4_ok a b c)))
                a pack4_checked Ha) as H. cbv beta in H.
  pose proof (for_codes_spec (fun b => for_codes (fun c => pack4_ok a b c))
                b H Hb) as H'. cbv beta in H'.
  pose proof (for_codes_spec (fun c => pack4_ok a b c) c H' Hc) as H''. cbv beta in H''.
  unfold pack4_ok, is_byte in H''.
  repeat match goal with
         | Hx : _ && _ = true |- _ => apply andb_true_iff in Hx; destruct Hx
         | Hx : (_ =? _) = true |- _ => apply Z.eqb_eq in Hx
         | Hx : (_ <=? _) = true |- _ => apply Z.leb_le in Hx
         | Hx : (_ <? _) = true |- _ => apply Z.ltb_lt in Hx
         end.
  repeat split; assumption.
Qed.

Lemma byte0_range (a b : Z) : 0 <= a < 64 -> 0 <= b < 64 -> 0 <= byte0 a b < 256.
Proof. intros Ha Hb. apply (pack4_facts a b b Ha Hb Hb). Qed.

Lemma byte1_range (a b : Z) : 0 <= a < 64 -> 0 <= b < 64 -> 0 <= byte1 a b < 256.
Proof. intros Ha Hb. apply (pack4_facts a b b Ha Hb Hb). Qed.

Lemma byte2_range (a b : Z) : 0 <= a < 64 -> 0 <= b < 64 -> 0 <= byte2 a b < 256.
Proof. intros Ha Hb. apply (pack4_facts a b b Ha Hb Hb). Qed.

Lemma ord6_range (ch : ascii) : 0 <= ord6 ch < 64.
Proof.
  unfold ord6. change 0x3F with (Z.ones 6). rewrite Z.land_ones by lia.
  apply Z.mod_pos_bound. reflexivity.
Qed.

Lemma pack4_bytes (c0 c1 c2 c3 : Z) :
  pack4 c0 c1 c2 c3 = [byte0 c0 c1; byte1 c1 c2; byte2 c2 c3].
Proof. reflexivity. Qed.

Lemma unpack3_pack4 (c0 c1 c2 c3 : Z) :
  0 <= c0 < 64 -> 0 <= c1 < 64 -> 0 <= c2 < 64 -> 0 <= c3 < 64 ->
  unpack3 (byte0 c0 c1) (byte1 c1 c2) (byte2 c2 c3) = [c0; c1; c2; c3].
Proof.
  intros H0 H1 H2 H3. unfold unpack3.
  pose proof (pack4_facts c0 c1 c2 H0 H1 H2) as (_ & E0 & E1 & _ & _).
  pose proof (pack4_facts c1 c2 c3 H1 H2 H3) as (_ & _ & _ & E2 & _).
  pose proof (pack4_facts c2 c3 c3 H2 H3 H3) as (_ & _ & _ & _ & E3).
  rewrite E0, E1, E2, E3. reflexivity.
Qed.

Lemma tag_codes_eight (t : string) :
  exists c0 c1 c2 c3 c4 c5 c6 c7,
    tag_codes t = [c0; c1; c2; c3; c4; c5; c6; c7] /\
    Forall (fun c => 0 <= c < 64) (tag_codes t).
Proof.
  assert (Hr : Forall (fun c => 0 <= c < 64) (tag_codes t)).
  { unfold tag_codes. apply Forall_fmap, Forall_forall. intros ch _. apply ord6_range. }
  assert (Hl : length (tag_codes t) = 8%nat).
  { unfold tag_codes. rewrite length_fmap.
    rewrite <- (pad8_length t). generalize (pad8 t).
    induction s as [|c s IH]; simpl; [reflexivity | f_equal; exact IH]. }
  destruct (tag_codes t) as [|c0 [|c1 [|c2 [|c3 [|c4 [|c5 [|c6 [|c7 [|]]]]]]]]];
    try discriminate Hl.
  repeat eexists. exact Hr.
Qed.

(** [pack_tag_name] always yields the 6 bytes of a packed tag, for any
    text given as tag: each of them is in the range of a byte, so that
    [bytes(packed)] does not raise. *)
Theorem pack_tag_name_bytes (t : string) :
  length (pack_tag_name t) = 6%nat /\
  Forall (fun b => 0 <= b < 256) (pack_tag_name t).
Proof.
  destruct (tag_codes_eight t) as (c0 & c1 & c2 & c3 & c4 & c5 & c6 & c7 & E & Hr).
  unfold pack_tag_name. fold (tag_codes t). rewrite E in *.
  unfold pack_groups. rewrite !pack4_bytes. cbn [app].
  split; [reflexivity|].
  repeat match goal with
         | Hx : Forall _ (_ :: _) |- _ => apply Forall_cons in Hx; destruct Hx
         end.
  repeat (apply Forall_cons; split);
    try (first [apply byte0_range | apply byte1_range | apply byte2_range];
         assumption).
  constructor.
Qed.

Lemma unpack_pack_tag_name (t : string) :
  unpack_groups (pack_tag_name t) = tag_codes t.
Proof.
  destruct (tag_codes_eight t) as (c0 & c1 & c2 & c3 & c4 & c5 & c6 & c7 & E & Hr).
  unfold pack_tag_name. fold (tag_codes t). rewrite E in *.
  repeat match goal with
         | Hx : Forall _ (_ :: _) |- _ => apply Forall_cons in Hx; destruct Hx
         end.
  unfold pack_groups. rewrite !pack4_bytes. cbn [app]. unfold unpack_groups.
  rewrite !unpack3_pack4 by assumption. reflexivity.
Qed.

Lemma pack_same_codes (t1 t2 : string) :
  pack_tag_name t1 = pack_tag_name t2 <-> tag_codes t1 = tag_codes t2.
Proof.
  split; intros H.
  - rewrite <- (unpack_pack_tag_name t1), <- (unpack_pack_tag_name t2), H. reflexivity.
  - unfold pack_tag_name. fold (tag_codes t1) (tag_codes t2). rewrite H. reflexivity.
Qed.

(** Packing loses nothing but the two high bits of each character: two
    texts get the same packed tag exactly when, once cut and padded to 8
    characters, they agree on the low 6 bits of every character. *)
Theorem pack_tag_name_same_iff (t1 t2 : string) :
  pack_tag_name t1 = pack_tag_name t2 <-> tag_codes t1 = tag_codes t2.
Proof. apply pack_same_codes. Qed.

Lemma unord6_ord6 (ch : ascii) : packable ch = true -> unord6 (ord6 ch) = ch.
Proof.
  destruct ch as [[] [] [] [] [] [] [] []]; vm_compute; intros H;
    first [reflexivity | discriminate H].
Qed.

Lemma all_packable_append (s1 s2 : string) :
  all_packable (s1 +:+ s2) = all_packable s1 && all_packable s2.
Proof.
  induction s1 as [|c s1 IH]; [reflexivity|].
  change (packable c && all_packable (s1 +:+ s2)
          = packable c && all_packable s1 && all_packable s2).
  rewrite IH, andb_assoc. reflexivity.
Qed.

Lemma all_packable_take n (s : string) :
  all_packable s = true -> all_packable (str_take n s) = true.
Proof.
  unfold str_take. revert s. induction n as [|n IH]; intros [|c s]; simpl; try reflexivity.
  intros H. apply andb_true_iff in H. destruct H as [H1 H2].
  rewrite H1. simpl. apply IH, H2.
Qed.

Lemma all_packable_pad8 (t : string) :
  all_packable t = true -> all_packable (pad8 t) = true.
Proof.
  intros H. unfold pad8, ljust. rewrite all_packable_append.
  rewrite (all_packable_take 8 t H). simpl.
  generalize (8 - String.length (str_take 8 t))%nat. intros n.
  induction n as [|n IH]; [reflexivity|]. simpl. exact IH.
Qed.

Lemma codes_determine (s1 s2 : string) :
  all_packable s1 = true -> all_packable s2 = true ->
  ord6 <$> list_ascii_of_string s1 = ord6 <$> list_ascii_of_string s2 -> s1 = s2.
Proof.
  revert s2. induction s1 as [|c1 s1 IH]; intros [|c2 s2]; simpl;
    intros H1 H2 E; try reflexivity; try discriminate E.
  apply andb_true_iff in H1. destruct H1 as [P1 Q1].
  apply andb_true_iff in H2. destruct H2 as [P2 Q2].
  injection E as E0 E.
  rewrite <- (unord6_ord6 c1 P1), <- (unord6_ord6 c2 P2), E0.
  f_equal. apply IH; assumption.
Qed.

(** Among the texts written with the 64 characters from the space to the
    underscore, the packed tag tells the padded tags apart: two such
    texts with the same packed tag are the same tag. *)
Theorem pack_tag_name_injective (t1 t2 : string) :
  all_packable t1 = true -> all_packable t2 = true ->
  pack_tag_name t1 = pack_tag_name t2 -> pad8 t1 = pad8 t2.
Proof.
  intros H1 H2 E. apply pack_same_codes in E.
  apply codes_determine; [apply all_packable_pad8, H1 | apply all_packable_pad8, H2 | exact E].
Qed.

Lemma pack_tag_name_injective_witness :
  pad8 "MFC00001" = pad8 "MFC00001____".
Proof.
  apply pack_tag_name_injective; vm_compute; reflexivity.
Defined.

End Packing.

(** ** Refusals *)

Section Refusals.

Lemma run_get_out_of_range (w : World) (idx : Z) :
  ~ in_range w idx ->
  _get idx w = (Raise (IndexError "device index out of range"), w).
Proof.
  intros H. unfold _get, bind, gets. simpl.
  destruct ((0 <=? idx) && (idx <? Z.of_nat (max_devices (mgr w)))) eqn:E;
    [|reflexivity].
  exfalso. apply H. apply andb_true_iff in E. destruct E as [E1 E2].
  split; [apply Z.leb_le, E1 | apply Z.ltb_lt, E2].
Qed.

(** Every method that takes a channel index refuses an index outside
    [0, max_devices) with the same [IndexError], before it reads or
    changes anything and before any call to the device. *)
Theorem index_out_of_range (w : World) (idx : Z) :
  ~ in_range w idx ->
  activate idx w = (Raise (IndexError "device index out of range"), w) /\
  deactivate idx w = (Raise (IndexError "device index out of range"), w) /\
  (forall t, set_tag idx t w = (Raise (IndexError "device index out of range"), w)) /\
  (forall v, send_consigne idx v w
             = (Raise (IndexError "device index out of range"), w)) /\
  (forall a, set_vanne idx a w = (Raise (IndexError "device index out of range"), w)) /\
  reset_totalization idx w = (Raise (IndexError "device index out of range"), w) /\
  (forall a t, apply_ramp_settings idx a t w
               = (Raise (IndexError "device index out of range"), w)) /\
  (forall g, select_gas idx g w
             = (Raise (IndexError "device index out of range"), w)) /\
  _poll_one idx w = (Raise (IndexError "device index out of range"), w).
Proof.
  intros H. pose proof (run_get_out_of_range w idx H) as E.
  repeat split; intros;
    unfold activate, deactivate, set_tag, send_consigne, set_vanne,
      reset_totalization, apply_ramp_settings, select_gas, _poll_one, bind;
    rewrite E; reflexivity.
Qed.

Lemma index_out_of_range_witness :
  activate 12 (w_active bench_bus)
  = (Raise (IndexError "device index out of range"), w_active bench_bus) /\
  (forall v, send_consigne (-1) v (w_active bench_bus)
             = (Raise (IndexError "device index out of range"), w_active bench_bus)).
Proof.
  assert (H12 : ~ in_range (w_active bench_bus) 12)
    by (vm_compute; intros [_ H]; discriminate H).
  assert (Hm1 : ~ in_range (w_active bench_bus) (-1))
    by (vm_compute; intros [H _]; apply H; reflexivity).
  split.
  - exact (proj1 (index_out_of_range _ _ H12)).
  - exact (proj1 (proj2 (proj2 (proj2 (index_out_of_range _ _ Hm1))))).
Defined.

Lemma run_need_mfc_unbound (w : World) (idx : Z) (d : DeviceState) :
  wf w -> in_range w idx -> chan w idx = Some d ->
  active d = false \/ binding w idx = None ->
  _need_mfc idx w = (Raise (RuntimeError "Device OFF"), w).
Proof.
  intros Hwf Hr Hd [Ha|Hb]; [apply (run_need_mfc_off w idx d); assumption|].
  destruct (wf_lookup_mfc w idx Hwf Hr) as [o Ho].
  unfold _need_mfc, bind. rewrite (run_get w idx d Hr Hd).
  rewrite (run_get_mfc w _ _ Ho).
  unfold binding in Hb. rewrite Ho in Hb. simpl in Hb. subst o. reflexivity.
Qed.

(** A channel that is inactive, or that has no driver object, refuses
    every command and the poll exchange with "Device OFF": nothing is
    stored, not even the ramp settings or the gas choice, and the device
    is not called. *)
Theorem device_off (w : World) (idx : Z) (d : DeviceState) :
  wf w -> in_range w idx -> chan w idx = Some d ->
  active d = false \/ binding w idx = None ->
  (forall v, send_consigne idx v w = (Raise (RuntimeError "Device OFF"), w)) /\
  (forall a, set_vanne idx a w = (Raise (RuntimeError "Device OFF"), w)) /\
  reset_totalization idx w = (Raise (RuntimeError "Device OFF"), w) /\
  (forall a t, apply_ramp_settings idx a t w
               = (Raise (RuntimeError "Device OFF"), w)) /\
  (forall g, select_gas idx g w = (Raise (RuntimeError "Device OFF"), w)) /\
  _poll_one idx w = (Raise (RuntimeError "Device OFF"), w).
Proof.
  intros Hwf Hr Hd Hoff.
  pose proof (run_get w idx d Hr Hd) as E1.
  pose proof (run_need_mfc_unbound w idx d Hwf Hr Hd Hoff) as E2.
  repeat split; intros;
    unfold send_consigne, set_vanne, reset_totalization, apply_ramp_settings,
      select_gas, _poll_one, bind;
    rewrite E1, E2; reflexivity.
Qed.

Lemma device_off_witness :
  (forall a, set_vanne 1 a (w_active bench_bus)
             = (Raise (RuntimeError "Device OFF"), w_active bench_bus)) /\
  _poll_one 1 (w_active bench_bus)
  = (Raise (RuntimeError "Device OFF"), w_active bench_bus).
Proof.
  assert (Hwf : wf (w_active bench_bus)) by (split; vm_compute; reflexivity).
  assert (Hr : in_range (w_active bench_bus) 1)
    by (vm_compute; split; [discriminate | reflexivity]).
  assert (Hd : chan (w_active bench_bus) 1
               = Some (default (new_DeviceState 1 "") (chan (w_active bench_bus) 1)))
    by (vm_compute; reflexivity).
  assert (Ha : active (default (new_DeviceState 1 "") (chan (w_active bench_bus) 1)) = false
               \/ binding (w_active bench_bus) 1 = None)
    by (left; vm_compute; reflexivity).
  pose proof (device_off _ _ _ Hwf Hr Hd Ha) as (_ & H1 & _ & _ & _ & H2).
  split; assumption.
Defined.

(** Without an open port [activate] raises "not connected" at once: the
    channel, the bindings and the trace of calls are as before. *)
Theorem activate_needs_session (w : World) (idx : Z) :
  wf w -> in_range w idx -> connected (mgr w) = false ->
  activate idx w = (Raise (RuntimeError "Port série non connecté"), w).
Proof.
  intros Hwf Hr Hc. destruct (wf_lookup_dev w idx Hwf Hr) as [d Hd].
  unfold activate, bind. rewrite (run_get w idx d Hr Hd). unfold gets. simpl.
  unfold connected in Hc. destruct (serial_port (mgr w)) as [s|]; [|reflexivity].
  rewrite Hc. reflexivity.
Qed.

Lemma activate_needs_session_witness :
  activate 0 (world0 bench_bus)
  = (Raise (RuntimeError "Port série non connecté"), world0 bench_bus).
Proof.
  assert (Hwf : wf (world0 bench_bus)) by (split; vm_compute; reflexivity).
  assert (Hr : in_range (world0 bench_bus) 0)
    by (vm_compute; split; [discriminate | reflexivity]).
  assert (Hc : connected (mgr (world0 bench_bus)) = false) by (vm_compute; reflexivity).
  exact (activate_needs_session _ _ Hwf Hr Hc).
Defined.

End Refusals.

(** ** Sessions and commands, call by call *)

Section Commands.



(** [set_tag] only writes the padded tag in the channel record: it calls
    nothing, leaves the other channels alone, and leaves the driver
    object of an active channel as it is, with the tag that was packed
    when the channel was switched on. *)
Theorem set_tag_outcome (w : World) (idx : Z) (d : DeviceState) (t : string) :
  in_range w idx -> chan w idx = Some d ->
  fst (set_tag idx t w) = Ok tt /\
  trace (snd (set_tag idx t w)) = trace w /\
  mfc_objs (mgr (snd (set_tag idx t w))) = mfc_objs (mgr w) /\
  chan (snd (set_tag idx t w)) idx = Some (set_tag_field (pad8 t) d) /\
  (forall j, j <> Z.to_nat idx ->
     devices (mgr (snd (set_tag idx t w))) !! j = devices (mgr w) !! j).
Proof.
  intros Hr Hd. unfold set_tag, bind. rewrite (run_get w idx d Hr Hd).
  unfold upd_dev, modify. simpl.
  repeat split.
  - unfold chan. simpl. rewrite list_lookup_alter_eq. unfold chan in Hd.
    rewrite Hd. reflexivity.
  - intros j Hj. apply list_lookup_alter_ne. congruence.
Qed.

Lemma set_tag_outcome_witness :
  binding (snd (set_tag 0 "PUMP" (w_active bench_bus))) 0
  = binding (w_active bench_bus) 0 /\
  (tag <$> chan (snd (set_tag 0 "PUMP" (w_active bench_bus))) 0)
  = Some "PUMP____"%string.
Proof.
  assert (Hr : in_range (w_active bench_bus) 0)
    by (vm_compute; split; [discriminate | reflexivity]).
  assert (Hd : chan (w_active bench_bus) 0 = Some (chan0 (w_active bench_bus)))
    by (vm_compute; reflexivity).
  pose proof (set_tag_outcome _ _ _ "PUMP" Hr Hd) as (_ & _ & H3 & H4 & _).
  split.
  - unfold binding. rewrite H3. reflexivity.
  - rewrite H4. vm_compute. reflexivity.
Defined.

(** [reset_totalization] sends the reset to the device first. When the
    device takes it, the stored total becomes 0 with the unit it had; when
    the device raises, the error goes to the caller and the stored total
    is kept. *)
Theorem reset_totalization_outcome (w : World) (idx : Z) (d : DeviceState)
    (m : Mfc) :
  in_range w idx -> chan w idx = Some d -> active d = true ->
  binding w idx = Some m ->
  trace (snd (reset_totalization idx w))
  = trace w ++ [write_totalizer_control m 2] /\
  (raises (bus w (trace w) (write_totalizer_control m 2)) = false ->
   fst (reset_totalization idx w) = Ok tt /\
   chan (snd (reset_totalization idx w)) idx
   = Some (set_totalization_value (VInt 0, snd (totalization_value d)) d)) /\
  (raises (bus w (trace w) (write_totalizer_control m 2)) = true ->
   fst (reset_totalization idx w) = Raise DriverError /\
   chan (snd (reset_totalization idx w)) idx = Some d).
Proof.
  intros Hr Hd Ha Hm. unfold reset_totalization, bind.
  rewrite (run_get w idx d Hr Hd), (run_need_mfc w idx d m Hr Hd Ha Hm).
  unfold with_serial_lock, ask.
  destruct (raises (bus w (trace w) (write_totalizer_control m 2))); simpl.
  - split; [reflexivity|]. split; [discriminate|]. intros _. split; [reflexivity|].
    exact Hd.
  - split; [reflexivity|]. split; [|discriminate]. intros _. split; [reflexivity|].
    unfold chan. simpl. rewrite list_lookup_alter_eq. unfold chan in Hd.
    rewrite Hd. reflexivity.
Qed.

Lemma reset_totalization_outcome_witness :
  fst (reset_totalization 0 (w_polled bench_bus)) = Ok tt /\
  (totalization_value <$> chan (snd (reset_totalization 0 (w_polled bench_bus))) 0)
  = Some (VInt 0, "N/A"%string).
Proof.
  assert (Hr : in_range (w_polled bench_bus) 0)
    by (vm_compute; split; [discriminate | reflexivity]).
  assert (Hd : chan (w_polled bench_bus) 0 = Some (chan0 (w_polled bench_bus)))
    by (vm_compute; reflexivity).
  assert (Ha : active (chan0 (w_polled bench_bus)) = true) by (vm_compute; reflexivity).
  assert (Hm : binding (w_polled bench_bus) 0 = Some (binding0 (w_polled bench_bus)))
    by (vm_compute; reflexivity).
  pose proof (reset_totalization_outcome _ _ _ _ Hr Hd Ha Hm) as (_ & H & _).
  assert (Hq : raises (bus (w_polled bench_bus) (trace (w_polled bench_bus))
                         (write_totalizer_control (binding0 (w_polled bench_bus)) 2))
               = false) by (vm_compute; reflexivity).
  destruct (H Hq) as [H1 H2]. split; [exact H1|]. rewrite H2. vm_compute. reflexivity.
Defined.

Lemma ramp_time_positive (t : pyval) : fle (ramp_time t) f0 = false.
Proof.
  unfold ramp_time.
  destruct (fle match py_float t with Ok x => x | Raise _ => f1 end f0) eqn:E;
    [vm_compute; reflexivity | exact E].
Qed.



(** [select_gas] looks the name up in the menu found at activation. A
    name that is not in the menu is ignored: no call, no change. A name of
    the menu is sent to the device as its identifier, and becomes the
    selected gas only once the device has taken it. *)
Theorem select_gas_outcome (w : World) (idx : Z) (d : DeviceState) (m : Mfc)
    (name : string) :
  in_range w idx -> chan w idx = Some d -> active d = true ->
  binding w idx = Some m ->
  (gas_map d !! name = None -> select_gas idx name w = (Ok tt, w)) /\
  (forall g, gas_map d !! name = Some g ->
     trace (snd (select_gas idx name w)) = trace w ++ [Select_gaz m g] /\
     (raises (bus w (trace w) (Select_gaz m g)) = false ->
      fst (select_gas idx name w) = Ok tt /\
      chan (snd (select_gas idx name w)) idx = Some (set_selected_gas (Some g) d)) /\
     (raises (bus w (trace w) (Select_gaz m g)) = true ->
      fst (select_gas idx name w) = Raise DriverError /\
      chan (snd (select_gas idx name w)) idx = Some d)).
Proof.
  intros Hr Hd Ha Hm. split.
  - intros Hn. unfold select_gas, bind.
    rewrite (run_get w idx d Hr Hd), (run_need_mfc w idx d m Hr Hd Ha Hm), Hn.
    reflexivity.
  - intros g Hg. unfold select_gas, bind.
    rewrite (run_get w idx d Hr Hd), (run_need_mfc w idx d m Hr Hd Ha Hm), Hg.
    unfold with_serial_lock, ask.
    destruct (raises (bus w (trace w) (Select_gaz m g))); simpl.
    + split; [reflexivity|]. split; [discriminate|]. intros _.
      split; [reflexivity | exact Hd].
    + split; [reflexivity|]. split; [|discriminate]. intros _.
      split; [reflexivity|].
      unfold chan. simpl. rewrite list_lookup_alter_eq. unfold chan in Hd.
      rewrite Hd. reflexivity.
Qed.

Lemma select_gas_outcome_witness :
  select_gas 0 "He" (w_active bench_bus) = (Ok tt, w_active bench_bus) /\
  (selected_gas <$> chan (snd (select_gas 0 "Ar" (w_active bench_bus))) 0)
  = Some (Some 2).
Proof.
  assert (Hr : in_range (w_active bench_bus) 0)
    by (vm_compute; split; [discriminate | reflexivity]).
  assert (Hd : chan (w_active bench_bus) 0 = Some (chan0 (w_active bench_bus)))
    by (vm_compute; reflexivity).
  assert (Ha : active (chan0 (w_active bench_bus)) = true) by (vm_compute; reflexivity).
  assert (Hm : binding (w_active bench_bus) 0 = Some (binding0 (w_active bench_bus)))
    by (vm_compute; reflexivity).
  split.
  - pose proof (select_gas_outcome _ _ _ _ "He" Hr Hd Ha Hm) as [H _].
    apply H. vm_compute. reflexivity.
  - pose proof (select_gas_outcome _ _ _ _ "Ar" Hr Hd Ha Hm) as [_ H].
    assert (Hg : gas_map (chan0 (w_active bench_bus)) !! "Ar"%string = Some 2)
      by (vm_compute; reflexivity).
    destruct (H 2 Hg) as (_ & H2 & _).
    assert (Hq : raises (bus (w_active bench_bus) (trace (w_active bench_bus))
                           (Select_gaz (binding0 (w_active bench_bus)) 2)) = false)
      by (vm_compute; reflexivity).
    destruct (H2 Hq) as [_ H3]. rewrite H3. reflexivity.
Defined.

End Commands.

(** ** The persisted tags *)

Section Settings.

Lemma pad8_all_fixed (l : list string) :
  Forall (fun t => String.length t = 8%nat) l -> pad8 <$> l = l.
Proof.
  induction 1 as [|t l Ht _ IH]; [reflexivity|].
  simpl. rewrite (pad8_fixed t Ht). f_equal. exact IH.
Qed.

Lemma pad8_all_length (l : list string) :
  Forall (fun t => String.length t = 8%nat) (pad8 <$> l).
Proof. apply Forall_fmap, Forall_forall. intros t _. apply pad8_length. Qed.

Lemma default_tags_shape :
  length default_tags = MAX_MASSIQUES /\
  Forall (fun t => String.length t = 8%nat) default_tags.
Proof.
  split; [reflexivity|]. unfold default_tags.
  apply Forall_fmap, Forall_forall. intros i _. apply pad8_length.
Qed.

Lemma run_load_tags (w : World) :
  config_dir_ok w = true ->
  exists tags, load_tags w = (Ok tags, w) /\ length tags = MAX_MASSIQUES /\
               Forall (fun t => String.length t = 8%nat) tags.
Proof.
  intros Hd. unfold load_tags, bind, ensure_dir. rewrite Hd.
  destruct (tags_file w) as [tags|].
  - destruct (length tags =? MAX_MASSIQUES)%nat eqn:E.
    + eexists. split; [reflexivity|]. split.
      * rewrite length_fmap. apply Nat.eqb_eq, E.
      * apply pad8_all_length.
    + eexists. split; [reflexivity|]. apply default_tags_shape.
  - eexists. split; [reflexivity|]. apply default_tags_shape.
Qed.




Lemma run_save_tags (w : World) (tags : list string) :
  config_dir_ok w = true ->
  Forall (fun t => String.length t = 8%nat) tags ->
  save_tags tags w
  = (Ok tt, if tags_writable w then set_tags_file (Some tags) w else w).
Proof.
  intros Hd Hl. unfold save_tags, bind, ensure_dir. rewrite Hd. simpl.
  rewrite (pad8_all_fixed tags Hl). reflexivity.
Qed.

Lemma list_assign_in (l : list string) (idx : Z) (v : string) :
  0 <= idx < Z.of_nat (length l) ->
  list_assign l idx v = Ok (<[Z.to_nat idx := v]> l).
Proof.
  intros H. unfold list_assign.
  destruct (0 <=? idx) eqn:E1; [|lia]. destruct (idx <? _) eqn:E2; [|lia].
  reflexivity.
Qed.

Lemma list_assign_negative (l : list string) (idx : Z) (v : string) :
  - Z.of_nat (length l) <= idx < 0 ->
  list_assign l idx v = Ok (<[Z.to_nat (idx + Z.of_nat (length l)) := v]> l).
Proof.
  intros H. unfold list_assign.
  destruct (0 <=? idx) eqn:E1; [lia|]. simpl.
  destruct (- _ <=? idx) eqn:E2; [|lia]. destruct (idx <? 0) eqn:E3; [|lia].
  reflexivity.
Qed.

Lemma list_assign_outside (l : list string) (idx : Z) (v : string) :
  idx < - Z.of_nat (length l) \/ Z.of_nat (length l) <= idx ->
  list_assign l idx v = Raise (IndexError "list assignment index out of range").
Proof.
  intros H. unfold list_assign.
  destruct (0 <=? idx) eqn:E1; destruct (idx <? Z.of_nat (length l)) eqn:E2;
    destruct (- Z.of_nat (length l) <=? idx) eqn:E3; destruct (idx <? 0) eqn:E4;
    simpl; try reflexivity; lia.
Qed.

Lemma Forall_insert_len (l : list string) (i : nat) (t : string) :
  Forall (fun t => String.length t = 8%nat) l ->
  Forall (fun t => String.length t = 8%nat) (<[i := pad8 t]> l).
Proof. intros H. apply Forall_insert; [exact H | apply pad8_length]. Qed.

Lemma config_dir_of_load (w : World) (tags : list string) :
  load_tags w = (Ok tags, w) ->
  config_dir_ok w = true /\ length tags = 12%nat /\
  Forall (fun t => String.length t = 8%nat) tags.
Proof.
  intros Hload.
  assert (Hd : config_dir_ok w = true).
  { revert Hload. unfold load_tags, bind, ensure_dir.
    destruct (config_dir_ok w); [reflexivity | discriminate]. }
  destruct (run_load_tags w Hd) as (tags' & Hl' & Hlen & Hall).
  rewrite Hload in Hl'. injection Hl' as <-. auto.
Qed.

(** [Api.set_tag] on a channel of the manager that is also a slot of the
    tag file: it answers [True]; the file, when it can be written, holds
    the tags it held (or the defaults) with the padded tag in that slot,
    and is left alone when it cannot; the channel carries the same padded
    tag either way. *)
Theorem api_set_tag_stores (w : World) (idx : Z) (t : string) (tags : list string)
    (d : DeviceState) :
  load_tags w = (Ok tags, w) -> in_range w idx -> chan w idx = Some d ->
  0 <= idx < 12 ->
  fst (Api.set_tag idx t w) = Ok (Api.JsBool true) /\
  (tags_writable w = true ->
   tags_file (snd (Api.set_tag idx t w)) = Some (<[Z.to_nat idx := pad8 t]> tags)) /\
  (tags_writable w = false ->
   tags_file (snd (Api.set_tag idx t w)) = tags_file w) /\
  chan (snd (Api.set_tag idx t w)) idx = Some (set_tag_field (pad8 t) d).
Proof.
  intros Hload Hr Hd Hi.
  destruct (config_dir_of_load w tags Hload) as (Hdir & Hlen & Hall).
  destruct (Api.set_tag idx t w) as [res w'] eqn:E. cbn [fst snd]. revert E.
  unfold Api.set_tag. unfold bind at 1. rewrite Hload.
  unfold bind at 1, lift. rewrite list_assign_in by (rewrite Hlen; lia).
  unfold bind at 1.
  rewrite run_save_tags by (first [exact Hdir | apply Forall_insert_len, Hall]).
  set (w1 := if tags_writable w then _ else w).
  assert (Hm : mgr w1 = mgr w) by (unfold w1; destruct (tags_writable w); reflexivity).
  assert (Hr1 : in_range w1 idx) by (unfold in_range; rewrite Hm; exact Hr).
  assert (Hd1 : chan w1 idx = Some d) by (unfold chan; rewrite Hm; exact Hd).
  unfold set_tag, bind. rewrite (run_get w1 idx d Hr1 Hd1).
  unfold upd_dev, modify, ret.
  rewrite (pad8_fixed (pad8 t)) by apply pad8_length.
  intros E. injection E as <- <-.
  split; [reflexivity|]. split; [|split].
  - intros Hw. unfold w1. rewrite Hw. reflexivity.
  - intros Hw. unfold w1. rewrite Hw. reflexivity.
  - unfold chan in *. simpl. rewrite list_lookup_alter_eq, Hd1. reflexivity.
Qed.

Lemma api_set_tag_stores_witness :
  tags_file (snd (Api.set_tag 1 "PUMP" (world0 quiet_bus)))
  = Some (<[1%nat := "PUMP____"%string]> default_tags) /\
  (tag <$> chan (snd (Api.set_tag 1 "PUMP" (world0 quiet_bus))) 1)
  = Some "PUMP____"%string.
Proof.
  assert (Hl : load_tags (world0 quiet_bus) = (Ok default_tags, world0 quiet_bus))
    by (vm_compute; reflexivity).
  assert (Hr : in_range (world0 quiet_bus) 1)
    by (vm_compute; split; [discriminate | reflexivity]).
  assert (Hd : chan (world0 quiet_bus) 1
               = Some (new_DeviceState 1 "MFC00002"))
    by (vm_compute; reflexivity).
  assert (Hi : 0 <= 1 < 12) by lia.
  pose proof (api_set_tag_stores _ 1 "PUMP" _ _ Hl Hr Hd Hi) as (_ & H1 & _ & H2).
  split.
  - rewrite (H1 eq_refl). vm_compute. reflexivity.
  - rewrite H2. vm_compute. reflexivity.
Defined.

(** [Api.set_tag] with an index the manager refuses. The tag list is a
    Python list, so an index from -12 to -1 names a slot counted from the
    end: that slot of the file is rewritten first, and then the manager
    raises [IndexError] and keeps its tags. An index outside -12..11 is
    refused by the list itself, before anything is written. *)
Theorem api_set_tag_refused (w : World) (idx : Z) (t : string) (tags : list string) :
  load_tags w = (Ok tags, w) ->
  (-12 <= idx < 0 ->
   fst (Api.set_tag idx t w) = Raise (IndexError "device index out of range") /\
   mgr (snd (Api.set_tag idx t w)) = mgr w /\
   (tags_writable w = true ->
    tags_file (snd (Api.set_tag idx t w))
    = Some (<[Z.to_nat (idx + 12) := pad8 t]> tags))) /\
  (idx < -12 \/ 12 <= idx ->
   Api.set_tag idx t w
   = (Raise (IndexError "list assignment index out of range"), w)).
Proof.
  intros Hload.
  destruct (config_dir_of_load w tags Hload) as (Hdir & Hlen & Hall).
  split; intros Hi.
  - destruct (Api.set_tag idx t w) as [res w'] eqn:E. cbn [fst snd]. revert E.
    unfold Api.set_tag. unfold bind at 1. rewrite Hload.
    unfold bind at 1, lift. rewrite list_assign_negative by (rewrite Hlen; lia).
    rewrite Hlen. change (Z.of_nat 12) with 12.
    unfold bind at 1.
    rewrite run_save_tags by (first [exact Hdir | apply Forall_insert_len, Hall]).
    set (w1 := if tags_writable w then _ else w).
    assert (Hm : mgr w1 = mgr w) by (unfold w1; destruct (tags_writable w); reflexivity).
    unfold set_tag, _get, bind, gets.
    destruct (0 <=? idx) eqn:E0; [lia|]. simpl.
    intros E. injection E as <- <-.
    split; [reflexivity|]. split; [exact Hm|].
    intros Hw. unfold w1. rewrite Hw. reflexivity.
  - unfold Api.set_tag. unfold bind at 1. rewrite Hload.
    unfold bind at 1, lift. rewrite list_assign_outside by (rewrite Hlen; lia).
    reflexivity.
Qed.

Lemma api_set_tag_refused_witness :
  fst (Api.set_tag (-1) "PUMP" (world0 quiet_bus))
  = Raise (IndexError "device index out of range") /\
  tags_file (snd (Api.set_tag (-1) "PUMP" (world0 quiet_bus)))
  = Some (<[11%nat := "PUMP____"%string]> default_tags).
Proof.
  assert (Hl : load_tags (world0 quiet_bus) = (Ok default_tags, world0 quiet_bus))
    by (vm_compute; reflexivity).
  pose proof (api_set_tag_refused _ (-1) "PUMP" _ Hl) as [H _].
  assert (Hi : -12 <= -1 < 0) by lia.
  destruct (H Hi) as (H1 & _ & H2). split; [exact H1|].
  rewrite (H2 eq_refl). vm_compute. reflexivity.
Defined.

End Settings.

(** ** Polling *)

Section Polling.

Lemma poll_step_off (w : World) (i : nat) (d : DeviceState) :
  devices (mgr w) !! i = Some d -> active d = false -> poll_step i w = (Ok tt, w).
Proof.
  intros Hd Ha. unfold poll_step, bind. rewrite (run_deref w i d Hd), Ha. reflexivity.
Qed.

Lemma poll_steps_off (k a : nat) (w : World) :
  (a + k <= length (devices (mgr w)))%nat ->
  Forall (fun d => active d = false) (devices (mgr w)) ->
  for_each (seq a k) poll_step w = (Ok tt, w).
Proof.
  revert a. induction k as [|k IH]; intros a Hle Hoff; [reflexivity|].
  change (seq a (S k)) with (a :: seq (S a) k). simpl for_each. unfold bind.
  destruct (lookup_lt_is_Some_2 (devices (mgr w)) a) as [d Hd]; [lia|].
  rewrite (poll_step_off w a d Hd); [|exact (Forall_lookup_1 _ _ _ _ Hoff Hd)].
  apply IH; [lia | exact Hoff].
Qed.

(** While no channel is switched on, the polling loop calls nothing and
    changes nothing, for as long as it runs. *)
Theorem poll_loop_idle (n : nat) (w : World) :
  wf w -> Forall (fun d => active d = false) (devices (mgr w)) ->
  _poll_loop n w = (Ok tt, w).
Proof.
  intros [Hl _] Hoff. induction n as [|n IH]; [reflexivity|].
  simpl. unfold bind, gets. simpl. destruct (poll_stop (mgr w)); [reflexivity|].
  unfold poll_cycle, bind, gets. simpl.
  rewrite (poll_steps_off (max_devices (mgr w)) 0 w) by (first [lia | exact Hoff]).
  unfold sleep, ret. exact IH.
Qed.

Lemma poll_loop_idle_witness :
  _poll_loop 3 (w_connected bench_bus) = (Ok tt, w_connected bench_bus).
Proof.
  assert (Hwf : wf (w_connected bench_bus)) by (vm_compute; split; reflexivity).
  assert (Hoff : Forall (fun d => active d = false)
                   (devices (mgr (w_connected bench_bus)))).
  { apply (bool_decide_unpack _). vm_compute. reflexivity. }
  exact (poll_loop_idle 3 _ Hwf Hoff).
Defined.





(** A poll of an active channel that has no gas to read with (none
    selected, and a menu that is empty or whose first name has no
    identifier) returns at once: no call, no change, no point added to
    the histories. *)
Theorem poll_one_without_gas (w : World) (idx : Z) (d : DeviceState) (m : Mfc) :
  in_range w idx -> chan w idx = Some d -> active d = true ->
  binding w idx = Some m -> poll_gas d = None ->
  _poll_one idx w = (Ok tt, w).
Proof.
  intros Hr Hd Ha Hm Hg. unfold _poll_one, bind.
  rewrite (run_get w idx d Hr Hd), (run_need_mfc w idx d m Hr Hd Ha Hm).
  unfold poll_gas in Hg. destruct (selected_gas d) as [g|] eqn:Hsel; [discriminate|].
  destruct (available_gases d) as [|first rest].
  - unfold ret at 1. rewrite (run_deref w _ d Hd), Hsel. reflexivity.
  - rewrite Hg. unfold upd_dev, modify.
    assert (Hsame : set_mgr (set_devices
                       (alter (set_selected_gas None) (Z.to_nat idx) (devices (mgr w)))
                       (mgr w)) w = w).
    { rewrite (alter_same _ _ _ d Hd).
      - rewrite set_devices_same. apply set_mgr_same.
      - rewrite <- Hsel. apply set_selected_gas_same. }
    rewrite Hsame. rewrite (run_deref w _ d Hd), Hsel. reflexivity.
Qed.

Lemma poll_one_without_gas_witness :
  _poll_one 0 (snd (activate 0 (w_connected quiet_bus)))
  = (Ok tt, snd (activate 0 (w_connected quiet_bus))).
Proof.
  set (w := snd (activate 0 (w_connected quiet_bus))).
  assert (Hr : in_range w 0) by (vm_compute; split; [discriminate | reflexivity]).
  assert (Hd : chan w 0 = Some (chan0 w)) by (vm_compute; reflexivity).
  assert (Ha : active (chan0 w) = true) by (vm_compute; reflexivity).
  assert (Hm : binding w 0 = Some (binding0 w)) by (vm_compute; reflexivity).
  assert (Hg : poll_gas (chan0 w) = None) by (vm_compute; reflexivity).
  exact (poll_one_without_gas w 0 _ _ Hr Hd Ha Hm Hg).
Defined.

(** A poll of an active channel whose five reads all answer. The reads
    are made in the order flow, temperature, full scale, total, valve,
    with the gas the channel reads with; what they return is stored, a
    missing answer as the unknown sample or the label "N/A"; the measured
    flow joins the history with the time of the poll, 0.0 standing for a
    flow that is not a number. The only call that may follow the reads is
    the write that re-sends the stored setpoint. *)
Theorem poll_one_reads (w : World) (idx : Z) (d : DeviceState) (m : Mfc) (g : Z)
    (r1 r2 r3 r4 r5 : reply) (F : float) :
  in_range w idx -> chan w idx = Some d -> active d = true ->
  binding w idx = Some m -> poll_gas d = Some g ->
  answers (bus w) (trace w) (poll_reads m g) = [r1; r2; r3; r4; r5] ->
  Forall (fun r => raises r = false) [r1; r2; r3; r4; r5] ->
  py_float (val_or (fst (sample_or_unknown (r_sample r3))) (VInt 0)) = Ok F ->
  fst (_poll_one idx w) = Ok tt /\
  exists d' rest,
    chan (snd (_poll_one idx w)) idx = Some d' /\
    trace (snd (_poll_one idx w)) = trace w ++ poll_reads m g ++ rest /\
    (rest = [] \/ exists p, rest = [write_setpoint m p 57]) /\
    telemetry d'
    = (sample_or_unknown (r_sample r1), sample_or_unknown (r_sample r2),
       sample_or_unknown (r_sample r3), F, sample_or_unknown (r_sample r4),
       label_or_na (r_label r5), Some g) /\
    measurements d'
    = slice_last 3600
        (measurements d
         ++ [(match py_float (fst (sample_or_unknown (r_sample r1))) with
              | Ok x => x
              | Raise _ => f0
              end, clock w (ticks w))]).
Proof.
  intros Hr Hd Ha Hm Hg Hans Hok HF.
  destruct (poll_one_state w idx d m g r1 r2 r3 r4 r5 F Hr Hd Ha Hm Hg Hans Hok HF)
    as (H0 & d' & rest & H1 & H2 & H3 & H4 & H5 & _).
  split; [exact H0|]. exists d', rest. auto.
Qed.

Lemma poll_one_reads_witness :
  exists d', chan (snd (_poll_one 0 (w_active bench_bus))) 0 = Some d' /\
             full_scale_value d' = f100 /\
             valve_command d' = "Régulation"%string.
Proof.
  set (w := w_active bench_bus).
  assert (Hr : in_range w 0) by (vm_compute; split; [discriminate | reflexivity]).
  assert (Hd : chan w 0 = Some (chan0 w)) by (vm_compute; reflexivity).
  assert (Ha : active (chan0 w) = true) by (vm_compute; reflexivity).
  assert (Hm : binding w 0 = Some (binding0 w)) by (vm_compute; reflexivity).
  assert (Hg : poll_gas (chan0 w) = Some 1) by (vm_compute; reflexivity).
  assert (Hans : answers (bus w) (trace w) (poll_reads (binding0 w) 1)
                 = [quiet_reply; quiet_reply;
                    mkReply false "" (Some (VFloat f100, "l/min"%string)) None;
                    quiet_reply;
                    mkReply false "" None (Some "Régulation"%string)])
    by (vm_compute; reflexivity).
  assert (Hok : Forall (fun r => raises r = false)
                  [quiet_reply; quiet_reply;
                   mkReply false "" (Some (VFloat f100, "l/min"%string)) None;
                   quiet_reply;
                   mkReply false "" None (Some "Régulation"%string)])
    by (repeat constructor).
  assert (HF : py_float (val_or (fst (sample_or_unknown
                 (r_sample (mkReply false "" (Some (VFloat f100, "l/min"%string)) None))))
                 (VInt 0)) = Ok f100) by (vm_compute; reflexivity).
  pose proof (poll_one_reads w 0 _ _ 1 _ _ _ _ _ f100 Hr Hd Ha Hm Hg Hans Hok HF)
    as (_ & d' & rest & Hd' & _ & _ & Htel & _).
  exists d'. split; [exact Hd'|].
  pose proof (f_equal (fun t => snd (fst (fst (fst t)))) Htel) as H1.
  pose proof (f_equal (fun t => snd (fst t)) Htel) as H2.
  split; [exact H1 | exact H2].
Defined.

End Polling.

(** ** Switching a channel on *)

Section Activation.



Lemma rollback_raises (idx : Z) (e : exn) (w : World) :
  fst (rollback idx e w) <> Ok tt.
Proof.
  unfold rollback, upd_dev, set_mfc, bind, modify, gets, raise. simpl.
  destruct (_ <? _)%nat; simpl; discriminate.
Qed.

Lemma menu_at_keeps (i k : nat) (f : DeviceState -> DeviceState) (m : MassiqueManager) :
  keeps (fun d => (available_gases d, gas_map d)) f ->
  menu_at i m -> menu_at i (set_devices (alter f k (devices m)) m).
Proof.
  intros Hf (d & Hd & Hok). unfold menu_at. simpl.
  destruct (decide (k = i)) as [->|Hne].
  - exists (f d). rewrite list_lookup_alter_eq, Hd. split; [reflexivity|].
    unfold menu_ok in *. specialize (Hf d). injection Hf as -> ->. exact Hok.
  - exists d. rewrite list_lookup_alter_ne by exact Hne. split; assumption.
Qed.

Lemma menu_at_found (i k : nat) (name : string) (g : Z) (m : MassiqueManager) :
  name <> ""%string -> 1 <= g <= 4 -> menu_at i m ->
  menu_at i (set_devices
               (alter (fun d => set_gas_map (<[name := g]> (gas_map d))
                                  (set_available_gases (available_gases d ++ [name]) d))
                      k (devices m)) m).
Proof.
  intros Hn Hg (d & Hd & Hok). unfold menu_at. simpl.
  destruct (decide (k = i)) as [->|Hne].
  - eexists. rewrite list_lookup_alter_eq, Hd. split; [reflexivity|].
    unfold menu_ok in *. simpl. apply Forall_app. split.
    + eapply Forall_impl; [exact Hok|]. intros x (Hx & g0 & Hg0 & Hr).
      split; [exact Hx|]. destruct (decide (name = x)) as [->|Hd'].
      * exists g. rewrite lookup_insert_eq. auto.
      * exists g0. rewrite lookup_insert_ne by exact Hd'. auto.
    + apply Forall_cons. split; [|constructor]. split; [exact Hn|].
      exists g. rewrite lookup_insert_eq. auto.
  - exists d. rewrite list_lookup_alter_ne by exact Hne. split; assumption.
Qed.

Lemma menu_probe_gas (i : nat) (idx : Z) (mfc : Mfc) (g : Z) :
  1 <= g <= 4 -> preserves (menu_at i) (probe_gas idx mfc g).
Proof.
  intros Hg. unfold probe_gas. repeat pres_step; intros m H.
  apply menu_at_found; [discriminate | exact Hg | exact H].
Qed.

Lemma menu_probes (i : nat) (idx : Z) (mfc : Mfc) :
  preserves (menu_at i) (for_each [1; 2; 3; 4] (probe_gas idx mfc)).
Proof.
  simpl for_each.
  repeat (apply preserves_bind; [apply menu_probe_gas; lia | intros _]).
  apply preserves_ret.
Qed.

Lemma setup_probes (i : nat) a (idx : Z) (mfc : Mfc) :
  preserves (has i (fun d => (active d, tag d, selected_gas d)) a)
    (for_each [1; 2; 3; 4] (probe_gas idx mfc)).
Proof.
  apply preserves_for. intros g. apply frame_probe_gas; intros ? []; reflexivity.
Qed.

Lemma bound_probes (i : nat) o (idx : Z) (mfc : Mfc) :
  preserves (bound i o) (for_each [1; 2; 3; 4] (probe_gas idx mfc)).
Proof. apply preserves_for. intros g. apply bound_probe_gas. Qed.

(** The commands that end the [try] block of [activate]. *)
Lemma setup_tail (i : nat) a (idx : Z) (mfc : Mfc) (on t : pyval) :
  preserves (has i setup a)
    (with_serial_lock (ask (write_totalizer_control mfc 1)) >>
     apply_ramp_settings idx on t >>
     set_vanne idx "Régulation" >>
     send_consigne idx (VFloat f0)).
Proof.
  pose proof (frame_send_consigne setup i a
                ltac:(intros ? []; reflexivity) ltac:(intros ? []; reflexivity)) as H1.
  pose proof (fun act => frame_set_vanne setup i a idx act
                ltac:(intros ? []; reflexivity)) as H2.
  pose proof (fun x y => frame_apply_ramp_settings setup i a idx x y
                ltac:(intros ? []; reflexivity) ltac:(intros ? []; reflexivity)) as H3.
  repeat pres_step.
Qed.

Lemma bound_tail (i : nat) o (idx : Z) (mfc : Mfc) (on t : pyval) :
  preserves (bound i o)
    (with_serial_lock (ask (write_totalizer_control mfc 1)) >>
     apply_ramp_settings idx on t >>
     set_vanne idx "Régulation" >>
     send_consigne idx (VFloat f0)).
Proof.
  pose proof (bound_send_consigne i o) as H1.
  pose proof (bound_set_vanne i o) as H2.
  pose proof (bound_apply_ramp_settings i o) as H3.
  repeat pres_step.
Qed.

(** The [try] block of [activate], when it completes. *)
Lemma activation_ok (w w9 : World) (idx : Z) (d : DeviceState) (s : Serial) :
  devices (mgr w) !! Z.to_nat idx = Some d ->
  activation idx d s w = (Ok tt, w9) ->
  binding w9 idx = Some (mkMfc s (pack_tag_name (tag d))) /\
  exists d', chan w9 idx = Some d' /\
             active d' = true /\ tag d' = tag d /\ menu_ok d' /\
             selected_gas d'
             = match available_gases d' with
               | first :: _ => gas_map d' !! first
               | [] => selected_gas d
               end.
Proof.
  intros Hd E. unfold chan.
  set (i := Z.to_nat idx) in *. set (mfc := mkMfc s (pack_tag_name (tag d))) in *.
  unfold activation in E. fold i mfc in E.
  apply bind_ok_inv in E as (r1 & w1 & E1 & E). apply ask_ok_inv in E1.
  apply bind_ok_inv in E as (r2 & w2 & E2 & E). apply ask_ok_inv in E2.
  apply bind_ok_inv in E as ([] & w3 & E3 & E). injection E3 as E3.
  apply bind_ok_inv in E as ([] & w4 & E4 & E).
  apply bind_ok_inv in E as ([] & w5 & E5 & E). injection E5 as E5.
  apply bind_ok_inv in E as ([] & w6 & E6 & E). injection E6 as E6.
  apply bind_ok_inv in E as ([] & w7 & E7 & E).
  apply bind_ok_inv in E as (d7 & w7' & Ed & E).
  apply bind_ok_inv in E as ([] & w8 & E8 & E).
  assert (Hlen : (i < length (mfc_objs (mgr w3)))%nat).
  { revert E4. unfold set_mfc, bind, gets, modify, raise. simpl.
    destruct (i <? length (mfc_objs (mgr w3)))%nat eqn:El; [|discriminate].
    intros _. apply Nat.ltb_lt, El. }
  assert (E4' : w4 = set_mgr (set_mfc_objs (<[i := Some mfc]> (mfc_objs (mgr w3)))
                            (mgr w3)) w3).
  { revert E4. unfold set_mfc, bind, gets, modify, raise. simpl.
    apply Nat.ltb_lt in Hlen. rewrite Hlen. intros E4. injection E4 as <-.
    reflexivity. }
  assert (H6a : has i (fun x => (active x, tag x, selected_gas x))
                  (true, tag d, selected_gas d) (mgr w6)).
  { subst w6 w5 w4 w3 w2 w1. unfold has. simpl.
    rewrite !list_lookup_alter_eq, Hd. reflexivity. }
  assert (H6b : bound i (Some mfc) (mgr w6)).
  { subst w6 w5 w4. unfold bound. simpl. apply list_lookup_insert_eq, Hlen. }
  assert (H6c : menu_at i (mgr w6)).
  { subst w6 w5 w4 w3 w2 w1. unfold menu_at. simpl.
    rewrite !list_lookup_alter_eq, Hd. simpl. eexists. split; [reflexivity|].
    constructor. }
  pose proof (setup_probes i _ idx mfc w6 H6a) as H7a.
  pose proof (bound_probes i _ idx mfc w6 H6b) as H7b.
  pose proof (menu_probes i idx mfc w6 H6c) as H7c.
  rewrite E7 in H7a, H7b, H7c. cbn [snd] in H7a, H7b, H7c.
  clear E1 E2 E3 E4 E4' E5 E6 E7 H6a H6b H6c Hlen.
  assert (Hd7 : devices (mgr w7) !! i = Some d7 /\ w7' = w7).
  { revert Ed. unfold deref, bind, gets. simpl.
    destruct (devices (mgr w7) !! i) as [x|]; [|discriminate].
    intros Ed. injection Ed as <- <-. auto. }
  destruct Hd7 as [Hd7 Hw7]. subst w7'. clear Ed.
  destruct H7c as (x & Hx & Hmenu). rewrite Hd7 in Hx. injection Hx as <-.
  unfold has in H7a. rewrite Hd7 in H7a. simpl in H7a.
  assert (Hact : active d7 = true) by congruence.
  assert (Htag : tag d7 = tag d) by congruence.
  assert (Hsel : selected_gas d7 = selected_gas d) by congruence.
  clear H7a.
  assert (H8 : bound i (Some mfc) (mgr w8) /\
               has i setup
                 (true, tag d, available_gases d7, gas_map d7,
                  match available_gases d7 with
                  | first :: _ => gas_map d7 !! first
                  | [] => selected_gas d
                  end) (mgr w8)).
  { destruct (available_gases d7) as [|first rest] eqn:Hav.
    - injection E8 as <-. split; [exact H7b|].
      unfold has, setup. rewrite Hd7. simpl. rewrite Hact, Htag, Hav, Hsel. reflexivity.
    - destruct (gas_map d7 !! first) as [g|] eqn:Hg; [|discriminate].
      apply bind_ok_inv in E8 as (r & w7a & Ea & E8). apply ask_ok_inv in Ea.
      injection E8 as <-. subst w7a. split; [exact H7b|].
      unfold has, setup. simpl. rewrite list_lookup_alter_eq, Hd7. simpl.
      rewrite Hact, Htag, Hav. reflexivity. }
  destruct H8 as [H8b H8a].
  pose proof (setup_tail i _ idx mfc (VBool (ramp_active d7)) (VFloat (ramp_time_s d7))
                w8 H8a) as H9a.
  pose proof (bound_tail i _ idx mfc (VBool (ramp_active d7)) (VFloat (ramp_time_s d7))
                w8 H8b) as H9b.
  rewrite E in H9a, H9b. cbn [snd] in H9a, H9b.
  split.
  - unfold binding. fold i. unfold bound in H9b. rewrite H9b. reflexivity.
  - apply has_elim in H9a as (d' & Hd' & Hset). exists d'. split; [exact Hd'|].
    unfold setup in Hset.
    assert (H1 : active d' = true) by congruence.
    assert (H2 : tag d' = tag d) by congruence.
    assert (H3 : available_gases d' = available_gases d7) by congruence.
    assert (H4 : gas_map d' = gas_map d7) by congruence.
    assert (H5 : selected_gas d' = match available_gases d7 with
                                   | first :: _ => gas_map d7 !! first
                                   | [] => selected_gas d
                                   end) by congruence.
    split; [exact H1|]. split; [exact H2|]. split.
    + unfold menu_ok. rewrite H3, H4. exact Hmenu.
    + rewrite H5, H3, H4. reflexivity.
Qed.


(** When [activate] returns normally, the channel is active and bound to
    a driver object on the open port that carries the packed tag of the
    channel; the tag is as it was; every name of the gas menu is
    non-empty and has an identifier from 1 to 4 in the gas map; and the
    selected gas is the identifier the map gives for the first name of
    the menu, or the one selected before when the device named no gas. *)
Theorem activate_success (w : World) (idx : Z) (d : DeviceState) (s : Serial) :
  in_range w idx -> chan w idx = Some d ->
  serial_port (mgr w) = Some s -> is_open s = true ->
  fst (activate idx w) = Ok tt ->
  binding (snd (activate idx w)) idx = Some (mkMfc s (pack_tag_name (tag d))) /\
  exists d', chan (snd (activate idx w)) idx = Some d' /\
             active d' = true /\ tag d' = tag d /\ menu_ok d' /\
             selected_gas d'
             = match available_gases d' with
               | first :: _ => gas_map d' !! first
               | [] => selected_gas d
               end.
Proof.
  intros Hr Hd Hs Ho.
  destruct (activate idx w) as [res w'] eqn:E. cbn [fst snd]. intros ->.
  revert E. unfold activate, bind. rewrite (run_get w idx d Hr Hd).
  unfold gets. simpl. rewrite Hs, Ho. unfold try_except.
  destruct (activation idx d s w) as [[[]|e] w9] eqn:E;
    [|intros E'; exfalso; apply (rollback_raises idx e w9); rewrite E'; reflexivity].
  intros E'. injection E' as <-.
  exact (activation_ok w w9 idx d s Hd E).
Qed.

Lemma activate_success_witness :
  binding (snd (activate 0 (w_connected bench_bus))) 0
  = Some (mkMfc (mkSerial "COM3" true) (pack_tag_name "MFC00001")).
Proof.
  assert (Hr : in_range (w_connected bench_bus) 0)
    by (vm_compute; split; [discriminate | reflexivity]).
  assert (Hd : chan (w_connected bench_bus) 0 = Some (new_DeviceState 0 "MFC00001"))
    by (vm_compute; reflexivity).
  assert (Hs : serial_port (mgr (w_connected bench_bus)) = Some (mkSerial "COM3" true))
    by (vm_compute; reflexivity).
  assert (Hok : fst (activate 0 (w_connected bench_bus)) = Ok tt)
    by (vm_compute; reflexivity).
  exact (proj1 (activate_success (w_connected bench_bus) 0
                  (new_DeviceState 0 "MFC00001") (mkSerial "COM3" true)
                  Hr Hd Hs eq_refl Hok)).
Defined.

End Activation.

(** ** Switching a channel off *)

Section SwitchOff.




End SwitchOff.

(** ** What every channel record keeps along a run *)

Section Records.

Context (P : DeviceState -> Prop).

Hypothesis HP : forall f d, field_update f -> P d -> P (f d).

Lemma every_alter f i m :
  field_update f -> every P m -> every P (set_devices (alter f i (devices m)) m).
Proof.
  intros Hf H. unfold every in *. simpl.
  apply Forall_alter; [exact H|]. intros d _ Hd. apply HP; assumption.
Qed.

Ltac rec_side :=
  let m := fresh "m" in let H := fresh "H" in
  intros m H;
  first [ exact H
        | apply every_alter; [constructor | exact H] ].

Lemma every_set_tag idx t : preserves (every P) (set_tag idx t).
Proof. unfold set_tag. repeat pres_step; rec_side. Qed.

Lemma every_send_consigne idx v : preserves (every P) (send_consigne idx v).
Proof. unfold send_consigne. repeat pres_step; rec_side. Qed.

Lemma every_set_vanne idx a : preserves (every P) (set_vanne idx a).
Proof. unfold set_vanne. repeat pres_step; rec_side. Qed.

Lemma every_reset_totalization idx : preserves (every P) (reset_totalization idx).
Proof. unfold reset_totalization. repeat pres_step; rec_side. Qed.

Lemma every_apply_ramp_settings idx a t :
  preserves (every P) (apply_ramp_settings idx a t).
Proof.
  unfold apply_ramp_settings. fold (ramp_time t). repeat pres_step; rec_side.
Qed.

Lemma every_select_gas idx g : preserves (every P) (select_gas idx g).
Proof. unfold select_gas. repeat pres_step; rec_side. Qed.

Lemma every_poll_one idx : preserves (every P) (_poll_one idx).
Proof.
  pose proof (every_send_consigne idx) as Hsc.
  unfold _poll_one. repeat pres_step; rec_side.
Qed.

Lemma every_poll_loop n : preserves (every P) (_poll_loop n).
Proof.
  pose proof every_poll_one as Hp.
  assert (Hs : forall i, preserves (every P) (poll_step i)).
  { intros i. unfold poll_step. repeat pres_step; rec_side. }
  assert (Hc : preserves (every P) poll_cycle).
  { unfold poll_cycle. repeat pres_step. }
  induction n as [|n IH]; simpl; repeat pres_step.
Qed.

Lemma every_deactivate idx : preserves (every P) (deactivate idx).
Proof.
  pose proof (every_send_consigne idx) as Hsc.
  unfold deactivate. repeat pres_step; rec_side.
Qed.

Lemma every_activate idx : preserves (every P) (activate idx).
Proof.
  pose proof (every_send_consigne idx) as Hsc.
  pose proof (every_set_vanne idx) as Hsv.
  pose proof (every_apply_ramp_settings idx) as Har.
  assert (Hb : forall d s, preserves (every P) (activation idx d s)).
  { intros d s. unfold activation. repeat pres_step; rec_side. }
  assert (Hr : forall e, preserves (every P) (rollback idx e)).
  { intros e. unfold rollback. repeat pres_step; rec_side. }
  unfold activate. repeat pres_step.
Qed.

Lemma every_disconnect : preserves (every P) disconnect.
Proof. unfold disconnect. repeat pres_step; rec_side. Qed.

Lemma every_connect p : preserves (every P) (connect p).
Proof.
  pose proof every_disconnect as Hd.
  unfold connect. repeat pres_step; rec_side.
Qed.

Lemma every_exec s : preserves (every P) (exec s).
Proof.
  pose proof every_set_tag as H1. pose proof every_send_consigne as H2.
  pose proof every_set_vanne as H3. pose proof every_reset_totalization as H4.
  pose proof every_apply_ramp_settings as H5. pose proof every_select_gas as H6.
  pose proof every_deactivate as H7. pose proof every_activate as H8.
  pose proof every_connect as H9. pose proof every_disconnect as H10.
  pose proof (keep_load_tags (every P)) as H11.
  pose proof (keep_save_tags (every P)) as H12.
  pose proof every_poll_loop as H13.
  destruct s as [r|n]; simpl; [destruct r; simpl|];
    unfold Api.connect, Api.disconnect, Api.toggle_device, Api.set_tag,
      Api.set_consigne, Api.set_vanne, Api.reset_total, Api.set_ramp,
      Api.select_gas, Api.snapshot;
    repeat pres_step.
Qed.

Lemma every_run steps w : every P (mgr w) -> every P (mgr (run steps w)).
Proof. apply keep_run. apply every_exec. Qed.

End Records.

Section RecordsAlongRuns.

Lemma tag_eight_update f d : field_update f -> tag_eight d -> tag_eight (f d).
Proof.
  intros Hf Hd. destruct Hf; try exact Hd. unfold tag_eight. simpl. apply pad8_length.
Qed.

Lemma ramp_ok_update f d : field_update f -> ramp_ok d -> ramp_ok (f d).
Proof.
  intros Hf Hd. destruct Hf; try exact Hd. unfold ramp_ok. simpl.
  apply ramp_time_positive.
Qed.

Lemma init_tag_eight (tags : list string) (n : nat) :
  Forall (fun t => String.length t = 8%nat) tags ->
  every tag_eight (init_manager tags n).
Proof.
  intros Ht. unfold every, init_manager. simpl.
  apply Forall_fmap, Forall_forall. intros i _.
  unfold tag_eight, new_DeviceState, default_tag. cbn [tag compose].
  destruct (i <? length tags)%nat; [|apply pad8_length].
  destruct (tags !! i) as [t|] eqn:E; [|apply pad8_length].
  exact (Forall_lookup_1 _ _ _ _ Ht E).
Qed.

(** In the application as [main] starts it, with the tags that
    [load_tags] returns, every channel has a tag of eight characters at
    every point of every run; so the tag a channel shows is the tag that
    is packed for its device, with nothing cut and nothing padded. *)
Theorem tags_keep_eight_characters (bus : list call -> call -> reply)
    (clock : nat -> Z) (dir_ok writable : bool) (file : option (list string))
    (w0 : World) (steps : list step) :
  main bus clock dir_ok writable file = Ok w0 ->
  length (devices (mgr (run steps w0))) = 12%nat /\
  Forall (fun d => String.length (tag d) = 8%nat /\ pad8 (tag d) = tag d)
         (devices (mgr (run steps w0))).
Proof.
  unfold main. intros Hmain.
  destruct (load_tags (init_world [] 0 bus clock dir_ok writable file))
    as [[tags|e] w1] eqn:El; simpl in Hmain; [|discriminate].
  injection Hmain as <-.
  assert (Hdir : config_dir_ok (init_world [] 0 bus clock dir_ok writable file) = true).
  { revert El. unfold load_tags, bind, ensure_dir. simpl.
    destruct dir_ok; [reflexivity | discriminate]. }
  destruct (run_load_tags _ Hdir) as (tags' & El' & _ & Hall).
  rewrite El in El'. injection El' as <- _.
  split.
  - assert (Hs : sized 12 (mgr (run steps (init_world tags MAX_MASSIQUES bus clock
                                               dir_ok writable file)))).
    { apply (keep_run (sized 12)); [intros s; apply sized_exec | apply sized_init]. }
    destruct Hs as (_ & Hl & _). exact Hl.
  - assert (He : every tag_eight
                   (mgr (run steps (init_world tags MAX_MASSIQUES bus clock
                                      dir_ok writable file)))).
    { apply every_run; [apply tag_eight_update | apply init_tag_eight, Hall]. }
    eapply Forall_impl; [exact He|]. intros d Hd.
    split; [exact Hd | apply pad8_fixed, Hd].
Qed.

Lemma tags_keep_eight_characters_witness :
  Forall (fun d => String.length (tag d) = 8%nat /\ pad8 (tag d) = tag d)
         (devices (mgr (run [Request (Api.SetTag 2 "A")] (world0 quiet_bus)))).
Proof.
  assert (Hm : main quiet_bus (fun n => Z.of_nat n) true true None
               = Ok (world0 quiet_bus)) by (vm_compute; reflexivity).
  exact (proj2 (tags_keep_eight_characters _ _ _ _ _ _
                  [Request (Api.SetTag 2 "A")] Hm)).
Defined.

(** The stored ramp duration of every channel is never zero or negative,
    at any point of any run, whatever durations the commands were
    given. *)
Theorem ramp_time_stays_positive (tags : list string) (n : nat)
    (bus : list call -> call -> reply) (clock : nat -> Z)
    (dir_ok writable : bool) (file : option (list string)) (steps : list step) :
  Forall (fun d => fle (ramp_time_s d) f0 = false)
         (devices (mgr (run steps (init_world tags n bus clock dir_ok writable file)))).
Proof.
  apply (every_run ramp_ok ramp_ok_update).
  unfold every, init_world, init_manager. simpl.
  apply Forall_fmap, Forall_forall. intros i _. vm_compute. reflexivity.
Qed.

End RecordsAlongRuns.

(** ** The snapshot along a run *)

Section Snapshots.

Lemma cmd_update_index f d : cmd_update f -> index (f d) = index d.
Proof. intros Hf. destruct Hf; reflexivity. Qed.

Lemma indexed_alter f k m :
  (forall d, index (f d) = index d) -> indexed m ->
  indexed (set_devices (alter f k (devices m)) m).
Proof.
  intros Hf H i d. simpl. destruct (decide (k = i)) as [->|Hne].
  - rewrite list_lookup_alter_eq. destruct (devices m !! i) as [x|] eqn:E; [|discriminate].
    simpl. intros Hd. injection Hd as <-. rewrite Hf. apply H, E.
  - rewrite list_lookup_alter_ne by exact Hne. apply H.
Qed.

Lemma indexed_exec s : preserves indexed (exec s).
Proof.
  assert (Hcmd : forall f i m, True -> cmd_update f -> indexed m ->
                   indexed (set_devices (alter f i (devices m)) m)).
  { intros f i m _ Hf. apply indexed_alter. intros d. apply cmd_update_index, Hf. }
  assert (Hact : forall b i m, True -> indexed m ->
                   indexed (set_devices (alter (set_active b) i (devices m)) m)).
  { intros b i m _. apply indexed_alter. reflexivity. }
  apply keep_exec with (S := fun _ => True); try exact Hcmd; try (intros; exact I);
    try (intros; apply Hact; [exact I | assumption]);
    try (intros; assumption).
  - intros p. apply keep_connect with (S := fun _ => True); try exact Hcmd;
      try (intros; exact I); try (intros; apply Hact; [exact I | assumption]);
      try (intros; assumption).
  - apply keep_disconnect with (S := fun _ => True); try exact Hcmd;
      try (intros; exact I); try (intros; apply Hact; [exact I | assumption]);
      try (intros; assumption).
  - intros idx. apply keep_activate with (S := fun _ => True); try exact Hcmd;
      try (intros; exact I); try (intros; apply Hact; [exact I | assumption]);
      try (intros; assumption).
Qed.

Lemma indexed_init tags n : indexed (init_manager tags n).
Proof.
  intros i d. unfold init_manager. simpl. rewrite list_lookup_fmap.
  destruct (seq 0 n !! i) as [j|] eqn:E; [|discriminate].
  simpl. intros Hd. injection Hd as <-. simpl.
  apply lookup_seq in E. destruct E as [-> _]. reflexivity.
Qed.

(** At every point of every run the snapshot lists the [n] channels the
    manager was built with, in order, the entry at position [i] carrying
    the index [i]; and a snapshot that reports no connection shows every
    channel off. *)
Theorem snapshot_along_runs (tags : list string) (n : nat)
    (bus : list call -> call -> reply) (clock : nat -> Z)
    (dir_ok writable : bool) (file : option (list string)) (steps : list step) :
  let snap := snapshot (mgr (run steps (init_world tags n bus clock dir_ok
                                          writable file))) in
  length (s_devices snap) = n /\
  (forall i v, s_devices snap !! i = Some v -> v_index v = Z.of_nat i) /\
  (s_connected snap = false -> Forall (fun v => v_active v = false) (s_devices snap)).
Proof.
  set (w := run steps (init_world tags n bus clock dir_ok writable file)).
  assert (Hs : sized n (mgr w)).
  { apply (keep_run (sized n)); [intros s; apply sized_exec | apply sized_init]. }
  assert (Hi : indexed (mgr w)).
  { apply (keep_run indexed); [apply indexed_exec | apply indexed_init]. }
  assert (Hsafe : safe (mgr w)).
  { apply (keep_run safe); [apply safe_exec|]. split.
    - change (wf_mgr (init_manager tags n)).
      destruct (sized_init tags n) as (H0 & H1 & H2).
      split; [rewrite H1, H0 | rewrite H2, H0]; reflexivity.
    - intros _. simpl. split.
      + apply Forall_fmap, Forall_forall. intros; reflexivity.
      + apply Forall_replicate. reflexivity. }
  simpl. split; [|split].
  - rewrite length_fmap. apply Hs.
  - intros i v. rewrite list_lookup_fmap.
    destruct (devices (mgr w) !! i) as [d|] eqn:E; [|discriminate].
    simpl. intros Hv. injection Hv as <-. simpl. apply Hi, E.
  - intros Hc. destruct Hsafe as [_ Hsess]. destruct (Hsess Hc) as [Hoff _].
    apply Forall_fmap. eapply Forall_impl; [exact Hoff|]. intros d Hd. exact Hd.
Qed.

End Snapshots.

(** ** Active channels and driver objects *)

Section Pairing.

Lemma paired_cmd f k m :
  cmd_update f -> paired m -> paired (set_devices (alter f k (devices m)) m).
Proof.
  intros Hf H i d o. simpl. destruct (decide (k = i)) as [->|Hne].
  - rewrite list_lookup_alter_eq.
    destruct (devices m !! i) as [x|] eqn:E; [|discriminate].
    simpl. intros Hd Ho. injection Hd as <-.
    rewrite (cmd_update_active f x Hf). exact (H i x o E Ho).
  - rewrite list_lookup_alter_ne by exact Hne. apply H.
Qed.

Lemma paired_but_devices i f m :
  paired_but i m -> paired_but i (set_devices (alter f i (devices m)) m).
Proof.
  intros H j Hj d o. simpl. rewrite list_lookup_alter_ne by congruence. apply H, Hj.
Qed.

Lemma paired_but_mfc i v m :
  paired_but i m -> paired_but i (set_mfc_objs (<[i := v]> (mfc_objs m)) m).
Proof.
  intros H j Hj d o. simpl. rewrite list_lookup_insert_ne by congruence. apply H, Hj.
Qed.

Lemma paired_weaken i m : paired m -> paired_but i m.
Proof. intros H j _. apply H. Qed.

Lemma paired_idle m :
  Forall (fun d => active d = false) (devices m) ->
  Forall (fun o => o = None) (mfc_objs m) -> paired m.
Proof.
  intros Ha Hb i d o Hd Ho.
  rewrite (Forall_lookup_1 _ _ _ _ Ha Hd), (Forall_lookup_1 _ _ _ _ Hb Ho).
  split; [discriminate | congruence].
Qed.

(** The two assignments that switch a channel off. *)
Lemma paired_cleared (idx : Z) (k : M unit) (w : World) :
  (forall w1, paired (mgr w1) -> paired (mgr (snd (k w1)))) ->
  paired_but (Z.to_nat idx) (mgr w) ->
  paired (mgr (snd ((upd_dev (Z.to_nat idx) (set_active false) >>
                     set_mfc (Z.to_nat idx) None >> k) w))).
Proof.
  intros Hk H. set (i := Z.to_nat idx) in *.
  unfold upd_dev, set_mfc, bind, modify, gets, raise. simpl.
  assert (Hoff : forall d, alter (set_active false) i (devices (mgr w)) !! i = Some d ->
                           active d = false).
  { intros d. rewrite list_lookup_alter_eq.
    destruct (devices (mgr w) !! i); simpl; [|discriminate].
    intros Hd. injection Hd as <-. reflexivity. }
  destruct (i <? length (mfc_objs (mgr w)))%nat eqn:El; simpl.
  - apply Hk. simpl. intros j d o. simpl.
    destruct (decide (j = i)) as [->|Hne].
    + apply Nat.ltb_lt in El. rewrite list_lookup_insert_eq by exact El.
      intros Hd Ho. injection Ho as <-. rewrite (Hoff d Hd).
      split; [discriminate | congruence].
    + rewrite list_lookup_alter_ne, list_lookup_insert_ne by congruence.
      apply H, Hne.
  - intros j d o. simpl. destruct (decide (j = i)) as [->|Hne].
    + apply Nat.ltb_ge in El. intros _ Ho.
      rewrite lookup_ge_None_2 in Ho by exact El. discriminate.
    + rewrite list_lookup_alter_ne by congruence. apply H, Hne.
Qed.

Lemma paired_rollback idx e (w : World) :
  paired_but (Z.to_nat idx) (mgr w) -> paired (mgr (snd (rollback idx e w))).
Proof.
  intros H. unfold rollback. apply paired_cleared; [|exact H].
  intros w1 H1. exact H1.
Qed.

Lemma paired_but_activation idx d s :
  preserves (paired_but (Z.to_nat idx)) (activation idx d s).
Proof.
  apply keep_activation with (S := fun k => k = Z.to_nat idx);
    try reflexivity; intros; subst;
    first [apply paired_but_devices | apply paired_but_mfc]; assumption.
Qed.


Lemma paired_activate idx : preserves paired (activate idx).
Proof.
  intros w H. unfold activate, bind.
  destruct (_get idx w) as [[d|e] w0] eqn:Eg.
  2:{ pose proof (get_keeps_state idx w) as Hk. rewrite Eg in Hk. simpl in *.
      subst. exact H. }
  apply get_ok_inv in Eg as [-> Hd]. unfold gets. simpl.
  destruct (serial_port (mgr w)) as [s|]; [|exact H].
  destruct (is_open s); [|exact H].
  unfold try_except.
  pose proof (paired_but_activation idx d s w (paired_weaken _ _ H)) as Hb.
  destruct (activation idx d s w) as [[[]|e] w9] eqn:E; cbn [snd] in *.
  - destruct (activation_ok w w9 idx d s Hd E) as (Hbind & d' & Hd' & Ha & _).
    intros j. destruct (decide (j = Z.to_nat idx)) as [->|Hne]; [|apply Hb, Hne].
    intros x o Hx Ho. unfold chan in Hd'. rewrite Hd' in Hx. injection Hx as <-.
    unfold binding in Hbind. rewrite Ho in Hbind. simpl in Hbind. subst o.
    split; [discriminate | intros _; exact Ha].
  - apply paired_rollback, Hb.
Qed.

Lemma paired_shutdown idx d o : preserves paired (shutdown idx d o).
Proof.
  pose proof (fun v => keep_send_consigne paired (fun _ => True)
                (fun f i m _ Hf Hm => paired_cmd f i m Hf Hm) idx v I) as Hsc.
  unfold shutdown. repeat pres_step.
Qed.

Lemma paired_deactivate idx : preserves paired (deactivate idx).
Proof.
  intros w H. unfold deactivate. unfold bind at 1.
  destruct (_get idx w) as [[d|e] w0] eqn:Eg.
  2:{ pose proof (get_keeps_state idx w) as Hk. rewrite Eg in Hk. simpl in *.
      subst. exact H. }
  apply get_ok_inv in Eg as [-> Hd]. unfold bind at 1.
  destruct (get_mfc (Z.to_nat idx) w) as [[o|e] w0] eqn:Em.
  2:{ revert Em. unfold get_mfc, bind, gets, raise. simpl.
      destruct (mfc_objs (mgr w) !! Z.to_nat idx); [discriminate|].
      intros Em. injection Em as _ <-. exact H. }
  assert (w0 = w) as ->.
  { revert Em. unfold get_mfc, bind, gets, ret. simpl.
    destruct (mfc_objs (mgr w) !! Z.to_nat idx); [|discriminate].
    intros Em. injection Em as _ <-. reflexivity. }
  unfold bind at 1.
  pose proof (paired_shutdown idx d o w H) as Hs.
  pose proof (shutdown_returns idx d o w) as Hret.
  destruct (shutdown idx d o w) as [[[]|e] w1]; simpl in Hret, Hs; [|discriminate].
  apply paired_cleared; [|apply paired_weaken, Hs].
  intros w2 H2. unfold upd_dev, modify. simpl.
  apply paired_cmd; [constructor | exact H2].
Qed.

Lemma preserves_both {A} (J1 J2 : MassiqueManager -> Prop) (m : M A) :
  preserves J1 m -> preserves J2 m -> preserves (fun x => J1 x /\ J2 x) m.
Proof. intros H1 H2 w [Ha Hb]. split; [apply H1, Ha | apply H2, Hb]. Qed.

Lemma consistent_cmd f i m :
  cmd_update f -> consistent m -> consistent (set_devices (alter f i (devices m)) m).
Proof.
  intros Hf [Hs Hp]. split; [apply safe_closed_cmd | apply paired_cmd]; assumption.
Qed.

Lemma consistent_disconnect : preserves consistent disconnect.
Proof.
  intros w [Hs Hp]. split; [apply safe_disconnect, Hs|].
  destruct Hs as [Hwf _]. rewrite (run_disconnect w Hwf). cbn [snd].
  apply paired_idle; apply all_off_inactive.
Qed.

Lemma consistent_connect p : preserves consistent (connect p).
Proof.
  intros w [Hs Hp]. split; [apply safe_connect, Hs|].
  destruct Hs as [Hwf _]. unfold connect. unfold bind at 1.
  rewrite (run_disconnect w Hwf).
  assert (Hidle : all_idle (mgr (disconnected w))).
  { split; [apply (disconnected_wf w Hwf) | apply all_off_inactive]. }
  assert (Hfin : all_idle (mgr (snd ((let! s := open_serial_port p in
                                      modify (set_serial_port (Some s)) >> _start_polling)
                                       (disconnected w))))).
  { revert Hidle. generalize (disconnected w). clear w Hwf Hp.
    change (preserves all_idle
              (let! s := open_serial_port p in
               modify (set_serial_port (Some s)) >> _start_polling)).
    repeat pres_step; intros m (Hwf & Ha & Hb); (split; [|split]); assumption. }
  destruct Hfin as (_ & Ha & Hb). apply paired_idle; assumption.
Qed.

Lemma consistent_activate idx : preserves consistent (activate idx).
Proof. apply preserves_both; [apply safe_activate | apply paired_activate]. Qed.

Lemma consistent_deactivate idx : preserves consistent (deactivate idx).
Proof.
  apply preserves_both; [|apply paired_deactivate].
  apply keep_deactivate with (S := fun _ => True);
    first [ exact I
          | intros; first [ apply safe_closed_cmd; assumption
                          | apply safe_closed_off; assumption
                          | apply safe_closed_unbind; assumption ] ].
Qed.

Lemma consistent_exec s : preserves consistent (exec s).
Proof.
  assert (Hcmd : forall f i m, True -> cmd_update f -> consistent m ->
                   consistent (set_devices (alter f i (devices m)) m)).
  { intros f i m _. apply consistent_cmd. }
  pose proof (fun idx t => keep_set_tag consistent (fun _ => True) Hcmd idx t I) as H1.
  pose proof (fun idx v => keep_send_consigne consistent (fun _ => True) Hcmd idx v I)
    as H2.
  pose proof (fun idx a => keep_set_vanne consistent (fun _ => True) Hcmd idx a I) as H3.
  pose proof (fun idx => keep_reset_totalization consistent (fun _ => True) Hcmd idx I)
    as H4.
  pose proof (fun idx a t =>
                keep_apply_ramp_settings consistent (fun _ => True) Hcmd idx a t I) as H5.
  pose proof (fun idx g => keep_select_gas consistent (fun _ => True) Hcmd idx g I) as H6.
  pose proof consistent_deactivate as H7. pose proof consistent_activate as H8.
  pose proof consistent_connect as H9. pose proof consistent_disconnect as H10.
  pose proof (keep_load_tags consistent) as H11.
  pose proof (keep_save_tags consistent) as H12.
  pose proof (fun n => keep_poll_loop consistent (fun _ => True) Hcmd n (fun _ => I))
    as H13.
  destruct s as [r|n]; simpl; [destruct r; simpl|];
    unfold Api.connect, Api.disconnect, Api.toggle_device, Api.set_tag,
      Api.set_consigne, Api.set_vanne, Api.reset_total, Api.set_ramp,
      Api.select_gas, Api.snapshot;
    repeat pres_step.
Qed.

Lemma consistent_init tags n : consistent (init_manager tags n).
Proof.
  assert (Ha : Forall (fun d => active d = false) (devices (init_manager tags n))).
  { simpl. apply Forall_fmap, Forall_forall. intros; reflexivity. }
  assert (Hb : Forall (fun o : option Mfc => o = None) (mfc_objs (init_manager tags n))).
  { simpl. apply Forall_replicate. reflexivity. }
  split; [|apply paired_idle; assumption].
  split; [|intros _; split; assumption].
  destruct (sized_init tags n) as (H0 & H1 & H2).
  split; [rewrite H1, H0 | rewrite H2, H0]; reflexivity.
Qed.

(** At every point of every run, a channel is active exactly when the
    manager holds a driver object for it; so the two checks that
    [_need_mfc] makes always agree, and a channel shown as on in the
    snapshot is one the commands accept. *)
Theorem active_iff_bound_along_runs (tags : list string) (n : nat)
    (bus : list call -> call -> reply) (clock : nat -> Z)
    (dir_ok writable : bool) (file : option (list string)) (steps : list step)
    (idx : Z) (d : DeviceState) :
  chan (run steps (init_world tags n bus clock dir_ok writable file)) idx = Some d ->
  (active d = true <->
   exists m, binding (run steps (init_world tags n bus clock dir_ok writable file)) idx
             = Some m).
Proof.
  set (w := run steps (init_world tags n bus clock dir_ok writable file)).
  assert (Hc : consistent (mgr w)).
  { apply (keep_run consistent); [apply consistent_exec | apply consistent_init]. }
  destruct Hc as [[[Hl1 Hl2] _] Hp]. intros Hd. unfold chan in Hd.
  destruct (lookup_lt_is_Some_2 (mfc_objs (mgr w)) (Z.to_nat idx)) as [o Ho].
  { rewrite Hl2, <- Hl1. apply lookup_lt_is_Some_1. rewrite Hd. eauto. }
  unfold binding. rewrite Ho. simpl.
  destruct (Hp (Z.to_nat idx) d o Hd Ho) as [H1 H2]. split.
  - intros Ha. destruct o as [m|]; [eauto|]. exfalso. apply (H1 Ha). reflexivity.
  - intros [m ->]. apply H2. discriminate.
Qed.

Lemma active_iff_bound_along_runs_witness :
  exists m,
    binding (run [Request (Api.Connect "COM3");
                  Request (Api.ToggleDevice 0 (VBool true)); Poll 1]
               (init_world [] 12 bench_bus (fun n => Z.of_nat n) true true None)) 0
    = Some m.
Proof.
  assert (Hd : chan (run [Request (Api.Connect "COM3");
                          Request (Api.ToggleDevice 0 (VBool true)); Poll 1]
                       (init_world [] 12 bench_bus (fun n => Z.of_nat n) true true None)) 0
               = Some (chan0 (w_polled bench_bus)))
    by (vm_compute; reflexivity).
  assert (Ha : active (chan0 (w_polled bench_bus)) = true) by (vm_compute; reflexivity).
  exact (proj1 (active_iff_bound_along_runs [] 12 bench_bus
                  (fun n => Z.of_nat n) true true None
                  [Request (Api.Connect "COM3");
                   Request (Api.ToggleDevice 0 (VBool true)); Poll 1]
                  0 (chan0 (w_polled bench_bus)) Hd) Ha).
Defined.

End Pairing.
